(** * Sistema de Gestão de Camarim: quantity ledgers, catalog and managers

    A shallow embedding of the C++ classes [Estoque], [Camarim], [Pedido],
    [ListaCompras], [GerenciadorItens], [GerenciadorArtistas],
    [GerenciadorCamarins] and [GerenciadorPedidos], and the properties of
    their quantity accounting.

    Conventions of the embedding:
    - [int] is a [Z]; the two places where the code adds ints
      ([quantidade += ...] and [proximoId++]) go through [CppInt.add], which
      has no result when the sum leaves the 32-bit range (signed overflow has
      no defined behaviour in C++);
    - [double] is the kernel's binary64 [float];
    - [std::map<int, T>] is a [gmap Z T], [std::vector<T>] a [list T],
      [std::string] a [string];
    - a method of a class with state [S] returning [A] is a function
      [S -> resultado S A]: it returns a value and the state after the call,
      or propagates an exception together with the state the object is left
      in, or is undefined. *)

From Stdlib Require Import ZArith PrimFloat Uint63.
From stdpp Require Import gmap strings list pretty sorting.

Local Open Scope Z_scope.

(** ** The [int] and [double] operations the code uses *)

Module CppInt.

Definition INT_MAX : Z := 2147483647.
Definition INT_MIN : Z := -2147483648.

Definition representavel (z : Z) : bool :=
  (INT_MIN <=? z) && (z <=? INT_MAX).

(** [a + b] on [int]: defined only when the sum is representable. *)
Definition add (a b : Z) : option Z :=
  if representavel (a + b) then Some (a + b) else None.

(** The implicit conversion of an [int] operand to [double]. *)
Definition to_double (z : Z) : float :=
  if z <? 0 then PrimFloat.opp (PrimFloat.of_uint63 (Uint63.of_Z (- z)))
  else PrimFloat.of_uint63 (Uint63.of_Z z).

(** [q * p] with [q : int] and [p : double]. *)
Definition mul_double (q : Z) (p : float) : float :=
  PrimFloat.mul (to_double q) p.

(** [p < 0] with [p : double]. *)
Definition double_neg (p : float) : bool :=
  PrimFloat.ltb p (to_double 0).

End CppInt.

(** [std::string::empty]. *)
Definition empty (s : string) : bool :=
  match s with
  | EmptyString => true
  | String _ _ => false
  end.

(** [p != nullptr] for a pointer modelled as an [option]. *)
Definition nao_nulo {A} (p : option A) : bool :=
  match p with
  | Some _ => true
  | None => false
  end.

(** [std::to_string(int)]. *)
Definition to_string (z : Z) : string := pretty z.

(** ** excecoes.h *)

Module Excecoes.

(** The classes of the hierarchy. *)
Inductive classe : Type :=
| c_Base
| c_Validacao
| c_Artista
| c_Item
| c_Estoque
| c_EstoqueInsuficiente
| c_Camarim
| c_Pedido
| c_ListaCompras.

(** The direct base class ([None] for [ExcecaoBase], which derives from
    [std::exception]). *)
Definition superclasse (c : classe) : option classe :=
  match c with
  | c_Base => None
  | c_EstoqueInsuficiente => Some c_Estoque
  | _ => Some c_Base
  end.

Definition classe_eqb (a b : classe) : bool :=
  match a, b with
  | c_Base, c_Base | c_Validacao, c_Validacao | c_Artista, c_Artista
  | c_Item, c_Item | c_Estoque, c_Estoque
  | c_EstoqueInsuficiente, c_EstoqueInsuficiente | c_Camarim, c_Camarim
  | c_Pedido, c_Pedido | c_ListaCompras, c_ListaCompras => true
  | _, _ => false
  end.

(** [catch (const handler&)] accepts an exception of class [c]: the
    hierarchy has depth three. *)
Definition capturada_por (handler c : classe) : bool :=
  classe_eqb handler c
  || match superclasse c with
     | Some p =>
         classe_eqb handler p
         || match superclasse p with
            | Some pp => classe_eqb handler pp
            | None => false
            end
     | None => false
     end.

(** An exception object: its dynamic class and the stored [mensagem]
    (what [what()] returns). *)
Record excecao : Type := Excecao { tipo : classe; mensagem : string }.

Definition ExcecaoBase (msg : string) : excecao := Excecao c_Base msg.

Definition derivada (c : classe) (base : excecao) : excecao :=
  Excecao c (mensagem base).

Definition ValidacaoException (msg : string) : excecao :=
  derivada c_Validacao (ExcecaoBase ("Erro de Validação: " +:+ msg)).
Definition ArtistaException (msg : string) : excecao :=
  derivada c_Artista (ExcecaoBase ("Erro com Artista: " +:+ msg)).
Definition ItemException (msg : string) : excecao :=
  derivada c_Item (ExcecaoBase ("Erro com Item: " +:+ msg)).
Definition EstoqueException (msg : string) : excecao :=
  derivada c_Estoque (ExcecaoBase ("Erro de Estoque: " +:+ msg)).
Definition EstoqueInsuficienteException (msg : string) : excecao :=
  derivada c_EstoqueInsuficiente
    (EstoqueException ("Estoque insuficiente: " +:+ msg)).
Definition CamarimException (msg : string) : excecao :=
  derivada c_Camarim (ExcecaoBase ("Erro com Camarim: " +:+ msg)).
Definition PedidoException (msg : string) : excecao :=
  derivada c_Pedido (ExcecaoBase ("Erro com Pedido: " +:+ msg)).
Definition ListaComprasException (msg : string) : excecao :=
  derivada c_ListaCompras (ExcecaoBase ("Erro com Lista de Compras: " +:+ msg)).

End Excecoes.
Import Excecoes.

(** ** Methods: state passing with exceptions *)

Inductive resultado (S A : Type) : Type :=
| Retorna (valor : A) (depois : S)
| Lanca (e : excecao) (depois : S)
| Indefinido.
Arguments Retorna {S A} valor depois.
Arguments Lanca {S A} e depois.
Arguments Indefinido {S A}.

Definition metodo (S A : Type) : Type := S -> resultado S A.

Definition retorna {S A} (a : A) : metodo S A := fun s => Retorna a s.
Definition throw {S A} (e : excecao) : metodo S A := fun s => Lanca e s.
Definition seq {S A B} (m : metodo S A) (k : A -> metodo S B) : metodo S B :=
  fun s =>
    match m s with
    | Retorna a s' => k a s'
    | Lanca e s' => Lanca e s'
    | Indefinido => Indefinido
    end.
Definition le_estado {S} : metodo S S := fun s => Retorna s s.
Definition grava {S} (s : S) : metodo S unit := fun _ => Retorna tt s.
(** A statement guarded by [if (c)]. *)
Definition se {S} (c : bool) (m : metodo S unit) : metodo S unit :=
  if c then m else retorna tt.
(** An [int] operation inside a method. *)
Definition definido {S A} (o : option A) : metodo S A :=
  match o with
  | Some a => retorna a
  | None => fun _ => Indefinido
  end.

Declare Scope metodo_scope.
Delimit Scope metodo_scope with metodo.
Notation "x <- m ;; k" := (seq m (fun x => k))
  (at level 100, m at next level, right associativity) : metodo_scope.
Notation "m ;;; k" := (seq m (fun _ => k))
  (at level 100, right associativity) : metodo_scope.
Local Open Scope metodo_scope.

(** [m[k]] read through [std::map::operator[]]; every such read in the code
    follows a successful [find], so the key is present ([padrao] is the
    default-constructed element [operator[]] yields otherwise). *)
Definition elemento {T} (padrao : T) (m : gmap Z T) (k : Z) : T :=
  default padrao (m !! k).

(** A range-based [for] over a [std::map<int, T>] visits the pairs in
    ascending key order. *)
Definition chave_le {T} : relation (Z * T) := fun a b => a.1 <= b.1.

#[global] Instance chave_le_dec {T} (a b : Z * T) : Decision (chave_le a b).
Proof. unfold chave_le. apply _. Defined.

Definition em_ordem {T} (m : gmap Z T) : list (Z * T) :=
  merge_sort chave_le (map_to_list m).

(** The pointer a linear search returns, as the position of the first
    element that satisfies [p]; [nullptr] is [None]. *)
Fixpoint posicao {T} (p : T -> bool) (vetor : list T) : option nat :=
  match vetor with
  | [] => None
  | x :: resto =>
      if p x then Some 0%nat
      else match posicao p resto with
           | Some i => Some (S i)
           | None => None
           end
  end.

(** [ptr->m(...)] where [ptr] points at element [i] of the vector member of
    a manager: the method runs on that element in place, so the element keeps
    what the method did to it also when the method throws. *)
Definition no_elemento {G T A} (vetor : G -> list T)
    (com_vetor : list T -> G -> G) (i : nat) (m : metodo T A) : metodo G A :=
  fun g =>
    match vetor g !! i with
    | None => Indefinido
    | Some x =>
        match m x with
        | Retorna a x' => Retorna a (com_vetor (<[i := x']> (vetor g)) g)
        | Lanca e x' => Lanca e (com_vetor (<[i := x']> (vetor g)) g)
        | Indefinido => Indefinido
        end
    end.

(** ** estoque.h / estoque.cpp *)

Module Estoque.

Record ItemEstoque : Type := mkItemEstoque {
  itemId : Z;
  nomeItem : string;
  quantidade : Z
}.

(** [ItemEstoque()]. *)
Definition padrao : ItemEstoque := mkItemEstoque 0 "" 0.

(** [item.quantidade = q]. *)
Definition com_quantidade (q : Z) (item : ItemEstoque) : ItemEstoque :=
  mkItemEstoque (itemId item) (nomeItem item) q.

(** The only data member of [class Estoque] is [map<int, ItemEstoque> itens]. *)
Record Estoque : Type := mkEstoque { itens : gmap Z ItemEstoque }.

Definition vazio : Estoque := mkEstoque ∅.

Definition adicionarItem (itemId : Z) (nomeItem : string) (quantidade : Z)
  : metodo Estoque unit :=
  se (itemId <? 0) (throw (ValidacaoException "ID do item inválido")) ;;;
  se (empty nomeItem)
     (throw (ValidacaoException "Nome do item não pode ser vazio")) ;;;
  se (quantidade <? 0)
     (throw (ValidacaoException "Quantidade não pode ser negativa")) ;;;
  this <- le_estado ;;
  match itens this !! itemId with
  | Some item =>
      q <- definido (CppInt.add (Estoque.quantidade item) quantidade) ;;
      grava (mkEstoque (<[itemId := com_quantidade q item]> (itens this)))
  | None =>
      grava (mkEstoque
               (<[itemId := mkItemEstoque itemId nomeItem quantidade]>
                  (itens this)))
  end.

Definition removerItem (itemId : Z) (quantidade : Z) : metodo Estoque bool :=
  this <- le_estado ;;
  match itens this !! itemId with
  | None =>
      throw (EstoqueException
               ("Item não encontrado no estoque (ID: "
                  +:+ to_string itemId +:+ ")"))
  | Some item =>
      se (quantidade <? 0)
         (throw (ValidacaoException "Quantidade não pode ser negativa")) ;;;
      se (Estoque.quantidade item <? quantidade)
         (throw (EstoqueInsuficienteException
                   ("Quantidade insuficiente. Disponível: "
                      +:+ to_string (Estoque.quantidade item)
                      +:+ ", Solicitado: " +:+ to_string quantidade))) ;;;
      (* 0 <= quantidade <= item.quantidade here, so the difference of the
         two ints is an int: see [sub_guardada] *)
      grava (mkEstoque
               (<[itemId := com_quantidade
                              (Estoque.quantidade item - quantidade) item]>
                  (itens this))) ;;;
      this <- le_estado ;;
      se (Estoque.quantidade (elemento padrao (itens this) itemId) =? 0)
         (grava (mkEstoque (delete itemId (itens this)))) ;;;
      retorna true
  end.

Definition verificarDisponibilidade (itemId : Z) (quantidade : Z)
    (this : Estoque) : bool :=
  match itens this !! itemId with
  | None => false
  | Some item => Estoque.quantidade item >=? quantidade
  end.

Definition obterQuantidade (itemId : Z) (this : Estoque) : Z :=
  match itens this !! itemId with
  | None => 0
  | Some item => Estoque.quantidade item
  end.

Definition atualizarQuantidade (itemId : Z) (novaQuantidade : Z)
  : metodo Estoque unit :=
  this <- le_estado ;;
  match itens this !! itemId with
  | None => throw (EstoqueException "Item não encontrado no estoque")
  | Some item =>
      se (novaQuantidade <? 0)
         (throw (ValidacaoException "Quantidade não pode ser negativa")) ;;;
      grava (mkEstoque
               (<[itemId := com_quantidade novaQuantidade item]>
                  (itens this))) ;;;
      this <- le_estado ;;
      se (novaQuantidade =? 0)
         (grava (mkEstoque (delete itemId (itens this))))
  end.

Definition listar (this : Estoque) : list ItemEstoque :=
  (em_ordem (itens this)).*2.

End Estoque.

(** ** camarim.h / camarim.cpp *)

Module Camarim.

Record ItemCamarim : Type := mkItemCamarim {
  itemId : Z;
  nomeItem : string;
  quantidade : Z
}.

(** [ItemCamarim()]. *)
Definition padrao : ItemCamarim := mkItemCamarim 0 "" 0.

Definition com_quantidade (q : Z) (item : ItemCamarim) : ItemCamarim :=
  mkItemCamarim (itemId item) (nomeItem item) q.

Record Camarim : Type := mkCamarim {
  id : Z;
  nome : string;
  artistaId : Z;
  itens : gmap Z ItemCamarim
}.

(** [Camarim(id, nome, artistaId)]: the map starts empty. *)
Definition novo (id : Z) (nome : string) (artistaId : Z) : Camarim :=
  mkCamarim id nome artistaId ∅.

(** [this->itens = m]. *)
Definition com_itens (m : gmap Z ItemCamarim) (this : Camarim) : Camarim :=
  mkCamarim (id this) (nome this) (artistaId this) m.

Definition getId (this : Camarim) : Z := id this.
Definition getNome (this : Camarim) : string := nome this.
Definition getArtistaId (this : Camarim) : Z := artistaId this.

Definition setNome (nome : string) : metodo Camarim unit :=
  se (empty nome)
     (throw (ValidacaoException "Nome do camarim não pode ser vazio")) ;;;
  this <- le_estado ;;
  grava (mkCamarim (id this) nome (artistaId this) (itens this)).

Definition setArtistaId (artistaId : Z) : metodo Camarim unit :=
  this <- le_estado ;;
  grava (mkCamarim (id this) (Camarim.nome this) artistaId (itens this)).

Definition inserirItem (itemId : Z) (nomeItem : string) (quantidade : Z)
  : metodo Camarim unit :=
  se (itemId <? 0) (throw (ValidacaoException "ID do item inválido")) ;;;
  se (empty nomeItem)
     (throw (ValidacaoException "Nome do item não pode ser vazio")) ;;;
  se (quantidade <=? 0)
     (throw (ValidacaoException "Quantidade deve ser maior que zero")) ;;;
  this <- le_estado ;;
  match itens this !! itemId with
  | Some item =>
      q <- definido (CppInt.add (Camarim.quantidade item) quantidade) ;;
      grava (com_itens (<[itemId := com_quantidade q item]> (itens this)) this)
  | None =>
      grava (com_itens
               (<[itemId := mkItemCamarim itemId nomeItem quantidade]>
                  (itens this)) this)
  end.

Definition removerItem (itemId : Z) (quantidade : Z) : metodo Camarim bool :=
  this <- le_estado ;;
  match itens this !! itemId with
  | None => throw (CamarimException "Item não encontrado no camarim")
  | Some item =>
      se (quantidade <=? 0)
         (throw (ValidacaoException "Quantidade deve ser maior que zero")) ;;;
      se (Camarim.quantidade item <? quantidade)
         (throw (CamarimException "Quantidade insuficiente no camarim")) ;;;
      (* 0 < quantidade <= item.quantidade here: see [sub_guardada] *)
      grava (com_itens
               (<[itemId := com_quantidade
                              (Camarim.quantidade item - quantidade) item]>
                  (itens this)) this) ;;;
      this <- le_estado ;;
      se (Camarim.quantidade (elemento padrao (itens this) itemId) =? 0)
         (grava (com_itens (delete itemId (itens this)) this)) ;;;
      retorna true
  end.

Record GerenciadorCamarins : Type := mkGerenciadorCamarins {
  camarins : list Camarim;
  proximoId : Z
}.

(** [GerenciadorCamarins()]. *)
Definition gerenciador_novo : GerenciadorCamarins :=
  mkGerenciadorCamarins [] 1.

Definition cadastrar (nome : string) (artistaId : Z)
  : metodo GerenciadorCamarins Z :=
  se (empty nome)
     (throw (ValidacaoException "Nome do camarim não pode ser vazio")) ;;;
  this <- le_estado ;;
  let novoCamarim := novo (proximoId this) nome artistaId in
  grava (mkGerenciadorCamarins (camarins this ++ [novoCamarim])
           (proximoId this)) ;;;
  (* return proximoId++ *)
  this <- le_estado ;;
  seguinte <- definido (CppInt.add (proximoId this) 1) ;;
  grava (mkGerenciadorCamarins (camarins this) seguinte) ;;;
  retorna (proximoId this).

(** The pointer [buscarPorId] returns is modelled by the element it
    points to; [nullptr] is [None]. *)
Fixpoint buscar (id : Z) (camarins : list Camarim) : option Camarim :=
  match camarins with
  | [] => None
  | camarim :: resto =>
      if getId camarim =? id then Some camarim else buscar id resto
  end.

Definition buscarPorId (id : Z) (this : GerenciadorCamarins)
  : option Camarim := buscar id (camarins this).

(** [remove_if] keeps, in order, the elements that do not satisfy the
    predicate; its result [it] differs from [end()] exactly when an element
    was dropped, and [erase(it, end())] then cuts the vector there. *)
Definition remover (id : Z) : metodo GerenciadorCamarins bool :=
  this <- le_estado ;;
  let mantidos :=
    List.filter (fun c => negb (getId c =? id)) (camarins this) in
  if (length mantidos <? length (camarins this))%nat
  then grava (mkGerenciadorCamarins mantidos (proximoId this)) ;;;
       retorna true
  else retorna false.

Definition com_camarins (v : list Camarim) (this : GerenciadorCamarins)
  : GerenciadorCamarins := mkGerenciadorCamarins v (proximoId this).

Definition setId (id : Z) : metodo Camarim unit :=
  se (id <? 0) (throw (ValidacaoException "ID do camarim inválido")) ;;;
  this <- le_estado ;;
  grava (mkCamarim id (nome this) (artistaId this) (itens this)).

Fixpoint buscar_artista (artistaId : Z) (camarins : list Camarim)
  : option Camarim :=
  match camarins with
  | [] => None
  | camarim :: resto =>
      if getArtistaId camarim =? artistaId then Some camarim
      else buscar_artista artistaId resto
  end.

Definition buscarPorArtista (artistaId : Z) (this : GerenciadorCamarins)
  : option Camarim := buscar_artista artistaId (camarins this).

Definition listar (this : GerenciadorCamarins) : list Camarim :=
  camarins this.

Definition atualizar (id : Z) (nome : string) (artistaId : Z)
  : metodo GerenciadorCamarins bool :=
  this <- le_estado ;;
  match posicao (fun c => getId c =? id) (camarins this) with
  | None =>
      throw (CamarimException
               ("Camarim com ID " +:+ to_string id +:+ " não encontrado"))
  | Some camarim =>
      no_elemento camarins com_camarins camarim (setNome nome) ;;;
      no_elemento camarins com_camarins camarim (setArtistaId artistaId) ;;;
      retorna true
  end.

End Camarim.

(** ** pedido.h / pedido.cpp *)

Module Pedido.

Record ItemPedido : Type := mkItemPedido {
  itemId : Z;
  nomeItem : string;
  quantidade : Z
}.

Definition com_quantidade (q : Z) (item : ItemPedido) : ItemPedido :=
  mkItemPedido (itemId item) (nomeItem item) q.

Record Pedido : Type := mkPedido {
  id : Z;
  camarimId : Z;
  nomeArtista : string;
  itens : gmap Z ItemPedido;
  atendido : bool
}.

(** [Pedido(id, camarimId, nomeArtista)]: no items, pending. *)
Definition novo (id camarimId : Z) (nomeArtista : string) : Pedido :=
  mkPedido id camarimId nomeArtista ∅ false.

Definition com_itens (m : gmap Z ItemPedido) (this : Pedido) : Pedido :=
  mkPedido (id this) (camarimId this) (nomeArtista this) m (atendido this).

Definition getId (this : Pedido) : Z := id this.
Definition getCamarimId (this : Pedido) : Z := camarimId this.
Definition isAtendido (this : Pedido) : bool := atendido this.

Definition setAtendido (atendido : bool) : metodo Pedido unit :=
  this <- le_estado ;;
  grava (mkPedido (id this) (camarimId this) (nomeArtista this)
           (itens this) atendido).

Definition adicionarItem (itemId : Z) (nomeItem : string) (quantidade : Z)
  : metodo Pedido unit :=
  this <- le_estado ;;
  se (atendido this)
     (throw (PedidoException
               "Não é possível adicionar itens a um pedido já atendido")) ;;;
  se (itemId <? 0) (throw (ValidacaoException "ID do item inválido")) ;;;
  se (empty nomeItem)
     (throw (ValidacaoException "Nome do item não pode ser vazio")) ;;;
  se (quantidade <=? 0)
     (throw (ValidacaoException "Quantidade deve ser maior que zero")) ;;;
  match itens this !! itemId with
  | Some item =>
      q <- definido (CppInt.add (Pedido.quantidade item) quantidade) ;;
      grava (com_itens (<[itemId := com_quantidade q item]> (itens this)) this)
  | None =>
      grava (com_itens
               (<[itemId := mkItemPedido itemId nomeItem quantidade]>
                  (itens this)) this)
  end.

Definition removerItem (itemId : Z) : metodo Pedido bool :=
  this <- le_estado ;;
  se (atendido this)
     (throw (PedidoException
               "Não é possível remover itens de um pedido já atendido")) ;;;
  match itens this !! itemId with
  | None => retorna false
  | Some _ =>
      grava (com_itens (delete itemId (itens this)) this) ;;;
      retorna true
  end.

Definition marcarAtendido : metodo Pedido unit :=
  this <- le_estado ;;
  grava (mkPedido (id this) (camarimId this) (nomeArtista this)
           (itens this) true).

Record GerenciadorPedidos : Type := mkGerenciadorPedidos {
  pedidos : list Pedido;
  proximoId : Z
}.

(** [GerenciadorPedidos()]. *)
Definition gerenciador_novo : GerenciadorPedidos := mkGerenciadorPedidos [] 1.

Definition criar (camarimId : Z) (nomeArtista : string)
  : metodo GerenciadorPedidos Z :=
  se (camarimId <? 0) (throw (ValidacaoException "ID do camarim inválido")) ;;;
  se (empty nomeArtista)
     (throw (ValidacaoException "Nome do artista não pode ser vazio")) ;;;
  this <- le_estado ;;
  let novoPedido := novo (proximoId this) camarimId nomeArtista in
  grava (mkGerenciadorPedidos (pedidos this ++ [novoPedido])
           (proximoId this)) ;;;
  (* return proximoId++ *)
  this <- le_estado ;;
  seguinte <- definido (CppInt.add (proximoId this) 1) ;;
  grava (mkGerenciadorPedidos (pedidos this) seguinte) ;;;
  retorna (proximoId this).

Definition listarPendentes (this : GerenciadorPedidos) : list Pedido :=
  List.filter (fun pedido => negb (isAtendido pedido)) (pedidos this).

Definition setId (id : Z) : metodo Pedido unit :=
  se (id <? 0) (throw (ValidacaoException "ID do pedido inválido")) ;;;
  this <- le_estado ;;
  grava (mkPedido id (camarimId this) (nomeArtista this) (itens this)
           (atendido this)).

Definition setCamarimId (camarimId : Z) : metodo Pedido unit :=
  se (camarimId <? 0) (throw (ValidacaoException "ID do camarim inválido")) ;;;
  this <- le_estado ;;
  grava (mkPedido (id this) camarimId (nomeArtista this) (itens this)
           (atendido this)).

Definition setNomeArtista (nomeArtista : string) : metodo Pedido unit :=
  se (empty nomeArtista)
     (throw (ValidacaoException "Nome do artista não pode ser vazio")) ;;;
  this <- le_estado ;;
  grava (mkPedido (id this) (camarimId this) nomeArtista (itens this)
           (atendido this)).

Definition com_pedidos (v : list Pedido) (this : GerenciadorPedidos)
  : GerenciadorPedidos := mkGerenciadorPedidos v (proximoId this).

Fixpoint buscar (id : Z) (pedidos : list Pedido) : option Pedido :=
  match pedidos with
  | [] => None
  | pedido :: resto =>
      if getId pedido =? id then Some pedido else buscar id resto
  end.

Definition buscarPorId (id : Z) (this : GerenciadorPedidos) : option Pedido :=
  buscar id (pedidos this).

Definition buscarPorCamarim (camarimId : Z) (this : GerenciadorPedidos)
  : list Pedido :=
  List.filter (fun pedido => getCamarimId pedido =? camarimId) (pedidos this).

Definition remover (id : Z) : metodo GerenciadorPedidos bool :=
  this <- le_estado ;;
  let mantidos := List.filter (fun p => negb (getId p =? id)) (pedidos this) in
  if (length mantidos <? length (pedidos this))%nat
  then grava (mkGerenciadorPedidos mantidos (proximoId this)) ;;;
       retorna true
  else retorna false.

Definition listar (this : GerenciadorPedidos) : list Pedido := pedidos this.

End Pedido.

(** ** listacompras.h / listacompras.cpp *)

Module ListaCompras.

Record ItemCompra : Type := mkItemCompra {
  itemId : Z;
  nomeItem : string;
  quantidade : Z;
  preco : float;
  subtotal : float
}.

(** [ItemCompra(id, nome, qtd, preco)] computes [subtotal(qtd * preco)]. *)
Definition novoItemCompra (id : Z) (nome : string) (qtd : Z) (preco : float)
  : ItemCompra :=
  mkItemCompra id nome qtd preco (CppInt.mul_double qtd preco).

(** [ItemCompra()]. *)
Definition padrao : ItemCompra :=
  mkItemCompra 0 "" 0 (CppInt.to_double 0) (CppInt.to_double 0).

Definition com_quantidade (q : Z) (item : ItemCompra) : ItemCompra :=
  mkItemCompra (itemId item) (nomeItem item) q (preco item) (subtotal item).

Definition com_subtotal (s : float) (item : ItemCompra) : ItemCompra :=
  mkItemCompra (itemId item) (nomeItem item) (quantidade item) (preco item) s.

Record ListaCompras : Type := mkListaCompras {
  id : Z;
  descricao : string;
  itens : gmap Z ItemCompra
}.

(** [ListaCompras(id, descricao)]. *)
Definition nova (id : Z) (descricao : string) : ListaCompras :=
  mkListaCompras id descricao ∅.

Definition com_itens (m : gmap Z ItemCompra) (this : ListaCompras)
  : ListaCompras := mkListaCompras (id this) (descricao this) m.

Definition adicionarItem (itemId : Z) (nomeItem : string) (quantidade : Z)
    (preco : float) : metodo ListaCompras unit :=
  se (itemId <? 0) (throw (ValidacaoException "ID do item inválido")) ;;;
  se (empty nomeItem)
     (throw (ValidacaoException "Nome do item não pode ser vazio")) ;;;
  se (quantidade <=? 0)
     (throw (ValidacaoException "Quantidade deve ser maior que zero")) ;;;
  se (CppInt.double_neg preco)
     (throw (ValidacaoException "Preço não pode ser negativo")) ;;;
  this <- le_estado ;;
  match itens this !! itemId with
  | Some item =>
      (* itens[itemId].quantidade += quantidade *)
      q <- definido (CppInt.add (ListaCompras.quantidade item) quantidade) ;;
      grava (com_itens (<[itemId := com_quantidade q item]> (itens this))
               this) ;;;
      (* itens[itemId].subtotal =
           itens[itemId].quantidade * itens[itemId].preco *)
      this <- le_estado ;;
      let atual := elemento padrao (itens this) itemId in
      grava (com_itens
               (<[itemId := com_subtotal
                              (CppInt.mul_double
                                 (ListaCompras.quantidade atual)
                                 (ListaCompras.preco atual)) atual]>
                  (itens this)) this)
  | None =>
      grava (com_itens
               (<[itemId := novoItemCompra itemId nomeItem quantidade preco]>
                  (itens this)) this)
  end.

Definition removerItem (itemId : Z) : metodo ListaCompras bool :=
  this <- le_estado ;;
  match itens this !! itemId with
  | None => retorna false
  | Some _ =>
      grava (com_itens (delete itemId (itens this)) this) ;;;
      retorna true
  end.

Definition atualizarQuantidade (itemId : Z) (quantidade : Z)
  : metodo ListaCompras unit :=
  this <- le_estado ;;
  match itens this !! itemId with
  | None => throw (ListaComprasException "Item não encontrado na lista")
  | Some item =>
      se (quantidade <=? 0)
         (throw (ValidacaoException "Quantidade deve ser maior que zero")) ;;;
      grava (com_itens (<[itemId := com_quantidade quantidade item]>
                          (itens this)) this) ;;;
      this <- le_estado ;;
      let atual := elemento padrao (itens this) itemId in
      grava (com_itens
               (<[itemId := com_subtotal
                              (CppInt.mul_double quantidade
                                 (ListaCompras.preco atual)) atual]>
                  (itens this)) this)
  end.

Definition getId (this : ListaCompras) : Z := id this.
Definition getDescricao (this : ListaCompras) : string := descricao this.

Definition setId (id : Z) : metodo ListaCompras unit :=
  se (id <? 0) (throw (ValidacaoException "ID da lista inválido")) ;;;
  this <- le_estado ;;
  grava (mkListaCompras id (descricao this) (itens this)).

Definition setDescricao (descricao : string) : metodo ListaCompras unit :=
  se (empty descricao)
     (throw (ValidacaoException "Descrição não pode ser vazia")) ;;;
  this <- le_estado ;;
  grava (mkListaCompras (id this) descricao (itens this)).

Definition limpar : metodo ListaCompras unit :=
  this <- le_estado ;;
  grava (com_itens ∅ this).

(** [total += par.second.subtotal] over the map, from [0.0]. *)
Definition calcularTotal (this : ListaCompras) : float :=
  fold_left (fun total par => PrimFloat.add total (subtotal par.2))
    (em_ordem (itens this)) (CppInt.to_double 0).

Record GerenciadorListaCompras : Type := mkGerenciadorListaCompras {
  listas : list ListaCompras;
  proximoId : Z
}.

(** [GerenciadorListaCompras()]. *)
Definition gerenciador_novo : GerenciadorListaCompras :=
  mkGerenciadorListaCompras [] 1.

Definition criar (descricao : string) : metodo GerenciadorListaCompras Z :=
  se (empty descricao)
     (throw (ValidacaoException "Descrição não pode ser vazia")) ;;;
  this <- le_estado ;;
  let novaLista := nova (proximoId this) descricao in
  grava (mkGerenciadorListaCompras (listas this ++ [novaLista])
           (proximoId this)) ;;;
  (* return proximoId++ *)
  this <- le_estado ;;
  seguinte <- definido (CppInt.add (proximoId this) 1) ;;
  grava (mkGerenciadorListaCompras (listas this) seguinte) ;;;
  retorna (proximoId this).

Fixpoint buscar (id : Z) (listas : list ListaCompras) : option ListaCompras :=
  match listas with
  | [] => None
  | lista :: resto =>
      if getId lista =? id then Some lista else buscar id resto
  end.

Definition buscarPorId (id : Z) (this : GerenciadorListaCompras)
  : option ListaCompras := buscar id (listas this).

Definition remover (id : Z) : metodo GerenciadorListaCompras bool :=
  this <- le_estado ;;
  let mantidas := List.filter (fun l => negb (getId l =? id)) (listas this) in
  if (length mantidas <? length (listas this))%nat
  then grava (mkGerenciadorListaCompras mantidas (proximoId this)) ;;;
       retorna true
  else retorna false.

Definition listar (this : GerenciadorListaCompras) : list ListaCompras :=
  listas this.

End ListaCompras.

(** ** item.h / item.cpp *)

Module Item.

Record Item : Type := mkItem {
  id : Z;
  nome : string;
  preco : float
}.

Definition getId (this : Item) : Z := id this.
Definition getNome (this : Item) : string := nome this.
Definition getPreco (this : Item) : float := preco this.

Record GerenciadorItens : Type := mkGerenciadorItens {
  itens : list Item;
  proximoId : Z
}.

(** [GerenciadorItens()]. *)
Definition gerenciador_novo : GerenciadorItens := mkGerenciadorItens [] 1.

(** The two lookups return a pointer into the vector, modelled by the
    element it points to; [nullptr] is [None]. *)
Fixpoint buscar_id (id : Z) (itens : list Item) : option Item :=
  match itens with
  | [] => None
  | item :: resto =>
      if getId item =? id then Some item else buscar_id id resto
  end.

Definition buscarPorId (id : Z) (this : GerenciadorItens) : option Item :=
  buscar_id id (itens this).

Fixpoint buscar_nome (nome : string) (itens : list Item) : option Item :=
  match itens with
  | [] => None
  | item :: resto =>
      if String.eqb (getNome item) nome then Some item
      else buscar_nome nome resto
  end.

Definition buscarPorNome (nome : string) (this : GerenciadorItens)
  : option Item := buscar_nome nome (itens this).

Definition cadastrar (nome : string) (preco : float)
  : metodo GerenciadorItens Z :=
  se (empty nome)
     (throw (ValidacaoException "Nome do item não pode ser vazio")) ;;;
  se (CppInt.double_neg preco)
     (throw (ValidacaoException "Preço do item não pode ser negativo")) ;;;
  this <- le_estado ;;
  se (nao_nulo (buscarPorNome nome this))
     (throw (ItemException ("Item já existe com este nome: " +:+ nome))) ;;;
  let novoItem := mkItem (proximoId this) nome preco in
  grava (mkGerenciadorItens (itens this ++ [novoItem]) (proximoId this)) ;;;
  (* return proximoId++ *)
  this <- le_estado ;;
  seguinte <- definido (CppInt.add (proximoId this) 1) ;;
  grava (mkGerenciadorItens (itens this) seguinte) ;;;
  retorna (proximoId this).

(** [remove_if] then [erase(it, end())], as in [Camarim.remover]. *)
Definition remover (id : Z) : metodo GerenciadorItens bool :=
  this <- le_estado ;;
  let mantidos := List.filter (fun i => negb (getId i =? id)) (itens this) in
  if (length mantidos <? length (itens this))%nat
  then grava (mkGerenciadorItens mantidos (proximoId this)) ;;;
       retorna true
  else retorna false.

Definition setId (id : Z) : metodo Item unit :=
  se (id <? 0)
     (throw (ValidacaoException "ID do item não pode ser negativo")) ;;;
  this <- le_estado ;;
  grava (mkItem id (nome this) (preco this)).

Definition setNome (nome : string) : metodo Item unit :=
  se (empty nome)
     (throw (ValidacaoException "Nome do item não pode ser vazio")) ;;;
  this <- le_estado ;;
  grava (mkItem (id this) nome (preco this)).

Definition setPreco (preco : float) : metodo Item unit :=
  se (CppInt.double_neg preco)
     (throw (ValidacaoException "Preço do item não pode ser negativo")) ;;;
  this <- le_estado ;;
  grava (mkItem (id this) (nome this) preco).

(** [Item::operator==] compares the ids only. *)
Definition igual (this outro : Item) : bool := id this =? id outro.

Definition com_itens (v : list Item) (this : GerenciadorItens)
  : GerenciadorItens := mkGerenciadorItens v (proximoId this).

Definition listar (this : GerenciadorItens) : list Item := itens this.

Definition atualizar (id : Z) (nome : string) (preco : float)
  : metodo GerenciadorItens bool :=
  this <- le_estado ;;
  match posicao (fun i => getId i =? id) (itens this) with
  | None =>
      throw (ItemException
               ("Item com ID " +:+ to_string id +:+ " não encontrado"))
  | Some item =>
      let itemComNome := buscarPorNome nome this in
      se (match itemComNome with
          | Some outro => negb (getId outro =? id)
          | None => false
          end)
         (throw (ItemException
                   ("Já existe outro item com este nome: " +:+ nome))) ;;;
      no_elemento itens com_itens item (setNome nome) ;;;
      no_elemento itens com_itens item (setPreco preco) ;;;
      retorna true
  end.

End Item.

(** ** pessoa.h, artista.h / artista.cpp *)

Module Artista.

(** [class Artista : public Pessoa]: the two protected members of
    [Pessoa] and [camarimId]. *)
Record Artista : Type := mkArtista {
  id : Z;
  nome : string;
  camarimId : Z
}.

Definition getId (this : Artista) : Z := id this.
Definition getCamarimId (this : Artista) : Z := camarimId this.

Record GerenciadorArtistas : Type := mkGerenciadorArtistas {
  artistas : list Artista;
  proximoId : Z
}.

(** [GerenciadorArtistas()]. *)
Definition gerenciador_novo : GerenciadorArtistas :=
  mkGerenciadorArtistas [] 1.

Definition cadastrar (nome : string) (camarimId : Z)
  : metodo GerenciadorArtistas Z :=
  se (empty nome)
     (throw (ValidacaoException "Nome do artista não pode ser vazio")) ;;;
  se (camarimId <? 0) (throw (ValidacaoException "ID de camarim inválido")) ;;;
  this <- le_estado ;;
  let novoArtista := mkArtista (proximoId this) nome camarimId in
  grava (mkGerenciadorArtistas (artistas this ++ [novoArtista])
           (proximoId this)) ;;;
  (* return proximoId++ *)
  this <- le_estado ;;
  seguinte <- definido (CppInt.add (proximoId this) 1) ;;
  grava (mkGerenciadorArtistas (artistas this) seguinte) ;;;
  retorna (proximoId this).

(** [Pessoa::setId] and [Pessoa::setNome] assign without any check. *)
Definition setId (id : Z) : metodo Artista unit :=
  this <- le_estado ;;
  grava (mkArtista id (nome this) (camarimId this)).

Definition setNome (nome : string) : metodo Artista unit :=
  this <- le_estado ;;
  grava (mkArtista (id this) nome (camarimId this)).

Definition setCamarimId (camarimId : Z) : metodo Artista unit :=
  se (camarimId <? 0) (throw (ValidacaoException "ID de camarim inválido")) ;;;
  this <- le_estado ;;
  grava (mkArtista (id this) (nome this) camarimId).

Definition com_artistas (v : list Artista) (this : GerenciadorArtistas)
  : GerenciadorArtistas := mkGerenciadorArtistas v (proximoId this).

Fixpoint buscar (id : Z) (artistas : list Artista) : option Artista :=
  match artistas with
  | [] => None
  | artista :: resto =>
      if getId artista =? id then Some artista else buscar id resto
  end.

Definition buscarPorId (id : Z) (this : GerenciadorArtistas)
  : option Artista := buscar id (artistas this).

Definition buscarPorCamarim (camarimId : Z) (this : GerenciadorArtistas)
  : list Artista :=
  List.filter (fun a => getCamarimId a =? camarimId) (artistas this).

Definition remover (id : Z) : metodo GerenciadorArtistas bool :=
  this <- le_estado ;;
  let mantidos := List.filter (fun a => negb (getId a =? id)) (artistas this) in
  if (length mantidos <? length (artistas this))%nat
  then grava (mkGerenciadorArtistas mantidos (proximoId this)) ;;;
       retorna true
  else retorna false.

Definition listar (this : GerenciadorArtistas) : list Artista := artistas this.

Definition atualizar (id : Z) (nome : string) (camarimId : Z)
  : metodo GerenciadorArtistas bool :=
  this <- le_estado ;;
  match posicao (fun a => getId a =? id) (artistas this) with
  | None =>
      throw (ArtistaException
               ("Artista com ID " +:+ to_string id +:+ " não encontrado"))
  | Some artista =>
      no_elemento artistas com_artistas artista (setNome nome) ;;;
      no_elemento artistas com_artistas artista (setCamarimId camarimId) ;;;
      retorna true
  end.

End Artista.

(** ** main.cpp: the order menu *)

Module Menu.

(** [try { m } catch (const ExcecaoBase& e) { ... }]: every handler of the
    menu catches the base class, reports [e.what()] and goes on. *)
Definition captura {S A} (m : metodo S A) : metodo S (option excecao) :=
  fun s =>
    match m s with
    | Retorna _ s' => Retorna None s'
    | Lanca e s' =>
        if capturada_por c_Base (tipo e) then Retorna (Some e) s'
        else Lanca e s'
    | Indefinido => Indefinido
    end.

(** The three actions the menu offers on an order it has found
    ([adicionarItemPedido], [removerItemPedido], [marcarPedidoAtendido]). *)
Inductive acao : Type :=
| AdicionarItem (itemId : Z) (nomeItem : string) (quantidade : Z)
| RemoverItem (itemId : Z)
| MarcarAtendido.

Definition executa (a : acao) : metodo Pedido.Pedido (option excecao) :=
  match a with
  | AdicionarItem itemId nomeItem quantidade =>
      captura (Pedido.adicionarItem itemId nomeItem quantidade)
  | RemoverItem itemId => captura (Pedido.removerItem itemId)
  | MarcarAtendido => captura Pedido.marcarAtendido
  end.

(** The actions of a session on one order, in sequence, with what each of
    them reported. *)
Fixpoint executa_todas (acoes : list acao)
  : metodo Pedido.Pedido (list (option excecao)) :=
  match acoes with
  | [] => retorna []
  | a :: resto =>
      r <- executa a ;;
      rs <- executa_todas resto ;;
      retorna (r :: rs)
  end.

(** What each action reports on an order that is already fulfilled. *)
Definition relato_atendido (a : acao) : option excecao :=
  match a with
  | AdicionarItem _ _ _ =>
      Some (PedidoException
              "Não é possível adicionar itens a um pedido já atendido")
  | RemoverItem _ =>
      Some (PedidoException
              "Não é possível remover itens de um pedido já atendido")
  | MarcarAtendido => None
  end.

End Menu.

(** ** Ledger invariants and outcomes *)

(** What holds of the object after a call, whether it returned or threw. *)
Definition apos {S A} (P : S -> Prop) (r : resultado S A) : Prop :=
  match r with
  | Retorna _ s | Lanca _ s => P s
  | Indefinido => True
  end.

(** The call threw an exception whose dynamic class is [c]. *)
Definition lanca_classe {S A} (c : classe) (r : resultado S A) : Prop :=
  match r with
  | Lanca e _ => tipo e = c
  | _ => False
  end.

(** No record of the stock has a negative quantity. *)
Definition estoque_sem_negativos (e : Estoque.Estoque) : Prop :=
  map_Forall (fun _ item => 0 <= Estoque.quantidade item) (Estoque.itens e).

(** No record of the stock has quantity zero. *)
Definition estoque_sem_zeros (e : Estoque.Estoque) : Prop :=
  map_Forall (fun _ item => Estoque.quantidade item <> 0) (Estoque.itens e).

(** Every record of the dressing room has a positive quantity. *)
Definition camarim_positivo (c : Camarim.Camarim) : Prop :=
  map_Forall (fun _ item => 0 < Camarim.quantidade item) (Camarim.itens c).

(** The object after a call that returned or threw. *)
Definition estado_depois {S A} (r : resultado S A) : option S :=
  match r with
  | Retorna _ s | Lanca _ s => Some s
  | Indefinido => None
  end.

(** The stocks a program can build: it starts from the empty stock and
    calls the three mutators, whether they return or throw. *)
Inductive estoque_alcancavel : Estoque.Estoque -> Prop :=
| ea_vazio : estoque_alcancavel Estoque.vazio
| ea_adicionarItem e itemId nomeItem q e' :
    estoque_alcancavel e ->
    estado_depois (Estoque.adicionarItem itemId nomeItem q e) = Some e' ->
    estoque_alcancavel e'
| ea_removerItem e itemId q e' :
    estoque_alcancavel e ->
    estado_depois (Estoque.removerItem itemId q e) = Some e' ->
    estoque_alcancavel e'
| ea_atualizarQuantidade e itemId q e' :
    estoque_alcancavel e ->
    estado_depois (Estoque.atualizarQuantidade itemId q e) = Some e' ->
    estoque_alcancavel e'.

(** The dressing rooms a program can build: constructed with an empty map,
    then changed by the setters and the two ledger operations. *)
Inductive camarim_alcancavel : Camarim.Camarim -> Prop :=
| ca_novo id nome artistaId :
    camarim_alcancavel (Camarim.novo id nome artistaId)
| ca_setNome c nome c' :
    camarim_alcancavel c ->
    estado_depois (Camarim.setNome nome c) = Some c' ->
    camarim_alcancavel c'
| ca_setArtistaId c artistaId c' :
    camarim_alcancavel c ->
    estado_depois (Camarim.setArtistaId artistaId c) = Some c' ->
    camarim_alcancavel c'
| ca_inserirItem c itemId nomeItem q c' :
    camarim_alcancavel c ->
    estado_depois (Camarim.inserirItem itemId nomeItem q c) = Some c' ->
    camarim_alcancavel c'
| ca_removerItem c itemId q c' :
    camarim_alcancavel c ->
    estado_depois (Camarim.removerItem itemId q c) = Some c' ->
    camarim_alcancavel c'.

(** Every record of the stock sits under its own item id, which is not
    negative, and has a name and a quantity that is not negative. *)
Definition estoque_bem_formado (e : Estoque.Estoque) : Prop :=
  map_Forall
    (fun k item =>
       Estoque.itemId item = k /\ 0 <= k /\ Estoque.nomeItem item <> ""
       /\ 0 <= Estoque.quantidade item)
    (Estoque.itens e).

(** The same for a dressing room, where quantities are positive. *)
Definition camarim_bem_formado (c : Camarim.Camarim) : Prop :=
  map_Forall
    (fun k item =>
       Camarim.itemId item = k /\ 0 <= k /\ Camarim.nomeItem item <> ""
       /\ 0 < Camarim.quantidade item)
    (Camarim.itens c).

(** ** The five managers, side by side

    The five manager classes repeat one pattern: a vector of entities, the
    counter [proximoId], a create operation, [buscarPorId] and [remover].
    This record bundles those members of one manager so that a property of
    the pattern is stated once and proved of each class. *)
Record gerenciador (G T : Type) : Type := mkGerenciador {
  g_vetor : G -> list T;
  g_getId : T -> Z;
  g_proximoId : G -> Z;
  g_buscarPorId : Z -> G -> option T;
  g_remover : Z -> metodo G bool;
  (** [g_criou g id x g']: some call of the create operation on [g]
      returned [id], built the entity [x] and left the manager [g']. *)
  g_criou : G -> Z -> T -> G -> Prop
}.
Arguments g_vetor {G T}.
Arguments g_getId {G T}.
Arguments g_proximoId {G T}.
Arguments g_buscarPorId {G T}.
Arguments g_remover {G T}.
Arguments g_criou {G T}.

Definition camarins_ops
  : gerenciador Camarim.GerenciadorCamarins Camarim.Camarim :=
  mkGerenciador _ _ Camarim.camarins Camarim.getId Camarim.proximoId
    Camarim.buscarPorId Camarim.remover
    (fun g id x g' =>
       exists nome artistaId,
         Camarim.cadastrar nome artistaId g = Retorna id g'
         /\ x = Camarim.novo id nome artistaId).

Definition artistas_ops
  : gerenciador Artista.GerenciadorArtistas Artista.Artista :=
  mkGerenciador _ _ Artista.artistas Artista.getId Artista.proximoId
    Artista.buscarPorId Artista.remover
    (fun g id x g' =>
       exists nome camarimId,
         Artista.cadastrar nome camarimId g = Retorna id g'
         /\ x = Artista.mkArtista id nome camarimId).

Definition pedidos_ops
  : gerenciador Pedido.GerenciadorPedidos Pedido.Pedido :=
  mkGerenciador _ _ Pedido.pedidos Pedido.getId Pedido.proximoId
    Pedido.buscarPorId Pedido.remover
    (fun g id x g' =>
       exists camarimId nomeArtista,
         Pedido.criar camarimId nomeArtista g = Retorna id g'
         /\ x = Pedido.novo id camarimId nomeArtista).

Definition listas_ops
  : gerenciador ListaCompras.GerenciadorListaCompras
      ListaCompras.ListaCompras :=
  mkGerenciador _ _ ListaCompras.listas ListaCompras.getId
    ListaCompras.proximoId ListaCompras.buscarPorId ListaCompras.remover
    (fun g id x g' =>
       exists descricao,
         ListaCompras.criar descricao g = Retorna id g'
         /\ x = ListaCompras.nova id descricao).

Definition itens_ops : gerenciador Item.GerenciadorItens Item.Item :=
  mkGerenciador _ _ Item.itens Item.getId Item.proximoId
    Item.buscarPorId Item.remover
    (fun g id x g' =>
       exists nome preco,
         Item.cadastrar nome preco g = Retorna id g'
         /\ x = Item.mkItem id nome preco).

(** Every id in the vector was handed out by the counter: it is at least 1
    and below [proximoId]. *)
Definition ids_validos {G T} (ops : gerenciador G T) (g : G) : Prop :=
  1 <= g_proximoId ops g
  /\ Forall (fun x => 1 <= g_getId ops x < g_proximoId ops g) (g_vetor ops g).

(** [remover(id)]: false and no change when no entity has the id; otherwise
    true, no entity has the id any more, the entities with other ids are
    found as before and the counter is not touched. *)
Definition remover_correto {G T} (ops : gerenciador G T) : Prop :=
  forall g id,
    (g_buscarPorId ops id g = None -> g_remover ops id g = Retorna false g)
    /\ (is_Some (g_buscarPorId ops id g) ->
        exists g',
          g_remover ops id g = Retorna true g'
          /\ g_buscarPorId ops id g' = None
          /\ (forall outro, outro <> id ->
                g_buscarPorId ops outro g' = g_buscarPorId ops outro g)
          /\ g_proximoId ops g' = g_proximoId ops g
          /\ (ids_validos ops g -> ids_validos ops g')).

(** The create operation: the id returned is the counter's value, no entity
    had it, the new entity is found under it, the other entities are found
    as before, and the counter moves one up. *)
Definition criar_correto {G T} (ops : gerenciador G T) : Prop :=
  forall g id x g',
    ids_validos ops g -> g_criou ops g id x g' ->
    id = g_proximoId ops g
    /\ g_buscarPorId ops id g = None
    /\ g_buscarPorId ops id g' = Some x
    /\ (forall outro, outro <> id ->
          g_buscarPorId ops outro g' = g_buscarPorId ops outro g)
    /\ g_proximoId ops g' = id + 1
    /\ ids_validos ops g'.

(** Every line of an order sits under its own item id, which is not
    negative, and has a name and a positive quantity. *)
Definition pedido_bem_formado (p : Pedido.Pedido) : Prop :=
  map_Forall
    (fun k item =>
       Pedido.itemId item = k /\ 0 <= k /\ Pedido.nomeItem item <> ""
       /\ 0 < Pedido.quantidade item)
    (Pedido.itens p).

(** The orders a program can build: constructed without lines, then changed
    by the setters, the two line operations and [marcarAtendido]. *)
Inductive pedido_alcancavel : Pedido.Pedido -> Prop :=
| pa_novo id camarimId nomeArtista :
    pedido_alcancavel (Pedido.novo id camarimId nomeArtista)
| pa_setId p id p' :
    pedido_alcancavel p ->
    estado_depois (Pedido.setId id p) = Some p' ->
    pedido_alcancavel p'
| pa_setCamarimId p camarimId p' :
    pedido_alcancavel p ->
    estado_depois (Pedido.setCamarimId camarimId p) = Some p' ->
    pedido_alcancavel p'
| pa_setNomeArtista p nomeArtista p' :
    pedido_alcancavel p ->
    estado_depois (Pedido.setNomeArtista nomeArtista p) = Some p' ->
    pedido_alcancavel p'
| pa_setAtendido p atendido p' :
    pedido_alcancavel p ->
    estado_depois (Pedido.setAtendido atendido p) = Some p' ->
    pedido_alcancavel p'
| pa_adicionarItem p itemId nomeItem q p' :
    pedido_alcancavel p ->
    estado_depois (Pedido.adicionarItem itemId nomeItem q p) = Some p' ->
    pedido_alcancavel p'
| pa_removerItem p itemId p' :
    pedido_alcancavel p ->
    estado_depois (Pedido.removerItem itemId p) = Some p' ->
    pedido_alcancavel p'
| pa_marcarAtendido p p' :
    pedido_alcancavel p ->
    estado_depois (Pedido.marcarAtendido p) = Some p' ->
    pedido_alcancavel p'.

(** Every line of a shopping list sits under its own item id, which is not
    negative, has a name, a positive quantity and a unit price that is not
    below zero, and its subtotal is its quantity times its unit price. *)
Definition lista_bem_formada (l : ListaCompras.ListaCompras) : Prop :=
  map_Forall
    (fun k item =>
       ListaCompras.itemId item = k /\ 0 <= k
       /\ ListaCompras.nomeItem item <> ""
       /\ 0 < ListaCompras.quantidade item
       /\ CppInt.double_neg (ListaCompras.preco item) = false
       /\ ListaCompras.subtotal item =
            CppInt.mul_double (ListaCompras.quantidade item)
              (ListaCompras.preco item))
    (ListaCompras.itens l).

(** The shopping lists a program can build: constructed without lines, then
    changed by the setters and the four operations on lines. *)
Inductive lista_alcancavel : ListaCompras.ListaCompras -> Prop :=
| la_nova id descricao : lista_alcancavel (ListaCompras.nova id descricao)
| la_setId l id l' :
    lista_alcancavel l ->
    estado_depois (ListaCompras.setId id l) = Some l' ->
    lista_alcancavel l'
| la_setDescricao l descricao l' :
    lista_alcancavel l ->
    estado_depois (ListaCompras.setDescricao descricao l) = Some l' ->
    lista_alcancavel l'
| la_adicionarItem l itemId nomeItem q preco l' :
    lista_alcancavel l ->
    estado_depois (ListaCompras.adicionarItem itemId nomeItem q preco l)
      = Some l' ->
    lista_alcancavel l'
| la_removerItem l itemId l' :
    lista_alcancavel l ->
    estado_depois (ListaCompras.removerItem itemId l) = Some l' ->
    lista_alcancavel l'
| la_atualizarQuantidade l itemId q l' :
    lista_alcancavel l ->
    estado_depois (ListaCompras.atualizarQuantidade itemId q l) = Some l' ->
    lista_alcancavel l'
| la_limpar l l' :
    lista_alcancavel l ->
    estado_depois (ListaCompras.limpar l) = Some l' ->
    lista_alcancavel l'.

(** ** The catalog *)

(** The test [GerenciadorItens::atualizar] makes before it renames entry
    [id] to [nome]: the first entry with that name, if any, is entry [id]
    itself. *)
Definition nome_livre (nome : string) (id : Z) (g : Item.GerenciadorItens)
  : Prop :=
  match Item.buscarPorNome nome g with
  | Some outro => Item.getId outro = id
  | None => True
  end.

(** No two entries share a name, no two share an id, every id was handed
    out by the counter, no name is empty and no price is below zero. *)
Definition catalogo_bem_formado (g : Item.GerenciadorItens) : Prop :=
  NoDup (Item.getNome <$> Item.itens g)
  /\ NoDup (Item.getId <$> Item.itens g)
  /\ ids_validos itens_ops g
  /\ Forall
       (fun i =>
          Item.getNome i <> "" /\ CppInt.double_neg (Item.getPreco i) = false)
       (Item.itens g).

(** The catalogs a program can build through the manager: from the new
    manager by [cadastrar], [remover] and [atualizar], whether they return
    or throw. *)
Inductive catalogo_alcancavel : Item.GerenciadorItens -> Prop :=
| cat_novo : catalogo_alcancavel Item.gerenciador_novo
| cat_cadastrar g nome preco g' :
    catalogo_alcancavel g ->
    estado_depois (Item.cadastrar nome preco g) = Some g' ->
    catalogo_alcancavel g'
| cat_remover g id g' :
    catalogo_alcancavel g ->
    estado_depois (Item.remover id g) = Some g' ->
    catalogo_alcancavel g'
| cat_atualizar g id nome preco g' :
    catalogo_alcancavel g ->
    estado_depois (Item.atualizar id nome preco g) = Some g' ->
    catalogo_alcancavel g'.

(** ** Concrete states used by the examples *)

(** A stock holding 10 units of item 1. *)
Definition estoque_exemplo : Estoque.Estoque :=
  Estoque.mkEstoque {[ 1 := Estoque.mkItemEstoque 1 "Toalha" 10 ]}.

(** A dressing room holding 5 units of item 1. *)
Definition camarim_exemplo : Camarim.Camarim :=
  Camarim.mkCamarim 1 "Camarim A" 0
    {[ 1 := Camarim.mkItemCamarim 1 "Toalha" 5 ]}.

(** A shopping list with one line: 3 units of item 1 at unit price 2.0. *)
Definition lista_exemplo : ListaCompras.ListaCompras :=
  ListaCompras.mkListaCompras 1 "Semanal"
    {[ 1 := ListaCompras.novoItemCompra 1 "Sabonete" 3 2 ]}.

(** An order with two lines that was marked as fulfilled. *)
Definition pedido_atendido_exemplo : Pedido.Pedido :=
  Pedido.mkPedido 1 1 "Ana"
    {[ 1 := Pedido.mkItemPedido 1 "Toalha" 2;
       2 := Pedido.mkItemPedido 2 "Sabonete" 1 ]} true.

(** A pending order with one line: 2 units of item 1. *)
Definition pedido_exemplo : Pedido.Pedido :=
  Pedido.mkPedido 1 1 "Ana" {[ 1 := Pedido.mkItemPedido 1 "Toalha" 2 ]} false.

(** A dressing-room manager holding [camarim_exemplo]. *)
Definition camarins_exemplo : Camarim.GerenciadorCamarins :=
  Camarim.mkGerenciadorCamarins [camarim_exemplo] 2.

(** A performer manager with one performer. *)
Definition artistas_exemplo : Artista.GerenciadorArtistas :=
  Artista.mkGerenciadorArtistas [Artista.mkArtista 1 "Ana" 1] 2.

(** A catalog with two entries. *)
Definition catalogo_exemplo : Item.GerenciadorItens :=
  Item.mkGerenciadorItens
    [Item.mkItem 1 "Toalha" 12.5; Item.mkItem 2 "Sabonete" 2] 3.

(** A dressing-room manager, a performer manager and an order manager right
    after construction are [Camarim.gerenciador_novo],
    [Artista.gerenciador_novo] and [Pedido.gerenciador_novo]. *)

(** * Properties *)

(** ** Running a method *)

(** Unfolds the combinators of a method body. *)
Ltac desdobra :=
  unfold seq, se, throw, retorna, le_estado, grava, definido; simpl.

(** Decides the guards of a method from the arithmetic hypotheses. *)
Ltac guarda :=
  repeat match goal with
    | |- context [Z.ltb ?a ?b] =>
        first [ rewrite (proj2 (Z.ltb_lt a b)) by lia
              | rewrite (proj2 (Z.ltb_ge a b)) by lia ]
    | |- context [Z.leb ?a ?b] =>
        first [ rewrite (proj2 (Z.leb_le a b)) by lia
              | rewrite (proj2 (Z.leb_gt a b)) by lia ]
    | |- context [Z.eqb ?a ?b] =>
        first [ rewrite (proj2 (Z.eqb_eq a b)) by lia
              | rewrite (proj2 (Z.eqb_neq a b)) by lia ]
    end; simpl.

(** Turns the recorded outcomes of guards into arithmetic facts. *)
Ltac reflete :=
  repeat match goal with
    | H : (_ <? _) = true |- _ => apply Z.ltb_lt in H
    | H : (_ <? _) = false |- _ => apply Z.ltb_ge in H
    | H : (_ <=? _) = true |- _ => apply Z.leb_le in H
    | H : (_ <=? _) = false |- _ => apply Z.leb_gt in H
    | H : (_ =? _) = true |- _ => apply Z.eqb_eq in H
    | H : (_ =? _) = false |- _ => apply Z.eqb_neq in H
    end.

Lemma empty_false (s : string) : s <> "" -> empty s = false.
Proof. destruct s; [congruence | reflexivity]. Qed.

Lemma empty_true_iff (s : string) : empty s = true <-> s = "".
Proof. destruct s; simpl; split; congruence. Qed.

Lemma apos_estado_depois {S A} (P : S -> Prop) (r : resultado S A) (s : S) :
  apos P r -> estado_depois r = Some s -> P s.
Proof. destruct r; simpl; congruence. Qed.

Lemma add_representavel (a b : Z) :
  CppInt.INT_MIN <= a + b <= CppInt.INT_MAX ->
  CppInt.add a b = Some (a + b).
Proof.
  intros H. unfold CppInt.add, CppInt.representavel.
  rewrite (proj2 (Z.leb_le _ _)) by lia.
  rewrite (proj2 (Z.leb_le _ _)) by lia. reflexivity.
Qed.

Lemma add_Some (a b q : Z) : CppInt.add a b = Some q -> q = a + b.
Proof.
  unfold CppInt.add. destruct (CppInt.representavel (a + b)); congruence.
Qed.

(** The subtraction in the two [removerItem] cannot overflow: under their
    guards the difference of two representable ints is representable. *)
Lemma sub_guardada (guardado pedido : Z) :
  CppInt.representavel guardado = true ->
  0 <= pedido <= guardado ->
  CppInt.representavel (guardado - pedido) = true.
Proof.
  unfold CppInt.representavel, CppInt.INT_MIN, CppInt.INT_MAX.
  intros H Hq. apply andb_true_iff in H as [H1 H2].
  apply Z.leb_le in H1, H2. apply andb_true_iff; split; apply Z.leb_le; lia.
Qed.

(** ** Shopping list: adding to a line that exists *)

Section ListaComprasExistente.
Import ListaCompras.

(** The state [adicionarItem] leaves when the line exists and the call is
    valid: the quantity grows, name and unit price stay as stored, and the
    subtotal is the new quantity times the stored unit price. *)
Lemma listacompras_adicionarItem_existente_estado
    (this : ListaCompras) (itemId : Z) (item : ItemCompra)
    (nomeItem : string) (quantidade : Z) (preco : float) :
  itens this !! itemId = Some item ->
  0 <= itemId -> nomeItem <> "" -> 0 < quantidade ->
  CppInt.double_neg preco = false ->
  CppInt.INT_MIN <= ListaCompras.quantidade item + quantidade
    <= CppInt.INT_MAX ->
  adicionarItem itemId nomeItem quantidade preco this =
  Retorna tt
    (com_itens
       (<[itemId :=
            mkItemCompra (ListaCompras.itemId item)
              (ListaCompras.nomeItem item)
              (ListaCompras.quantidade item + quantidade)
              (ListaCompras.preco item)
              (CppInt.mul_double
                 (ListaCompras.quantidade item + quantidade)
                 (ListaCompras.preco item))]> (itens this)) this).
Proof.
  intros Hitem Hid Hnome Hq Hpreco Hsoma.
  unfold adicionarItem. desdobra. guarda.
  rewrite (empty_false _ Hnome), Hpreco, Hitem. simpl.
  rewrite (add_representavel _ _ Hsoma). simpl.
  unfold elemento. rewrite lookup_insert_eq. simpl.
  rewrite insert_insert_eq. reflexivity.
Qed.

(** C1, as amended. When the shopping list already has a line for
    [itemId], a valid [adicionarItem] call whose sum fits an [int] returns
    normally; afterwards the line's quantity is the stored quantity plus
    [quantidade], its unit price is the stored one, and its subtotal is the
    new quantity times the STORED unit price (the [preco] argument of the
    call is not used). *)
Theorem listacompras_adicionarItem_subtotal_preco_guardado
    (this : ListaCompras) (itemId : Z) (item : ItemCompra)
    (nomeItem : string) (quantidade : Z) (preco : float) :
  itens this !! itemId = Some item ->
  0 <= itemId -> nomeItem <> "" -> 0 < quantidade ->
  CppInt.double_neg preco = false ->
  CppInt.INT_MIN <= ListaCompras.quantidade item + quantidade
    <= CppInt.INT_MAX ->
  exists this' item',
    adicionarItem itemId nomeItem quantidade preco this = Retorna tt this'
    /\ itens this' !! itemId = Some item'
    /\ ListaCompras.quantidade item' =
         ListaCompras.quantidade item + quantidade
    /\ ListaCompras.preco item' = ListaCompras.preco item
    /\ subtotal item' =
         CppInt.mul_double (ListaCompras.quantidade item')
           (ListaCompras.preco item).
Proof.
  intros Hitem Hid Hnome Hq Hpreco Hsoma.
  eexists _, _. split.
  - apply listacompras_adicionarItem_existente_estado; eassumption.
  - simpl. rewrite lookup_insert_eq. repeat split; reflexivity.
Qed.

Lemma listacompras_adicionarItem_subtotal_preco_guardado_witness :
  exists this' item',
    adicionarItem 1 "Sabonete" 2 5 lista_exemplo = Retorna tt this'
    /\ itens this' !! 1 = Some item'
    /\ ListaCompras.quantidade item' = 3 + 2
    /\ ListaCompras.preco item' = 2%float
    /\ subtotal item' = CppInt.mul_double (ListaCompras.quantidade item') 2.
Proof.
  apply (listacompras_adicionarItem_subtotal_preco_guardado
           lista_exemplo 1 (novoItemCompra 1 "Sabonete" 3 2)
           "Sabonete" 2 5).
  - reflexivity.
  - lia.
  - discriminate.
  - lia.
  - reflexivity.
  - unfold CppInt.INT_MIN, CppInt.INT_MAX. simpl. lia.
Defined.

(** C1, as stated, fails: the list holds 3 units of item 1 at unit price
    2.0; adding 2 more units with price argument 5.0 leaves 5 units with
    subtotal 5 * 2.0 = 10.0, not 5 * 5.0 = 25.0. *)
Lemma listacompras_adicionarItem_preco_argumento_contraexemplo :
  exists this' item',
    adicionarItem 1 "Sabonete" 2 5 lista_exemplo = Retorna tt this'
    /\ itens this' !! 1 = Some item'
    /\ ListaCompras.quantidade item' = 5
    /\ subtotal item' = 10%float
    /\ subtotal item' <> CppInt.mul_double 5 5.
Proof.
  exists (mkListaCompras 1 "Semanal"
            {[ 1 := mkItemCompra 1 "Sabonete" 5 2 10 ]}),
         (mkItemCompra 1 "Sabonete" 5 2 10).
  split; [vm_compute; reflexivity|].
  split; [reflexivity|].
  split; [reflexivity|].
  split; [reflexivity|].
  simpl. intros H.
  apply (f_equal (fun x => PrimFloat.eqb x 10)) in H.
  vm_compute in H. discriminate.
Qed.

End ListaComprasExistente.

(** ** Stock ledger *)

Section EstoqueLedger.
Import Estoque.

Implicit Types (this : Estoque) (item : ItemEstoque).

Lemma estoque_adicionarItem_existente_estado this itemId item nomeItem q :
  itens this !! itemId = Some item ->
  0 <= itemId -> nomeItem <> "" -> 0 <= q ->
  CppInt.INT_MIN <= quantidade item + q <= CppInt.INT_MAX ->
  adicionarItem itemId nomeItem q this =
  Retorna tt
    (mkEstoque
       (<[itemId := com_quantidade (quantidade item + q) item]>
          (itens this))).
Proof.
  intros Hitem Hid Hnome Hq Hsoma.
  unfold adicionarItem. desdobra. guarda.
  rewrite (empty_false _ Hnome), Hitem. simpl.
  rewrite (add_representavel _ _ Hsoma). reflexivity.
Qed.

Lemma estoque_adicionarItem_novo_estado this itemId nomeItem q :
  itens this !! itemId = None ->
  0 <= itemId -> nomeItem <> "" -> 0 <= q ->
  adicionarItem itemId nomeItem q this =
  Retorna tt
    (mkEstoque (<[itemId := mkItemEstoque itemId nomeItem q]> (itens this))).
Proof.
  intros Hitem Hid Hnome Hq.
  unfold adicionarItem. desdobra. guarda.
  rewrite (empty_false _ Hnome), Hitem. reflexivity.
Qed.

(** A successful withdrawal: the record keeps the difference, or is
    erased when the difference is zero. *)
Lemma estoque_removerItem_estado this itemId item q :
  itens this !! itemId = Some item ->
  0 <= q <= quantidade item ->
  removerItem itemId q this =
  Retorna true
    (mkEstoque
       (if quantidade item - q =? 0 then delete itemId (itens this)
        else <[itemId := com_quantidade (quantidade item - q) item]>
               (itens this))).
Proof.
  intros Hitem Hq.
  unfold removerItem. desdobra. rewrite Hitem. guarda.
  unfold elemento. rewrite lookup_insert_eq. simpl.
  destruct (quantidade item - q =? 0); simpl; [|reflexivity].
  rewrite delete_insert_eq. reflexivity.
Qed.

Lemma estoque_removerItem_negativa this itemId item q :
  itens this !! itemId = Some item ->
  q < 0 ->
  removerItem itemId q this =
  Lanca (ValidacaoException "Quantidade não pode ser negativa") this.
Proof.
  intros Hitem Hq.
  unfold removerItem. desdobra. rewrite Hitem. guarda. reflexivity.
Qed.

Lemma estoque_removerItem_insuficiente this itemId item q :
  itens this !! itemId = Some item ->
  0 <= q -> quantidade item < q ->
  removerItem itemId q this =
  Lanca (EstoqueInsuficienteException
           ("Quantidade insuficiente. Disponível: "
              +:+ to_string (quantidade item)
              +:+ ", Solicitado: " +:+ to_string q)) this.
Proof.
  intros Hitem Hq Hins.
  unfold removerItem. desdobra. rewrite Hitem. guarda. reflexivity.
Qed.

Lemma estoque_removerItem_ausente this itemId q :
  itens this !! itemId = None ->
  removerItem itemId q this =
  Lanca (EstoqueException
           ("Item não encontrado no estoque (ID: "
              +:+ to_string itemId +:+ ")")) this.
Proof.
  intros Hitem. unfold removerItem. desdobra. rewrite Hitem. reflexivity.
Qed.

(** Every exception of the three mutators leaves the stock as it was. *)
Lemma estoque_excecao_atomica this :
  (forall itemId nomeItem q e this',
      adicionarItem itemId nomeItem q this = Lanca e this' -> this' = this)
  /\ (forall itemId q e this',
      removerItem itemId q this = Lanca e this' -> this' = this)
  /\ (forall itemId q e this',
      atualizarQuantidade itemId q this = Lanca e this' -> this' = this).
Proof.
  repeat split.
  - intros itemId nomeItem q e this'.
    unfold adicionarItem. desdobra.
    destruct (itemId <? 0), (empty nomeItem), (q <? 0); simpl;
      try congruence.
    destruct (itens this !! itemId) as [item|]; simpl; [|congruence].
    destruct (CppInt.add (quantidade item) q); simpl; congruence.
  - intros itemId q e this'.
    unfold removerItem. desdobra.
    destruct (itens this !! itemId) as [item|]; simpl; [|congruence].
    destruct (q <? 0), (quantidade item <? q); simpl; try congruence.
    destruct (quantidade (elemento padrao _ itemId) =? 0); simpl;
      congruence.
  - intros itemId q e this'.
    unfold atualizarQuantidade. desdobra.
    destruct (itens this !! itemId) as [item|]; simpl; [|congruence].
    destruct (q <? 0); simpl; [congruence|].
    destruct (q =? 0); simpl; congruence.
Qed.

(** Quantities never become negative, whatever the three mutators do. *)
Lemma estoque_sem_negativos_preservado this :
  estoque_sem_negativos this ->
  (forall itemId nomeItem q,
      apos estoque_sem_negativos (adicionarItem itemId nomeItem q this))
  /\ (forall itemId q,
      apos estoque_sem_negativos (removerItem itemId q this))
  /\ (forall itemId q,
      apos estoque_sem_negativos (atualizarQuantidade itemId q this)).
Proof.
  unfold estoque_sem_negativos. intros Hinv. repeat split.
  - intros itemId nomeItem q. unfold adicionarItem. desdobra.
    destruct (itemId <? 0), (empty nomeItem), (q <? 0) eqn:Hq; simpl;
      try assumption.
    destruct (itens this !! itemId) as [item|] eqn:Hitem; simpl.
    + destruct (CppInt.add (quantidade item) q) as [soma|] eqn:Hsoma;
        simpl; [|exact I].
      apply add_Some in Hsoma. apply map_Forall_insert_2; [|assumption].
      apply Hinv in Hitem. reflete. simpl in *. lia.
    + apply map_Forall_insert_2; [|assumption]. reflete. simpl. lia.
  - intros itemId q. unfold removerItem. desdobra.
    destruct (itens this !! itemId) as [item|] eqn:Hitem; simpl;
      [|assumption].
    destruct (q <? 0) eqn:Hq, (quantidade item <? q) eqn:Hins; simpl;
      try assumption.
    unfold elemento. rewrite lookup_insert_eq. simpl.
    destruct (quantidade item - q =? 0); simpl.
    + rewrite delete_insert_eq. apply map_Forall_delete. assumption.
    + apply map_Forall_insert_2; [|assumption]. reflete. simpl. lia.
  - intros itemId q. unfold atualizarQuantidade. desdobra.
    destruct (itens this !! itemId) as [item|] eqn:Hitem; simpl;
      [|assumption].
    destruct (q <? 0) eqn:Hq; simpl; [assumption|].
    destruct (q =? 0); simpl.
    + rewrite delete_insert_eq. apply map_Forall_delete. assumption.
    + apply map_Forall_insert_2; [|assumption]. reflete. simpl. lia.
Qed.

Lemma estoque_alcancavel_sem_negativos this :
  estoque_alcancavel this -> estoque_sem_negativos this.
Proof.
  induction 1 as [|e itemId nomeItem q e' _ IH H
                   |e itemId q e' _ IH H|e itemId q e' _ IH H].
  - apply map_Forall_empty.
  - destruct (estoque_sem_negativos_preservado e IH) as (Ha & _ & _).
    exact (apos_estado_depois _ _ _ (Ha itemId nomeItem q) H).
  - destruct (estoque_sem_negativos_preservado e IH) as (_ & Hr & _).
    exact (apos_estado_depois _ _ _ (Hr itemId q) H).
  - destruct (estoque_sem_negativos_preservado e IH) as (_ & _ & Hu).
    exact (apos_estado_depois _ _ _ (Hu itemId q) H).
Qed.

(** The two mutators that erase at zero keep the stock free of
    zero-quantity records, and so does [adicionarItem] when it adds a
    positive quantity. *)
Lemma estoque_sem_zeros_preservado this :
  estoque_sem_negativos this -> estoque_sem_zeros this ->
  (forall itemId nomeItem q,
      0 < q -> apos estoque_sem_zeros (adicionarItem itemId nomeItem q this))
  /\ (forall itemId q,
      apos estoque_sem_zeros (removerItem itemId q this))
  /\ (forall itemId q,
      apos estoque_sem_zeros (atualizarQuantidade itemId q this)).
Proof.
  unfold estoque_sem_negativos, estoque_sem_zeros.
  intros Hneg Hinv. repeat split.
  - intros itemId nomeItem q Hpos. unfold adicionarItem. desdobra.
    destruct (itemId <? 0), (empty nomeItem), (q <? 0) eqn:Hq; simpl;
      try assumption.
    destruct (itens this !! itemId) as [item|] eqn:Hitem; simpl.
    + destruct (CppInt.add (quantidade item) q) as [soma|] eqn:Hsoma;
        simpl; [|exact I].
      apply add_Some in Hsoma. apply map_Forall_insert_2; [|assumption].
      apply Hneg in Hitem. simpl in *. lia.
    + apply map_Forall_insert_2; [|assumption]. simpl. lia.
  - intros itemId q. unfold removerItem. desdobra.
    destruct (itens this !! itemId) as [item|] eqn:Hitem; simpl;
      [|assumption].
    destruct (q <? 0) eqn:Hq, (quantidade item <? q) eqn:Hins; simpl;
      try assumption.
    unfold elemento. rewrite lookup_insert_eq. simpl.
    destruct (quantidade item - q =? 0) eqn:Hzero; simpl.
    + rewrite delete_insert_eq. apply map_Forall_delete. assumption.
    + apply map_Forall_insert_2; [|assumption]. reflete. simpl. lia.
  - intros itemId q. unfold atualizarQuantidade. desdobra.
    destruct (itens this !! itemId) as [item|] eqn:Hitem; simpl;
      [|assumption].
    destruct (q <? 0) eqn:Hq; simpl; [assumption|].
    destruct (q =? 0) eqn:Hzero; simpl.
    + rewrite delete_insert_eq. apply map_Forall_delete. assumption.
    + apply map_Forall_insert_2; [|assumption]. reflete. simpl. lia.
Qed.

End EstoqueLedger.

(** ** Dressing-room ledger *)

Section CamarimLedger.
Import Camarim.

Implicit Types (this : Camarim) (item : ItemCamarim).

Lemma camarim_inserirItem_existente_estado this itemId item nomeItem q :
  itens this !! itemId = Some item ->
  0 <= itemId -> nomeItem <> "" -> 0 < q ->
  CppInt.INT_MIN <= quantidade item + q <= CppInt.INT_MAX ->
  inserirItem itemId nomeItem q this =
  Retorna tt
    (com_itens
       (<[itemId := com_quantidade (quantidade item + q) item]>
          (itens this)) this).
Proof.
  intros Hitem Hid Hnome Hq Hsoma.
  unfold inserirItem. desdobra. guarda.
  rewrite (empty_false _ Hnome), Hitem. simpl.
  rewrite (add_representavel _ _ Hsoma). reflexivity.
Qed.

(** A successful withdrawal: the record keeps the difference, or is
    erased when the difference is zero. *)
Lemma camarim_removerItem_estado this itemId item q :
  itens this !! itemId = Some item ->
  0 < q <= quantidade item ->
  removerItem itemId q this =
  Retorna true
    (com_itens
       (if quantidade item - q =? 0 then delete itemId (itens this)
        else <[itemId := com_quantidade (quantidade item - q) item]>
               (itens this)) this).
Proof.
  intros Hitem Hq.
  unfold removerItem. desdobra. rewrite Hitem. guarda.
  unfold elemento. rewrite lookup_insert_eq. simpl.
  destruct (quantidade item - q =? 0); simpl; [|reflexivity].
  unfold com_itens. simpl. rewrite delete_insert_eq. reflexivity.
Qed.

Lemma camarim_removerItem_nao_positiva this itemId item q :
  itens this !! itemId = Some item ->
  q <= 0 ->
  removerItem itemId q this =
  Lanca (ValidacaoException "Quantidade deve ser maior que zero") this.
Proof.
  intros Hitem Hq.
  unfold removerItem. desdobra. rewrite Hitem. guarda. reflexivity.
Qed.

Lemma camarim_removerItem_insuficiente this itemId item q :
  itens this !! itemId = Some item ->
  0 < q -> quantidade item < q ->
  removerItem itemId q this =
  Lanca (CamarimException "Quantidade insuficiente no camarim") this.
Proof.
  intros Hitem Hq Hins.
  unfold removerItem. desdobra. rewrite Hitem. guarda. reflexivity.
Qed.

Lemma camarim_removerItem_ausente this itemId q :
  itens this !! itemId = None ->
  removerItem itemId q this =
  Lanca (CamarimException "Item não encontrado no camarim") this.
Proof.
  intros Hitem. unfold removerItem. desdobra. rewrite Hitem. reflexivity.
Qed.

(** A new dressing room has no items, and the two ledger operations keep
    every stored quantity positive: no zero-quantity record ever appears. *)
Lemma camarim_positivo_novo id nome artistaId :
  camarim_positivo (novo id nome artistaId).
Proof. apply map_Forall_empty. Qed.

Lemma camarim_positivo_preservado this :
  camarim_positivo this ->
  (forall itemId nomeItem q,
      apos camarim_positivo (inserirItem itemId nomeItem q this))
  /\ (forall itemId q, apos camarim_positivo (removerItem itemId q this)).
Proof.
  unfold camarim_positivo. intros Hinv. split.
  - intros itemId nomeItem q. unfold inserirItem. desdobra.
    destruct (itemId <? 0), (empty nomeItem), (q <=? 0) eqn:Hq; simpl;
      try assumption.
    destruct (itens this !! itemId) as [item|] eqn:Hitem; simpl.
    + destruct (CppInt.add (quantidade item) q) as [soma|] eqn:Hsoma;
        simpl; [|exact I].
      apply add_Some in Hsoma. apply map_Forall_insert_2; [|assumption].
      apply Hinv in Hitem. reflete. simpl in *. lia.
    + apply map_Forall_insert_2; [|assumption]. reflete. simpl. lia.
  - intros itemId q. unfold removerItem. desdobra.
    destruct (itens this !! itemId) as [item|] eqn:Hitem; simpl;
      [|assumption].
    destruct (q <=? 0) eqn:Hq, (quantidade item <? q) eqn:Hins; simpl;
      try assumption.
    unfold elemento. rewrite lookup_insert_eq. simpl.
    destruct (quantidade item - q =? 0) eqn:Hzero; simpl.
    + rewrite delete_insert_eq. apply map_Forall_delete. assumption.
    + apply map_Forall_insert_2; [|assumption]. reflete. simpl. lia.
Qed.

(** Hence no dressing room a program can build holds a record whose
    quantity is zero or negative. *)
Lemma camarim_alcancavel_positivo this :
  camarim_alcancavel this -> camarim_positivo this.
Proof.
  induction 1 as [id nome artistaId|c nome c' _ IH H|c artistaId c' _ IH H
                   |c itemId nomeItem q c' _ IH H|c itemId q c' _ IH H].
  - apply camarim_positivo_novo.
  - revert H. unfold setNome. desdobra.
    destruct (empty nome); simpl; intros H; injection H as <-; exact IH.
  - revert H. unfold setArtistaId. desdobra.
    intros H; injection H as <-; exact IH.
  - destruct (camarim_positivo_preservado c IH) as (Hi & _).
    exact (apos_estado_depois _ _ _ (Hi itemId nomeItem q) H).
  - destruct (camarim_positivo_preservado c IH) as (_ & Hr).
    exact (apos_estado_depois _ _ _ (Hr itemId q) H).
Qed.

End CamarimLedger.

(** ** Withdrawals from the stock and from a dressing room *)

Section Retiradas.

Lemma estoque_exemplo_sem_negativos : estoque_sem_negativos estoque_exemplo.
Proof. apply map_Forall_singleton. simpl. lia. Defined.

Lemma camarim_exemplo_positivo : camarim_positivo camarim_exemplo.
Proof. apply map_Forall_singleton. simpl. lia. Defined.

(** The part of the zero-quantity rule that holds: no dressing room a
    program can build has a record with quantity 0. *)
Lemma camarim_alcancavel_sem_zeros (c : Camarim.Camarim) itemId item :
  camarim_alcancavel c ->
  Camarim.itens c !! itemId = Some item ->
  Camarim.quantidade item <> 0.
Proof.
  intros Halc Hitem. apply camarim_alcancavel_positivo in Halc.
  pose proof (Halc _ _ Hitem) as Hpos. simpl in Hpos. lia.
Qed.

(** [EstoqueInsuficienteException] is caught by a handler for itself, for
    [EstoqueException] and for [ExcecaoBase], and by no handler for
    [ValidacaoException]. *)
Lemma estoque_insuficiente_hierarquia (msg : string) :
  let c := tipo (EstoqueInsuficienteException msg) in
  capturada_por c_EstoqueInsuficiente c = true
  /\ capturada_por c_Estoque c = true
  /\ capturada_por c_Base c = true
  /\ capturada_por c_Validacao c = false.
Proof. repeat split. Qed.

(** C2, at its failing input. On an empty stock the call
    [adicionarItem(1, "Toalha", 0)] is accepted (the guard rejects only
    negative quantities) and creates a record whose quantity is 0: the
    stock is no longer free of zero-quantity records. *)
Theorem estoque_adicionarItem_zero_cria_registro :
  Estoque.adicionarItem 1 "Toalha" 0 Estoque.vazio =
    Retorna tt
      (Estoque.mkEstoque {[ 1 := Estoque.mkItemEstoque 1 "Toalha" 0 ]})
  /\ estoque_sem_zeros Estoque.vazio
  /\ ~ estoque_sem_zeros
         (Estoque.mkEstoque {[ 1 := Estoque.mkItemEstoque 1 "Toalha" 0 ]}).
Proof.
  split; [vm_compute; reflexivity|].
  split; [apply map_Forall_empty|].
  unfold estoque_sem_zeros. simpl. rewrite map_Forall_singleton. simpl.
  congruence.
Qed.

(** C4, as amended. With the item present and the stored quantity
    sufficient, the stock's [removerItem] throws a validation exception
    exactly when the quantity is negative, and a withdrawal of 0 returns
    true; the dressing room's [removerItem] throws a validation exception
    exactly when the quantity is negative or zero. *)
Theorem removerItem_validacao :
  (forall (e : Estoque.Estoque) itemId item q,
      Estoque.itens e !! itemId = Some item ->
      q <= Estoque.quantidade item ->
      (lanca_classe c_Validacao (Estoque.removerItem itemId q e) <-> q < 0)
      /\ (q = 0 -> exists e', Estoque.removerItem itemId q e = Retorna true e'))
  /\ (forall (c : Camarim.Camarim) itemId item q,
      Camarim.itens c !! itemId = Some item ->
      q <= Camarim.quantidade item ->
      (lanca_classe c_Validacao (Camarim.removerItem itemId q c) <-> q <= 0)).
Proof.
  split.
  - intros e itemId item q Hitem Hsuf. split; [split|].
    + destruct (Z.lt_ge_cases q 0) as [Hneg|Hpos]; [lia|].
      rewrite (estoque_removerItem_estado e itemId item q Hitem) by lia.
      simpl. tauto.
    + intros Hneg.
      rewrite (estoque_removerItem_negativa e itemId item q Hitem Hneg).
      reflexivity.
    + intros ->. eexists.
      apply (estoque_removerItem_estado e itemId item 0 Hitem). lia.
  - intros c itemId item q Hitem Hsuf. split.
    + destruct (Z.le_gt_cases q 0) as [Hneg|Hpos]; [lia|].
      rewrite (camarim_removerItem_estado c itemId item q Hitem) by lia.
      simpl. tauto.
    + intros Hneg.
      rewrite (camarim_removerItem_nao_positiva c itemId item q Hitem Hneg).
      reflexivity.
Qed.

Lemma removerItem_validacao_witness :
  ((lanca_classe c_Validacao (Estoque.removerItem 1 0 estoque_exemplo)
    <-> 0 < 0)
   /\ (0 = 0 ->
       exists e', Estoque.removerItem 1 0 estoque_exemplo = Retorna true e'))
  /\ (lanca_classe c_Validacao (Camarim.removerItem 1 0 camarim_exemplo)
      <-> 0 <= 0).
Proof.
  split.
  - apply (proj1 removerItem_validacao estoque_exemplo 1
             (Estoque.mkItemEstoque 1 "Toalha" 10) 0);
      [reflexivity | simpl; lia].
  - apply (proj2 removerItem_validacao camarim_exemplo 1
             (Camarim.mkItemCamarim 1 "Toalha" 5) 0);
      [reflexivity | simpl; lia].
Defined.

(** C4, as stated, fails for the dressing room: 5 units of item 1 are
    stored, and withdrawing 0 of them throws a validation exception
    although 0 is not negative. *)
Lemma camarim_removerItem_zero_contraexemplo :
  Camarim.itens camarim_exemplo !! 1
    = Some (Camarim.mkItemCamarim 1 "Toalha" 5)
  /\ Camarim.removerItem 1 0 camarim_exemplo =
       Lanca (ValidacaoException "Quantidade deve ser maior que zero")
         camarim_exemplo
  /\ ~ (lanca_classe c_Validacao (Camarim.removerItem 1 0 camarim_exemplo)
        <-> 0 < 0).
Proof.
  split; [reflexivity|]. split; [vm_compute; reflexivity|].
  intros [H _]. assert (0 < 0) as Hfalso; [|lia].
  apply H. vm_compute. reflexivity.
Qed.

(** C5. When the item is present and the requested quantity exceeds the
    stored one, the stock's [removerItem] throws
    [EstoqueInsuficienteException] and the dressing room's [removerItem]
    throws its [CamarimException] for an insufficient quantity; in both
    cases the object is left exactly as it was. (The hypotheses on the
    ledger hold of every stock and dressing room a program can build:
    [estoque_alcancavel_sem_negativos], [camarim_alcancavel_positivo].) *)
Theorem removerItem_insuficiente_atomico :
  (forall (e : Estoque.Estoque) itemId item q,
      estoque_sem_negativos e ->
      Estoque.itens e !! itemId = Some item ->
      Estoque.quantidade item < q ->
      Estoque.removerItem itemId q e =
        Lanca (EstoqueInsuficienteException
                 ("Quantidade insuficiente. Disponível: "
                    +:+ to_string (Estoque.quantidade item)
                    +:+ ", Solicitado: " +:+ to_string q)) e)
  /\ (forall (c : Camarim.Camarim) itemId item q,
      camarim_positivo c ->
      Camarim.itens c !! itemId = Some item ->
      Camarim.quantidade item < q ->
      Camarim.removerItem itemId q c =
        Lanca (CamarimException "Quantidade insuficiente no camarim") c).
Proof.
  split.
  - intros e itemId item q Hinv Hitem Hins.
    pose proof (Hinv _ _ Hitem) as Hpos. simpl in Hpos.
    apply (estoque_removerItem_insuficiente e itemId item q Hitem); lia.
  - intros c itemId item q Hinv Hitem Hins.
    pose proof (Hinv _ _ Hitem) as Hpos. simpl in Hpos.
    apply (camarim_removerItem_insuficiente c itemId item q Hitem); lia.
Qed.

Lemma removerItem_insuficiente_atomico_witness :
  Estoque.removerItem 1 11 estoque_exemplo =
    Lanca (EstoqueInsuficienteException
             "Quantidade insuficiente. Disponível: 10, Solicitado: 11")
      estoque_exemplo
  /\ Camarim.removerItem 1 6 camarim_exemplo =
       Lanca (CamarimException "Quantidade insuficiente no camarim")
         camarim_exemplo.
Proof.
  split.
  - apply (proj1 removerItem_insuficiente_atomico estoque_exemplo 1
             (Estoque.mkItemEstoque 1 "Toalha" 10) 11
             estoque_exemplo_sem_negativos);
      [reflexivity | simpl; lia].
  - apply (proj2 removerItem_insuficiente_atomico camarim_exemplo 1
             (Camarim.mkItemCamarim 1 "Toalha" 5) 6
             camarim_exemplo_positivo);
      [reflexivity | simpl; lia].
Defined.

(** C6. Withdrawing exactly the stored quantity of a present item
    succeeds, in the stock and in a dressing room, and afterwards the
    ledger has no record for that item. (The hypotheses on the ledger hold
    of every stock and dressing room a program can build:
    [estoque_alcancavel_sem_negativos], [camarim_alcancavel_positivo].) *)
Theorem removerItem_tudo_apaga_registro :
  (forall (e : Estoque.Estoque) itemId item,
      estoque_sem_negativos e ->
      Estoque.itens e !! itemId = Some item ->
      exists e',
        Estoque.removerItem itemId (Estoque.quantidade item) e
          = Retorna true e'
        /\ Estoque.itens e' !! itemId = None)
  /\ (forall (c : Camarim.Camarim) itemId item,
      camarim_positivo c ->
      Camarim.itens c !! itemId = Some item ->
      exists c',
        Camarim.removerItem itemId (Camarim.quantidade item) c
          = Retorna true c'
        /\ Camarim.itens c' !! itemId = None).
Proof.
  split.
  - intros e itemId item Hinv Hitem.
    pose proof (Hinv _ _ Hitem) as Hpos. simpl in Hpos.
    eexists. split.
    + apply (estoque_removerItem_estado e itemId item _ Hitem). lia.
    + rewrite Z.sub_diag. simpl. apply lookup_delete_eq.
  - intros c itemId item Hinv Hitem.
    pose proof (Hinv _ _ Hitem) as Hpos. simpl in Hpos.
    eexists. split.
    + apply (camarim_removerItem_estado c itemId item _ Hitem). lia.
    + rewrite Z.sub_diag. simpl. apply lookup_delete_eq.
Qed.

Lemma removerItem_tudo_apaga_registro_witness :
  (exists e',
      Estoque.removerItem 1 10 estoque_exemplo = Retorna true e'
      /\ Estoque.itens e' !! 1 = None)
  /\ (exists c',
      Camarim.removerItem 1 5 camarim_exemplo = Retorna true c'
      /\ Camarim.itens c' !! 1 = None).
Proof.
  split.
  - apply (proj1 removerItem_tudo_apaga_registro estoque_exemplo 1
             (Estoque.mkItemEstoque 1 "Toalha" 10)
             estoque_exemplo_sem_negativos).
    reflexivity.
  - apply (proj2 removerItem_tudo_apaga_registro camarim_exemplo 1
             (Camarim.mkItemCamarim 1 "Toalha" 5)
             camarim_exemplo_positivo).
    reflexivity.
Defined.

End Retiradas.

(** ** Creating entities with a foreign-key id *)

Section Criacao.

Lemma camarins_cadastrar_estado (g : Camarim.GerenciadorCamarins)
    (nome : string) (artistaId : Z) :
  nome <> "" ->
  Camarim.proximoId g + 1 <= CppInt.INT_MAX ->
  CppInt.INT_MIN <= Camarim.proximoId g + 1 ->
  Camarim.cadastrar nome artistaId g =
  Retorna (Camarim.proximoId g)
    (Camarim.mkGerenciadorCamarins
       (Camarim.camarins g
          ++ [Camarim.novo (Camarim.proximoId g) nome artistaId])
       (Camarim.proximoId g + 1)).
Proof.
  intros Hnome Hmax Hmin. unfold Camarim.cadastrar. desdobra.
  rewrite (empty_false _ Hnome). simpl.
  rewrite add_representavel by lia. reflexivity.
Qed.

Lemma artistas_cadastrar_estado (g : Artista.GerenciadorArtistas)
    (nome : string) (camarimId : Z) :
  nome <> "" -> 0 <= camarimId ->
  Artista.proximoId g + 1 <= CppInt.INT_MAX ->
  CppInt.INT_MIN <= Artista.proximoId g + 1 ->
  Artista.cadastrar nome camarimId g =
  Retorna (Artista.proximoId g)
    (Artista.mkGerenciadorArtistas
       (Artista.artistas g
          ++ [Artista.mkArtista (Artista.proximoId g) nome camarimId])
       (Artista.proximoId g + 1)).
Proof.
  intros Hnome Hfk Hmax Hmin. unfold Artista.cadastrar. desdobra.
  rewrite (empty_false _ Hnome). guarda.
  rewrite add_representavel by lia. reflexivity.
Qed.

Lemma pedidos_criar_estado (g : Pedido.GerenciadorPedidos)
    (camarimId : Z) (nomeArtista : string) :
  nomeArtista <> "" -> 0 <= camarimId ->
  Pedido.proximoId g + 1 <= CppInt.INT_MAX ->
  CppInt.INT_MIN <= Pedido.proximoId g + 1 ->
  Pedido.criar camarimId nomeArtista g =
  Retorna (Pedido.proximoId g)
    (Pedido.mkGerenciadorPedidos
       (Pedido.pedidos g
          ++ [Pedido.novo (Pedido.proximoId g) camarimId nomeArtista])
       (Pedido.proximoId g + 1)).
Proof.
  intros Hnome Hfk Hmax Hmin. unfold Pedido.criar. desdobra. guarda.
  rewrite (empty_false _ Hnome). simpl.
  rewrite add_representavel by lia. reflexivity.
Qed.

Lemma artistas_cadastrar_fk_negativa (g : Artista.GerenciadorArtistas)
    (nome : string) (camarimId : Z) :
  camarimId < 0 ->
  exists e, Artista.cadastrar nome camarimId g = Lanca e g
            /\ tipo e = c_Validacao.
Proof.
  intros Hfk. unfold Artista.cadastrar. desdobra.
  destruct (empty nome); simpl.
  - eexists. split; reflexivity.
  - guarda. eexists. split; reflexivity.
Qed.

Lemma pedidos_criar_fk_negativa (g : Pedido.GerenciadorPedidos)
    (camarimId : Z) (nomeArtista : string) :
  camarimId < 0 ->
  Pedido.criar camarimId nomeArtista g =
    Lanca (ValidacaoException "ID do camarim inválido") g.
Proof.
  intros Hfk. unfold Pedido.criar. desdobra. guarda. reflexivity.
Qed.

(** C3, as amended. [GerenciadorArtistas::cadastrar] and
    [GerenciadorPedidos::criar] called with a negative foreign-key id throw
    a validation exception and leave the manager (vector and counter) as it
    was. With a non-empty name and a non-negative foreign-key id each of the
    three create operations gives the new entity the current [proximoId],
    appends it, increments the counter and returns the id it assigned;
    [GerenciadorCamarins::cadastrar] does so for every [artistaId], since it
    checks the name only. (The counter is below [INT_MAX], so that
    [proximoId++] is defined.) *)
Theorem criar_com_chave_estrangeira :
  (forall (g : Artista.GerenciadorArtistas) nome camarimId,
      camarimId < 0 ->
      exists e, Artista.cadastrar nome camarimId g = Lanca e g
                /\ tipo e = c_Validacao)
  /\ (forall (g : Pedido.GerenciadorPedidos) camarimId nomeArtista,
      camarimId < 0 ->
      exists e, Pedido.criar camarimId nomeArtista g = Lanca e g
                /\ tipo e = c_Validacao)
  /\ (forall (g : Artista.GerenciadorArtistas) nome camarimId,
      nome <> "" -> 0 <= camarimId ->
      CppInt.INT_MIN <= Artista.proximoId g < CppInt.INT_MAX ->
      Artista.cadastrar nome camarimId g =
      Retorna (Artista.proximoId g)
        (Artista.mkGerenciadorArtistas
           (Artista.artistas g
              ++ [Artista.mkArtista (Artista.proximoId g) nome camarimId])
           (Artista.proximoId g + 1)))
  /\ (forall (g : Pedido.GerenciadorPedidos) camarimId nomeArtista,
      nomeArtista <> "" -> 0 <= camarimId ->
      CppInt.INT_MIN <= Pedido.proximoId g < CppInt.INT_MAX ->
      Pedido.criar camarimId nomeArtista g =
      Retorna (Pedido.proximoId g)
        (Pedido.mkGerenciadorPedidos
           (Pedido.pedidos g
              ++ [Pedido.novo (Pedido.proximoId g) camarimId nomeArtista])
           (Pedido.proximoId g + 1)))
  /\ (forall (g : Camarim.GerenciadorCamarins) nome artistaId,
      nome <> "" ->
      CppInt.INT_MIN <= Camarim.proximoId g < CppInt.INT_MAX ->
      Camarim.cadastrar nome artistaId g =
      Retorna (Camarim.proximoId g)
        (Camarim.mkGerenciadorCamarins
           (Camarim.camarins g
              ++ [Camarim.novo (Camarim.proximoId g) nome artistaId])
           (Camarim.proximoId g + 1))).
Proof.
  split; [|split; [|split; [|split]]].
  - intros g nome camarimId Hfk.
    apply artistas_cadastrar_fk_negativa. assumption.
  - intros g camarimId nomeArtista Hfk. eexists. split.
    + apply pedidos_criar_fk_negativa. assumption.
    + reflexivity.
  - intros g nome camarimId Hnome Hfk Hprox.
    apply artistas_cadastrar_estado; solve [assumption | lia].
  - intros g camarimId nomeArtista Hnome Hfk Hprox.
    apply pedidos_criar_estado; solve [assumption | lia].
  - intros g nome artistaId Hnome Hprox.
    apply camarins_cadastrar_estado; solve [assumption | lia].
Qed.

Lemma criar_com_chave_estrangeira_witness :
  (exists e, Artista.cadastrar "Ana" (-1) Artista.gerenciador_novo
             = Lanca e Artista.gerenciador_novo
             /\ tipo e = c_Validacao)
  /\ (exists e, Pedido.criar (-1) "Ana" Pedido.gerenciador_novo
                = Lanca e Pedido.gerenciador_novo
                /\ tipo e = c_Validacao)
  /\ Artista.cadastrar "Ana" 2 Artista.gerenciador_novo =
       Retorna 1
         (Artista.mkGerenciadorArtistas [Artista.mkArtista 1 "Ana" 2] 2)
  /\ Pedido.criar 2 "Ana" Pedido.gerenciador_novo =
       Retorna 1 (Pedido.mkGerenciadorPedidos [Pedido.novo 1 2 "Ana"] 2)
  /\ Camarim.cadastrar "Camarim A" 2 Camarim.gerenciador_novo =
       Retorna 1
         (Camarim.mkGerenciadorCamarins [Camarim.novo 1 "Camarim A" 2] 2).
Proof.
  destruct criar_com_chave_estrangeira as (H1 & H2 & H3 & H4 & H5).
  split; [|split; [|split; [|split]]].
  - apply (H1 Artista.gerenciador_novo "Ana" (-1)). lia.
  - apply (H2 Pedido.gerenciador_novo (-1) "Ana"). lia.
  - apply (H3 Artista.gerenciador_novo "Ana" 2);
      [discriminate | lia | vm_compute; split; [discriminate | reflexivity]].
  - apply (H4 Pedido.gerenciador_novo 2 "Ana");
      [discriminate | lia | vm_compute; split; [discriminate | reflexivity]].
  - apply (H5 Camarim.gerenciador_novo "Camarim A" 2);
      [discriminate | vm_compute; split; [discriminate | reflexivity]].
Defined.

(** C3, as stated, fails for the dressing-room manager: on a new manager
    [cadastrar("Camarim A", -1)] throws nothing, appends the dressing room
    with [artistaId = -1] and returns id 1. *)
Lemma camarins_cadastrar_fk_negativa_contraexemplo :
  Camarim.cadastrar "Camarim A" (-1) Camarim.gerenciador_novo =
    Retorna 1
      (Camarim.mkGerenciadorCamarins
         [Camarim.novo 1 "Camarim A" (-1)] 2)
  /\ ~ lanca_classe c_Validacao
         (Camarim.cadastrar "Camarim A" (-1) Camarim.gerenciador_novo).
Proof.
  split; [vm_compute; reflexivity|].
  vm_compute. tauto.
Qed.

End Criacao.

(** ** Orders: the fulfilled flag *)

Section PedidoAtendido.
Import Pedido.

Implicit Types (this : Pedido).

Lemma pedido_adicionarItem_atendido this itemId nomeItem q :
  atendido this = true ->
  adicionarItem itemId nomeItem q this =
    Lanca (PedidoException
             "Não é possível adicionar itens a um pedido já atendido") this.
Proof. intros H. unfold adicionarItem. desdobra. rewrite H. reflexivity. Qed.

Lemma pedido_removerItem_atendido this itemId :
  atendido this = true ->
  removerItem itemId this =
    Lanca (PedidoException
             "Não é possível remover itens de um pedido já atendido") this.
Proof. intros H. unfold removerItem. desdobra. rewrite H. reflexivity. Qed.

Lemma pedido_marcarAtendido_atendido this :
  atendido this = true -> marcarAtendido this = Retorna tt this.
Proof.
  intros H. destruct this as [i c n m a]. simpl in H. subst a. reflexivity.
Qed.

Lemma menu_executa_atendido this (a : Menu.acao) :
  atendido this = true ->
  Menu.executa a this = Retorna (Menu.relato_atendido a) this.
Proof.
  intros H. destruct a as [itemId nomeItem q|itemId|]; simpl;
    unfold Menu.captura.
  - rewrite pedido_adicionarItem_atendido by assumption. reflexivity.
  - rewrite pedido_removerItem_atendido by assumption. reflexivity.
  - rewrite pedido_marcarAtendido_atendido by assumption. reflexivity.
Qed.

(** C7. On an order whose [atendido] flag is true, [adicionarItem] and
    [removerItem] throw the order exception for an order already fulfilled
    and leave the order (its items and its flag) as it was; hence over any
    sequence of menu actions on that order ([adicionarItem], [removerItem]
    and [marcarAtendido] calls, each inside the menu's handler) every
    [adicionarItem] and [removerItem] reports that exception and the order
    never changes. *)
Theorem pedido_atendido_imutavel this :
  atendido this = true ->
  (forall itemId nomeItem q,
      adicionarItem itemId nomeItem q this =
        Lanca (PedidoException
                 "Não é possível adicionar itens a um pedido já atendido")
          this)
  /\ (forall itemId,
      removerItem itemId this =
        Lanca (PedidoException
                 "Não é possível remover itens de um pedido já atendido")
          this)
  /\ (forall msg, tipo (PedidoException msg) = c_Pedido)
  /\ (forall acoes : list Menu.acao,
      Menu.executa_todas acoes this =
        Retorna (List.map Menu.relato_atendido acoes) this).
Proof.
  intros H. split; [|split; [|split]].
  - intros. apply pedido_adicionarItem_atendido. assumption.
  - intros. apply pedido_removerItem_atendido. assumption.
  - reflexivity.
  - induction acoes as [|a resto IH]; [reflexivity|].
    simpl. unfold seq at 1. rewrite menu_executa_atendido by assumption.
    unfold seq at 1. rewrite IH. reflexivity.
Qed.

Lemma pedido_atendido_imutavel_witness :
  (forall itemId nomeItem q,
      adicionarItem itemId nomeItem q pedido_atendido_exemplo =
        Lanca (PedidoException
                 "Não é possível adicionar itens a um pedido já atendido")
          pedido_atendido_exemplo)
  /\ (forall itemId,
      removerItem itemId pedido_atendido_exemplo =
        Lanca (PedidoException
                 "Não é possível remover itens de um pedido já atendido")
          pedido_atendido_exemplo)
  /\ (forall msg, tipo (PedidoException msg) = c_Pedido)
  /\ (forall acoes : list Menu.acao,
      Menu.executa_todas acoes pedido_atendido_exemplo =
        Retorna (List.map Menu.relato_atendido acoes)
          pedido_atendido_exemplo).
Proof.
  apply (pedido_atendido_imutavel pedido_atendido_exemplo). reflexivity.
Defined.

(** The flag is cleared by [setAtendido(false)] only, a setter that no
    caller in main.cpp uses; after it the order accepts items again. *)
Remark pedido_setAtendido_reabre :
  exists this' this'',
    setAtendido false pedido_atendido_exemplo = Retorna tt this'
    /\ atendido this' = false
    /\ adicionarItem 3 "Espelho" 1 this' = Retorna tt this''
    /\ itens this'' !! 3 = Some (mkItemPedido 3 "Espelho" 1).
Proof.
  eexists _, _. split; [reflexivity|]. split; [reflexivity|].
  split; [vm_compute; reflexivity|]. reflexivity.
Qed.

(** C8. [marcarAtendido] never throws and is idempotent: on every order
    the first call returns with the flag set, and a second call returns
    too, with the flag still set and the order otherwise as the first call
    left it. *)
Theorem pedido_marcarAtendido_idempotente this :
  exists this',
    marcarAtendido this = Retorna tt this'
    /\ atendido this' = true
    /\ itens this' = itens this
    /\ marcarAtendido this' = Retorna tt this'.
Proof.
  exists (mkPedido (id this) (camarimId this) (nomeArtista this)
            (itens this) true).
  repeat split; reflexivity.
Qed.

End PedidoAtendido.

(** ** Catalog: register, find, remove *)

Section Catalogo.
Import Item.

Implicit Types (this : GerenciadorItens) (itens : list Item).

Lemma buscar_nome_app nome itens (novo : Item.Item) :
  buscar_nome nome (itens ++ [novo]) =
  match buscar_nome nome itens with
  | Some item => Some item
  | None => if String.eqb (getNome novo) nome then Some novo else None
  end.
Proof.
  induction itens as [|item resto IH]; simpl; [reflexivity|].
  destruct (String.eqb (getNome item) nome); [reflexivity | exact IH].
Qed.

Lemma buscar_id_removidos id itens :
  buscar_id id (List.filter (fun i => negb (getId i =? id)) itens) = None.
Proof.
  induction itens as [|item resto IH]; simpl; [reflexivity|].
  destruct (getId item =? id) eqn:Hid; simpl; [exact IH|].
  rewrite Hid. exact IH.
Qed.

(** [cadastrar] returns exactly when the name is not empty, the price is
    not below zero, no entry has the name and the counter can be
    incremented; it then appends the entry under the current counter. *)
Lemma itens_cadastrar_estado this nome preco :
  nome <> "" -> CppInt.double_neg preco = false ->
  buscarPorNome nome this = None ->
  CppInt.INT_MIN <= proximoId this < CppInt.INT_MAX ->
  cadastrar nome preco this =
  Retorna (proximoId this)
    (mkGerenciadorItens
       (Item.itens this ++ [mkItem (proximoId this) nome preco])
       (proximoId this + 1)).
Proof.
  intros Hnome Hpreco Hlivre Hprox. unfold cadastrar. desdobra.
  rewrite (empty_false _ Hnome), Hpreco, Hlivre. simpl.
  rewrite add_representavel by lia. reflexivity.
Qed.

Lemma itens_cadastrar_retorna this nome preco id this' :
  cadastrar nome preco this = Retorna id this' ->
  buscarPorNome nome this = None
  /\ id = proximoId this
  /\ Item.itens this' = Item.itens this ++ [mkItem (proximoId this) nome preco].
Proof.
  unfold cadastrar. desdobra.
  destruct (empty nome); simpl; [congruence|].
  destruct (CppInt.double_neg preco); simpl; [congruence|].
  destruct (buscarPorNome nome this); simpl; [congruence|].
  destruct (CppInt.add (proximoId this) 1); simpl; [|congruence].
  intros H. injection H as <- <-. repeat split.
Qed.

Lemma itens_remover_retorna this id b this' :
  remover id this = Retorna b this' ->
  b = true ->
  Item.itens this' =
    List.filter (fun i => negb (getId i =? id)) (Item.itens this).
Proof.
  unfold remover. desdobra.
  destruct (_ <? _)%nat; simpl; intros H; injection H as <- <-;
    [reflexivity | discriminate].
Qed.

(** C9. After [cadastrar(nome, preco)] has returned, [buscarPorNome(nome)]
    finds an entry with exactly that name and that price (the entry just
    registered, under the id [cadastrar] returned); and after [remover(id)]
    has returned true, [buscarPorId(id)] is [nullptr]. *)
Theorem catalogo_cadastrar_buscar_remover :
  (forall this nome preco id this',
      cadastrar nome preco this = Retorna id this' ->
      exists item,
        buscarPorNome nome this' = Some item
        /\ getNome item = nome /\ getPreco item = preco
        /\ getId item = id)
  /\ (forall this id this',
      remover id this = Retorna true this' ->
      buscarPorId id this' = None).
Proof.
  split.
  - intros this nome preco id this' H.
    apply itens_cadastrar_retorna in H as (Hlivre & -> & Hitens).
    exists (mkItem (proximoId this) nome preco).
    split; [|repeat split].
    unfold buscarPorNome in *. rewrite Hitens, buscar_nome_app, Hlivre.
    simpl. rewrite String.eqb_refl. reflexivity.
  - intros this id this' H.
    apply itens_remover_retorna in H; [|reflexivity].
    unfold buscarPorId. rewrite H. apply buscar_id_removidos.
Qed.

Lemma catalogo_cadastrar_buscar_remover_witness :
  (exists item,
      buscarPorNome "Espelho"
        (mkGerenciadorItens
           [mkItem 1 "Toalha" 12.5; mkItem 2 "Sabonete" 2;
            mkItem 3 "Espelho" 40] 4) = Some item
      /\ getNome item = "Espelho" /\ getPreco item = 40%float
      /\ getId item = 3)
  /\ buscarPorId 1 (mkGerenciadorItens [mkItem 2 "Sabonete" 2] 3) = None.
Proof.
  split.
  - apply (proj1 catalogo_cadastrar_buscar_remover
             catalogo_exemplo "Espelho" 40%float 3).
    vm_compute. reflexivity.
  - apply (proj2 catalogo_cadastrar_buscar_remover catalogo_exemplo 1).
    vm_compute. reflexivity.
Defined.

End Catalogo.

(** ** Adding to a record that exists keeps its name *)

Section NomeGuardado.

(** Closes the branches of a method in which it threw or was undefined,
    against the hypothesis that it returned. *)
Ltac retornou :=
  repeat match goal with
    | |- context [if ?c then _ else _] => destruct c; simpl
    | |- context [CppInt.add ?a ?b] =>
        destruct (CppInt.add a b); simpl
    end;
  try congruence.

(** C10. In each of the four ledgers, when [itemId] already has a record
    and the call that adds to it returns, the record afterwards still
    carries the name it had: the [nomeItem] argument is ignored. In the
    shopping list the stored unit price is kept as well: the [preco]
    argument is ignored. *)
Theorem adicionar_existente_preserva_nome :
  (forall (e : Estoque.Estoque) itemId item nomeItem q e',
      Estoque.itens e !! itemId = Some item ->
      Estoque.adicionarItem itemId nomeItem q e = Retorna tt e' ->
      exists item',
        Estoque.itens e' !! itemId = Some item'
        /\ Estoque.nomeItem item' = Estoque.nomeItem item)
  /\ (forall (c : Camarim.Camarim) itemId item nomeItem q c',
      Camarim.itens c !! itemId = Some item ->
      Camarim.inserirItem itemId nomeItem q c = Retorna tt c' ->
      exists item',
        Camarim.itens c' !! itemId = Some item'
        /\ Camarim.nomeItem item' = Camarim.nomeItem item)
  /\ (forall (p : Pedido.Pedido) itemId item nomeItem q p',
      Pedido.itens p !! itemId = Some item ->
      Pedido.adicionarItem itemId nomeItem q p = Retorna tt p' ->
      exists item',
        Pedido.itens p' !! itemId = Some item'
        /\ Pedido.nomeItem item' = Pedido.nomeItem item)
  /\ (forall (l : ListaCompras.ListaCompras) itemId item nomeItem q preco l',
      ListaCompras.itens l !! itemId = Some item ->
      ListaCompras.adicionarItem itemId nomeItem q preco l = Retorna tt l' ->
      exists item',
        ListaCompras.itens l' !! itemId = Some item'
        /\ ListaCompras.nomeItem item' = ListaCompras.nomeItem item
        /\ ListaCompras.preco item' = ListaCompras.preco item).
Proof.
  split; [|split; [|split]].
  - intros e itemId item nomeItem q e' Hitem.
    unfold Estoque.adicionarItem. desdobra. retornou.
    rewrite Hitem. simpl. retornou.
    intros H. injection H as <-. eexists. split.
    + apply lookup_insert_eq.
    + reflexivity.
  - intros c itemId item nomeItem q c' Hitem.
    unfold Camarim.inserirItem. desdobra. retornou.
    rewrite Hitem. simpl. retornou.
    intros H. injection H as <-. eexists. split.
    + apply lookup_insert_eq.
    + reflexivity.
  - intros p itemId item nomeItem q p' Hitem.
    unfold Pedido.adicionarItem. desdobra. retornou.
    rewrite Hitem. simpl. retornou.
    intros H. injection H as <-. eexists. split.
    + apply lookup_insert_eq.
    + reflexivity.
  - intros l itemId item nomeItem q preco l' Hitem.
    unfold ListaCompras.adicionarItem. desdobra. retornou.
    rewrite Hitem. simpl. retornou.
    unfold elemento. rewrite lookup_insert_eq. simpl.
    intros H. injection H as <-. eexists. split.
    + apply lookup_insert_eq.
    + split; reflexivity.
Qed.

Lemma adicionar_existente_preserva_nome_witness :
  (exists item',
      Estoque.itens
        (Estoque.mkEstoque {[ 1 := Estoque.mkItemEstoque 1 "Toalha" 13 ]})
        !! 1 = Some item'
      /\ Estoque.nomeItem item' = "Toalha")
  /\ (exists item',
      Camarim.itens
        (Camarim.mkCamarim 1 "Camarim A" 0
           {[ 1 := Camarim.mkItemCamarim 1 "Toalha" 8 ]})
        !! 1 = Some item'
      /\ Camarim.nomeItem item' = "Toalha")
  /\ (exists item',
      Pedido.itens
        (Pedido.mkPedido 1 1 "Ana"
           {[ 1 := Pedido.mkItemPedido 1 "Toalha" 5 ]} false)
        !! 1 = Some item'
      /\ Pedido.nomeItem item' = "Toalha")
  /\ (exists item',
      ListaCompras.itens
        (ListaCompras.mkListaCompras 1 "Semanal"
           {[ 1 := ListaCompras.mkItemCompra 1 "Sabonete" 5 2 10 ]})
        !! 1 = Some item'
      /\ ListaCompras.nomeItem item' = "Sabonete"
      /\ ListaCompras.preco item' = 2%float).
Proof.
  destruct adicionar_existente_preserva_nome as (He & Hc & Hp & Hl).
  split; [|split; [|split]].
  - apply (He estoque_exemplo 1 (Estoque.mkItemEstoque 1 "Toalha" 10)
             "Lenço" 3);
      [reflexivity | vm_compute; reflexivity].
  - apply (Hc camarim_exemplo 1 (Camarim.mkItemCamarim 1 "Toalha" 5)
             "Lenço" 3);
      [reflexivity | vm_compute; reflexivity].
  - apply (Hp pedido_exemplo 1 (Pedido.mkItemPedido 1 "Toalha" 2)
             "Lenço" 3);
      [reflexivity | vm_compute; reflexivity].
  - apply (Hl lista_exemplo 1 (ListaCompras.novoItemCompra 1 "Sabonete" 3 2)
             "Espuma" 2 5%float);
      [reflexivity | vm_compute; reflexivity].
Defined.

End NomeGuardado.

(** ** Worked scenarios, run on the embedding *)

Section Cenarios.

(** Ten towels enter the stock and leave it again: the record is gone, and
    a further withdrawal reports that the item is not in the stock. *)
Example cenario_estoque :
  (Estoque.adicionarItem 1 "Toalha" 10 ;;;
   Estoque.removerItem 1 10 ;;;
   Estoque.removerItem 1 1) Estoque.vazio =
  Lanca (EstoqueException "Item não encontrado no estoque (ID: 1)")
    Estoque.vazio.
Proof. vm_compute. reflexivity. Qed.

(** Three soaps at 2.0, then two more: five soaps, subtotal 10.0. *)
Example cenario_lista_compras :
  (ListaCompras.adicionarItem 1 "Sabonete" 3 2 ;;;
   ListaCompras.adicionarItem 1 "Sabonete" 2 2)
    (ListaCompras.nova 1 "Semanal") =
  Retorna tt
    (ListaCompras.mkListaCompras 1 "Semanal"
       {[ 1 := ListaCompras.mkItemCompra 1 "Sabonete" 5 2 10 ]}).
Proof. vm_compute. reflexivity. Qed.

(** An order gets two lines and is marked as fulfilled; a third line is
    refused and the two lines stay. *)
Example cenario_pedido :
  (Pedido.adicionarItem 1 "Toalha" 2 ;;;
   Pedido.adicionarItem 2 "Sabonete" 1 ;;;
   Pedido.marcarAtendido ;;;
   Pedido.adicionarItem 3 "Espelho" 1) (Pedido.novo 1 1 "Ana") =
  Lanca (PedidoException
           "Não é possível adicionar itens a um pedido já atendido")
    pedido_atendido_exemplo.
Proof. vm_compute. reflexivity. Qed.

(** The first catalog entry gets id 1, and a second entry with the same
    name is refused. *)
Example cenario_catalogo :
  (Item.cadastrar "Toalha" 12.5 ;;; Item.cadastrar "Toalha" 3)
    Item.gerenciador_novo =
  Lanca (ItemException "Item já existe com este nome: Toalha")
    (Item.mkGerenciadorItens [Item.mkItem 1 "Toalha" 12.5] 2).
Proof. vm_compute. reflexivity. Qed.

End Cenarios.

(** * Further properties of the ledgers and of the managers *)

(** ** Linear searches over a vector *)

Section Buscas.
Context {T : Type}.
Implicit Types (p q : T -> bool) (l : list T).

Lemma posicao_find p l :
  List.find p l = match posicao p l with Some i => l !! i | None => None end.
Proof.
  induction l as [|x l IH]; simpl; [reflexivity|].
  destruct (p x); [reflexivity|].
  rewrite IH. destruct (posicao p l); reflexivity.
Qed.

Lemma posicao_Some p l i :
  posicao p l = Some i ->
  exists x, l !! i = Some x /\ p x = true /\ List.find p l = Some x.
Proof.
  intros H. rewrite posicao_find, H.
  revert i H. induction l as [|y l IH]; simpl; [discriminate|].
  intros i. destruct (p y) eqn:Hy.
  - intros [= <-]. eauto.
  - destruct (posicao p l) as [j|]; [|discriminate].
    intros [= <-]. simpl. apply IH. reflexivity.
Qed.

Lemma posicao_None p l : posicao p l = None <-> List.find p l = None.
Proof.
  induction l as [|x l IH]; simpl; [tauto|].
  destruct (p x); [split; discriminate|].
  destruct (posicao p l) as [i|].
  - split; [discriminate|]. intros H. apply IH in H. discriminate.
  - split; intros _; [apply IH|]; reflexivity.
Qed.

Lemma find_Some_posicao p l x :
  List.find p l = Some x -> exists i, posicao p l = Some i /\ l !! i = Some x.
Proof.
  rewrite posicao_find. destruct (posicao p l) as [i|]; [|discriminate].
  eauto.
Qed.

Lemma find_app_novo p l x :
  List.find p (l ++ [x]) =
  match List.find p l with
  | Some y => Some y
  | None => if p x then Some x else None
  end.
Proof.
  induction l as [|y l IH]; simpl; [reflexivity|].
  destruct (p y); [reflexivity | exact IH].
Qed.

Lemma find_None_Forall p l :
  List.find p l = None <-> Forall (fun x => p x = false) l.
Proof.
  induction l as [|y l IH]; simpl.
  - split; [constructor | reflexivity].
  - destruct (p y) eqn:Hy.
    + split; [discriminate|]. intros H. inversion H; congruence.
    + rewrite IH. split; [constructor; assumption|].
      intros H. inversion H; assumption.
Qed.

(** [remove_if] with predicate [p], then a search for [p]: nothing left. *)
Lemma find_removidos p l :
  List.find p (List.filter (fun x => negb (p x)) l) = None.
Proof.
  induction l as [|y l IH]; simpl; [reflexivity|].
  destruct (p y) eqn:Hy; simpl; [exact IH|].
  rewrite Hy. exact IH.
Qed.

(** A search for [q] is not affected when the removed elements do not
    satisfy [q]. *)
Lemma find_mantidos p q l :
  (forall x, q x = true -> p x = false) ->
  List.find q (List.filter (fun x => negb (p x)) l) = List.find q l.
Proof.
  intros Hpq. induction l as [|y l IH]; simpl; [reflexivity|].
  destruct (q y) eqn:Hq.
  - rewrite (Hpq _ Hq). simpl. rewrite Hq. reflexivity.
  - destruct (p y); simpl; [exact IH|]. rewrite Hq. exact IH.
Qed.

(** [remove_if] returns [end()] exactly when the search finds nothing. *)
Lemma filter_length_find p l :
  (length (List.filter (fun x => negb (p x)) l) <? length l)%nat =
  match List.find p l with Some _ => true | None => false end.
Proof.
  assert (forall l', length (List.filter (fun x => negb (p x)) l')
                     <= length l')%nat as Hle.
  { intros l'. induction l' as [|y l' IH]; simpl; [lia|].
    destruct (p y); simpl; lia. }
  induction l as [|y l IH]; simpl; [reflexivity|].
  destruct (p y) eqn:Hy; simpl.
  - apply Nat.ltb_lt. specialize (Hle l). lia.
  - rewrite <- IH. destruct (length (List.filter _ l) <? length l)%nat eqn:H.
    + apply Nat.ltb_lt in H. apply Nat.ltb_lt. lia.
    + apply Nat.ltb_ge in H. apply Nat.ltb_ge. lia.
Qed.

Lemma filter_sem_remocao p l :
  List.find p l = None -> List.filter (fun x => negb (p x)) l = l.
Proof.
  rewrite find_None_Forall. induction 1 as [|y l Hy _ IH]; simpl;
    [reflexivity|].
  rewrite Hy. simpl. rewrite IH. reflexivity.
Qed.

(** Writing through the pointer a search for [p] returned: a later search
    for [p] finds what was written, when it still satisfies [p]. *)
Lemma find_insert_posicao p l i x' :
  posicao p l = Some i -> p x' = true ->
  List.find p (<[i := x']> l) = Some x'.
Proof.
  revert i. induction l as [|y l IH]; simpl; [discriminate|].
  intros i. destruct (p y) eqn:Hy.
  - intros [= <-] Hx. simpl. rewrite Hx. reflexivity.
  - destruct (posicao p l) as [j|]; [|discriminate].
    intros [= <-] Hx. simpl. rewrite Hy. apply (IH j); [reflexivity|exact Hx].
Qed.

(** ... and a search for [q] is not affected when neither the old nor the
    new element satisfies [q]. *)
Lemma find_insert_outro q l i x x' :
  l !! i = Some x -> q x = false -> q x' = false ->
  List.find q (<[i := x']> l) = List.find q l.
Proof.
  revert i. induction l as [|y l IH]; simpl; [discriminate|].
  intros [|i]; simpl.
  - intros [= ->] Hx Hx'. rewrite Hx, Hx'. reflexivity.
  - intros Hi Hx Hx'. destruct (q y); [reflexivity|].
    apply (IH i); assumption.
Qed.

End Buscas.

(** ** Stock: queries, conservation of quantities, listing *)

Section EstoqueConsultas.
Import Estoque.

Implicit Types (this : Estoque) (item : ItemEstoque).

(** For a quantity that is not negative, [verificarDisponibilidade] answers
    true exactly when [removerItem] with the same arguments returns (true)
    instead of throwing. *)
Theorem estoque_verificarDisponibilidade_removerItem this itemId q :
  0 <= q ->
  verificarDisponibilidade itemId q this = true
  <-> exists this', removerItem itemId q this = Retorna true this'.
Proof.
  intros Hq. unfold verificarDisponibilidade.
  destruct (itens this !! itemId) as [item|] eqn:Hitem.
  - destruct (Z.le_gt_cases q (quantidade item)) as [Hsuf|Hins].
    + rewrite (estoque_removerItem_estado this itemId item q Hitem) by lia.
      split; [eauto|]. intros _. apply Z.geb_le. lia.
    + rewrite (estoque_removerItem_insuficiente this itemId item q Hitem)
        by lia.
      split; [|intros [? ?]; discriminate].
      intros H. apply Z.geb_le in H. lia.
  - rewrite (estoque_removerItem_ausente this itemId q Hitem).
    split; [discriminate|intros [? ?]; discriminate].
Qed.

Lemma estoque_verificarDisponibilidade_removerItem_witness :
  verificarDisponibilidade 1 4 estoque_exemplo = true
  <-> exists this', removerItem 1 4 estoque_exemplo = Retorna true this'.
Proof.
  apply (estoque_verificarDisponibilidade_removerItem estoque_exemplo 1 4).
  lia.
Defined.

(** When [adicionarItem] returns, the quantity [obterQuantidade] reports
    for the item has grown by exactly the quantity added (from 0 when the
    item had no record), the records of all other items are untouched, and
    the arguments were valid. *)
Theorem estoque_adicionarItem_soma this itemId nomeItem q this' :
  adicionarItem itemId nomeItem q this = Retorna tt this' ->
  obterQuantidade itemId this' = obterQuantidade itemId this + q
  /\ (forall outro, outro <> itemId ->
        itens this' !! outro = itens this !! outro)
  /\ 0 <= itemId /\ nomeItem <> "" /\ 0 <= q.
Proof.
  unfold adicionarItem, obterQuantidade. desdobra.
  destruct (itemId <? 0) eqn:Hid; simpl; [discriminate|].
  destruct (empty nomeItem) eqn:Hnome; simpl; [discriminate|].
  destruct (q <? 0) eqn:Hq; simpl; [discriminate|].
  assert (nomeItem <> "") as Hn.
  { intros ->. discriminate. }
  reflete.
  destruct (itens this !! itemId) as [item|] eqn:Hitem; simpl.
  - destruct (CppInt.add (quantidade item) q) as [soma|] eqn:Hsoma; simpl;
      [|discriminate].
    apply add_Some in Hsoma. intros [= <-]. simpl.
    rewrite lookup_insert_eq. simpl. repeat split; try assumption.
    intros outro Houtro. apply lookup_insert_ne. congruence.
  - intros [= <-]. simpl. rewrite lookup_insert_eq. simpl.
    repeat split; try assumption.
    intros outro Houtro. apply lookup_insert_ne. congruence.
Qed.

Lemma estoque_adicionarItem_soma_witness :
  obterQuantidade 1
    (mkEstoque {[ 1 := mkItemEstoque 1 "Toalha" 13 ]})
  = obterQuantidade 1 estoque_exemplo + 3
  /\ (forall outro, outro <> 1 ->
        itens (mkEstoque {[ 1 := mkItemEstoque 1 "Toalha" 13 ]}) !! outro
        = itens estoque_exemplo !! outro)
  /\ 0 <= 1 /\ "Lenço" <> "" /\ 0 <= 3.
Proof.
  apply (estoque_adicionarItem_soma estoque_exemplo 1 "Lenço" 3).
  vm_compute. reflexivity.
Defined.

(** When [removerItem] returns, it returns true, the quantity asked for was
    between 0 and the quantity in stock, the quantity [obterQuantidade]
    reports has dropped by exactly that much, and the records of all other
    items are untouched. *)
Theorem estoque_removerItem_subtrai this itemId q b this' :
  removerItem itemId q this = Retorna b this' ->
  b = true
  /\ 0 <= q <= obterQuantidade itemId this
  /\ obterQuantidade itemId this' = obterQuantidade itemId this - q
  /\ (forall outro, outro <> itemId ->
        itens this' !! outro = itens this !! outro).
Proof.
  unfold removerItem, obterQuantidade. desdobra.
  destruct (itens this !! itemId) as [item|] eqn:Hitem; simpl;
    [|discriminate].
  destruct (q <? 0) eqn:Hq; simpl; [discriminate|].
  destruct (quantidade item <? q) eqn:Hins; simpl; [discriminate|].
  unfold elemento. rewrite lookup_insert_eq. simpl. reflete.
  destruct (quantidade item - q =? 0) eqn:Hzero; simpl; intros [= <- <-];
    simpl; reflete.
  - rewrite lookup_delete_eq. repeat split; try lia.
    intros outro Houtro.
    rewrite lookup_delete_ne, lookup_insert_ne by congruence. reflexivity.
  - rewrite lookup_insert_eq. simpl. repeat split; try lia.
    intros outro Houtro. apply lookup_insert_ne. congruence.
Qed.

Lemma estoque_removerItem_subtrai_witness :
  true = true
  /\ 0 <= 4 <= obterQuantidade 1 estoque_exemplo
  /\ obterQuantidade 1 (mkEstoque {[ 1 := mkItemEstoque 1 "Toalha" 6 ]})
     = obterQuantidade 1 estoque_exemplo - 4
  /\ (forall outro, outro <> 1 ->
        itens (mkEstoque {[ 1 := mkItemEstoque 1 "Toalha" 6 ]}) !! outro
        = itens estoque_exemplo !! outro).
Proof.
  apply (estoque_removerItem_subtrai estoque_exemplo 1 4).
  vm_compute. reflexivity.
Defined.

(** When [atualizarQuantidade] returns, the item had a record, the new
    quantity is not negative and is what [obterQuantidade] now reports, the
    record is gone when the new quantity is 0, and the records of all other
    items are untouched. *)
Theorem estoque_atualizarQuantidade_substitui this itemId q this' :
  atualizarQuantidade itemId q this = Retorna tt this' ->
  is_Some (itens this !! itemId)
  /\ 0 <= q
  /\ obterQuantidade itemId this' = q
  /\ (q = 0 -> itens this' !! itemId = None)
  /\ (forall outro, outro <> itemId ->
        itens this' !! outro = itens this !! outro).
Proof.
  unfold atualizarQuantidade, obterQuantidade. desdobra.
  destruct (itens this !! itemId) as [item|] eqn:Hitem; simpl;
    [|discriminate].
  destruct (q <? 0) eqn:Hq; simpl; [discriminate|]. reflete.
  destruct (q =? 0) eqn:Hzero; simpl; intros [= <-]; simpl; reflete.
  - rewrite lookup_delete_eq. repeat split; eauto; try lia.
    intros outro Houtro.
    rewrite lookup_delete_ne, lookup_insert_ne by congruence. reflexivity.
  - rewrite lookup_insert_eq. simpl. repeat split; eauto; try lia.
    intros outro Houtro. apply lookup_insert_ne. congruence.
Qed.

Lemma estoque_atualizarQuantidade_substitui_witness :
  is_Some (itens estoque_exemplo !! 1)
  /\ 0 <= 0
  /\ obterQuantidade 1 (mkEstoque ∅) = 0
  /\ (0 = 0 -> itens (mkEstoque ∅) !! 1 = None)
  /\ (forall outro, outro <> 1 ->
        itens (mkEstoque ∅) !! outro = itens estoque_exemplo !! outro).
Proof.
  apply (estoque_atualizarQuantidade_substitui estoque_exemplo 1 0).
  vm_compute. reflexivity.
Defined.

(** For an item without a record the two queries answer "none" (false,
    even for quantity 0, and 0), and [removerItem] and [atualizarQuantidade]
    throw the stock's "not found" exception whatever the quantity, negative
    ones included: the search comes before the validation of the quantity.
    The stock is left as it was. *)
Theorem estoque_item_ausente this itemId :
  itens this !! itemId = None ->
  forall q,
    verificarDisponibilidade itemId q this = false
    /\ obterQuantidade itemId this = 0
    /\ removerItem itemId q this =
         Lanca (EstoqueException
                  ("Item não encontrado no estoque (ID: "
                     +:+ to_string itemId +:+ ")")) this
    /\ atualizarQuantidade itemId q this =
         Lanca (EstoqueException "Item não encontrado no estoque") this.
Proof.
  intros Hitem q.
  unfold verificarDisponibilidade, obterQuantidade, removerItem,
    atualizarQuantidade.
  desdobra. rewrite Hitem. repeat split.
Qed.

Lemma estoque_item_ausente_witness :
  verificarDisponibilidade 7 (-2) estoque_exemplo = false
  /\ obterQuantidade 7 estoque_exemplo = 0
  /\ removerItem 7 (-2) estoque_exemplo =
       Lanca (EstoqueException "Item não encontrado no estoque (ID: 7)")
         estoque_exemplo
  /\ atualizarQuantidade 7 (-2) estoque_exemplo =
       Lanca (EstoqueException "Item não encontrado no estoque")
         estoque_exemplo.
Proof.
  apply (estoque_item_ausente estoque_exemplo 7 eq_refl (-2)).
Defined.

End EstoqueConsultas.

(** ** Iterating over a map in key order *)

Section EmOrdem.
Context {T : Type}.
Implicit Types (m : gmap Z T).

#[local] Instance chave_le_total : Total (@chave_le T).
Proof. intros a b. unfold chave_le. lia. Qed.

#[local] Instance chave_le_trans : Transitive (@chave_le T).
Proof. intros a b c. unfold chave_le. lia. Qed.





End EmOrdem.

(** ** Stock: the records a program can build, and their listing *)

Section EstoqueBemFormado.
Import Estoque.

Implicit Types (this : Estoque) (item : ItemEstoque).

Lemma estoque_bem_formado_preservado this :
  estoque_bem_formado this ->
  (forall itemId nomeItem q,
      apos estoque_bem_formado (adicionarItem itemId nomeItem q this))
  /\ (forall itemId q, apos estoque_bem_formado (removerItem itemId q this))
  /\ (forall itemId q,
      apos estoque_bem_formado (atualizarQuantidade itemId q this)).
Proof.
  unfold estoque_bem_formado. intros Hinv. repeat split.
  - intros itemId nomeItem q. unfold adicionarItem. desdobra.
    destruct (itemId <? 0) eqn:Hid; simpl; [assumption|].
    destruct (empty nomeItem) eqn:Hnome; simpl; [assumption|].
    destruct (q <? 0) eqn:Hq; simpl; [assumption|].
    assert (nomeItem <> "") as Hn by (intros ->; discriminate).
    reflete.
    destruct (itens this !! itemId) as [item|] eqn:Hitem; simpl.
    + destruct (CppInt.add (quantidade item) q) as [soma|] eqn:Hsoma;
        simpl; [|exact I].
      apply add_Some in Hsoma. apply map_Forall_insert_2; [|assumption].
      apply Hinv in Hitem. simpl in *. intuition lia.
    + apply map_Forall_insert_2; [|assumption]. simpl. intuition lia.
  - intros itemId q. unfold removerItem. desdobra.
    destruct (itens this !! itemId) as [item|] eqn:Hitem; simpl;
      [|assumption].
    destruct (q <? 0) eqn:Hq, (quantidade item <? q) eqn:Hins; simpl;
      try assumption.
    unfold elemento. rewrite lookup_insert_eq. simpl.
    destruct (quantidade item - q =? 0); simpl.
    + rewrite delete_insert_eq. apply map_Forall_delete. assumption.
    + apply map_Forall_insert_2; [|assumption].
      apply Hinv in Hitem. reflete. simpl in *. intuition lia.
  - intros itemId q. unfold atualizarQuantidade. desdobra.
    destruct (itens this !! itemId) as [item|] eqn:Hitem; simpl;
      [|assumption].
    destruct (q <? 0) eqn:Hq; simpl; [assumption|].
    destruct (q =? 0); simpl.
    + rewrite delete_insert_eq. apply map_Forall_delete. assumption.
    + apply map_Forall_insert_2; [|assumption].
      apply Hinv in Hitem. reflete. simpl in *. intuition lia.
Qed.

(** In every stock a program can build, each record is stored under its
    own [itemId], that id is not negative, the name is not empty and the
    quantity is not negative. *)
Theorem estoque_alcancavel_bem_formado this :
  estoque_alcancavel this -> estoque_bem_formado this.
Proof.
  induction 1 as [|e itemId nomeItem q e' _ IH H
                   |e itemId q e' _ IH H|e itemId q e' _ IH H].
  - apply map_Forall_empty.
  - destruct (estoque_bem_formado_preservado e IH) as (Ha & _ & _).
    exact (apos_estado_depois _ _ _ (Ha itemId nomeItem q) H).
  - destruct (estoque_bem_formado_preservado e IH) as (_ & Hr & _).
    exact (apos_estado_depois _ _ _ (Hr itemId q) H).
  - destruct (estoque_bem_formado_preservado e IH) as (_ & _ & Hu).
    exact (apos_estado_depois _ _ _ (Hu itemId q) H).
Qed.

Lemma estoque_exemplo_alcancavel : estoque_alcancavel estoque_exemplo.
Proof.
  apply (ea_adicionarItem vazio 1 "Toalha" 10); [apply ea_vazio|].
  reflexivity.
Defined.

Lemma estoque_alcancavel_bem_formado_witness :
  estoque_bem_formado estoque_exemplo.
Proof.
  apply (estoque_alcancavel_bem_formado estoque_exemplo).
  exact estoque_exemplo_alcancavel.
Defined.



End EstoqueBemFormado.

Example estoque_listar_em_ordem :
  Estoque.listar
    (Estoque.mkEstoque
       {[ 12 := Estoque.mkItemEstoque 12 "Espelho" 1;
          3 := Estoque.mkItemEstoque 3 "Toalha" 4;
          7 := Estoque.mkItemEstoque 7 "Sabonete" 2 ]})
  = [Estoque.mkItemEstoque 3 "Toalha" 4;
     Estoque.mkItemEstoque 7 "Sabonete" 2;
     Estoque.mkItemEstoque 12 "Espelho" 1].
Proof. vm_compute. reflexivity. Qed.

(** ** Dressing room: the records a program can build; storing and taking
    back *)

Section CamarimBemFormado.
Import Camarim.

Implicit Types (this : Camarim) (item : ItemCamarim).

Lemma camarim_bem_formado_preservado this :
  camarim_bem_formado this ->
  (forall itemId nomeItem q,
      apos camarim_bem_formado (inserirItem itemId nomeItem q this))
  /\ (forall itemId q, apos camarim_bem_formado (removerItem itemId q this)).
Proof.
  unfold camarim_bem_formado. intros Hinv. split.
  - intros itemId nomeItem q. unfold inserirItem. desdobra.
    destruct (itemId <? 0) eqn:Hid; simpl; [assumption|].
    destruct (empty nomeItem) eqn:Hnome; simpl; [assumption|].
    destruct (q <=? 0) eqn:Hq; simpl; [assumption|].
    assert (nomeItem <> "") as Hn by (intros ->; discriminate).
    reflete.
    destruct (itens this !! itemId) as [item|] eqn:Hitem; simpl.
    + destruct (CppInt.add (quantidade item) q) as [soma|] eqn:Hsoma;
        simpl; [|exact I].
      apply add_Some in Hsoma. apply map_Forall_insert_2; [|assumption].
      apply Hinv in Hitem. simpl in *. intuition lia.
    + apply map_Forall_insert_2; [|assumption]. simpl. intuition lia.
  - intros itemId q. unfold removerItem. desdobra.
    destruct (itens this !! itemId) as [item|] eqn:Hitem; simpl;
      [|assumption].
    destruct (q <=? 0) eqn:Hq, (quantidade item <? q) eqn:Hins; simpl;
      try assumption.
    unfold elemento. rewrite lookup_insert_eq. simpl.
    destruct (quantidade item - q =? 0) eqn:Hzero; simpl.
    + rewrite delete_insert_eq. apply map_Forall_delete. assumption.
    + apply map_Forall_insert_2; [|assumption].
      apply Hinv in Hitem. reflete. simpl in *. intuition lia.
Qed.

(** In every dressing room a program can build, each record is stored
    under its own [itemId], that id is not negative, the name is not empty
    and the quantity is positive. *)
Theorem camarim_alcancavel_bem_formado this :
  camarim_alcancavel this -> camarim_bem_formado this.
Proof.
  induction 1 as [id nome artistaId|c nome c' _ IH H|c artistaId c' _ IH H
                   |c itemId nomeItem q c' _ IH H|c itemId q c' _ IH H].
  - apply map_Forall_empty.
  - revert H. unfold setNome. desdobra.
    destruct (empty nome); simpl; intros [= <-]; exact IH.
  - revert H. unfold setArtistaId. desdobra. intros [= <-]; exact IH.
  - destruct (camarim_bem_formado_preservado c IH) as (Hi & _).
    exact (apos_estado_depois _ _ _ (Hi itemId nomeItem q) H).
  - destruct (camarim_bem_formado_preservado c IH) as (_ & Hr).
    exact (apos_estado_depois _ _ _ (Hr itemId q) H).
Qed.

Lemma camarim_exemplo_alcancavel : camarim_alcancavel camarim_exemplo.
Proof.
  apply (ca_inserirItem (novo 1 "Camarim A" 0) 1 "Toalha" 5);
    [apply ca_novo|].
  reflexivity.
Defined.

Lemma camarim_alcancavel_bem_formado_witness :
  camarim_bem_formado camarim_exemplo.
Proof.
  apply (camarim_alcancavel_bem_formado camarim_exemplo).
  exact camarim_exemplo_alcancavel.
Defined.

End CamarimBemFormado.

Section GuardarERetirar.

(** Storing a quantity and taking the same quantity back restores the
    ledger exactly. In a dressing room: a valid [inserirItem] followed by
    [removerItem] of the same item and quantity returns true and leaves the
    dressing room as it was, whether or not the item had a record. In the
    stock the same holds of [adicionarItem] and [removerItem] when no record
    of the stock has quantity 0. (The sum must fit an [int].) *)
Theorem guardar_e_retirar :
  (forall (c : Camarim.Camarim) itemId nomeItem q,
      camarim_bem_formado c ->
      0 <= itemId -> nomeItem <> "" -> 0 < q ->
      CppInt.INT_MIN <=
        Camarim.quantidade
          (elemento Camarim.padrao (Camarim.itens c) itemId) + q
        <= CppInt.INT_MAX ->
      (Camarim.inserirItem itemId nomeItem q ;;;
       Camarim.removerItem itemId q) c = Retorna true c)
  /\ (forall (e : Estoque.Estoque) itemId nomeItem q,
      estoque_bem_formado e -> estoque_sem_zeros e ->
      0 <= itemId -> nomeItem <> "" -> 0 <= q ->
      CppInt.INT_MIN <= Estoque.obterQuantidade itemId e + q
        <= CppInt.INT_MAX ->
      (Estoque.adicionarItem itemId nomeItem q ;;;
       Estoque.removerItem itemId q) e = Retorna true e).
Proof.
  split.
  - intros c itemId nomeItem q Hinv Hid Hnome Hq Hsoma.
    unfold elemento in Hsoma. unfold seq at 1.
    destruct (Camarim.itens c !! itemId) as [item|] eqn:Hitem;
      simpl in Hsoma.
    + rewrite (camarim_inserirItem_existente_estado c itemId item nomeItem q)
        by assumption.
      pose proof (Hinv _ _ Hitem) as (_ & _ & _ & Hpos). simpl in Hpos.
      erewrite camarim_removerItem_estado;
        [|simpl; apply lookup_insert_eq|simpl; lia].
      simpl. replace (Camarim.quantidade item + q - q) with
        (Camarim.quantidade item) by lia.
      rewrite (proj2 (Z.eqb_neq _ 0)) by lia.
      rewrite insert_insert_eq. destruct c as [i n a m], item as [k s x].
      unfold Camarim.com_itens, Camarim.com_quantidade. simpl in *.
      rewrite insert_id by assumption. reflexivity.
    + unfold Camarim.inserirItem. desdobra. guarda.
      rewrite (empty_false _ Hnome), Hitem. simpl.
      erewrite camarim_removerItem_estado;
        [|simpl; apply lookup_insert_eq|simpl; lia].
      simpl. rewrite Z.sub_diag. simpl.
      rewrite delete_insert_eq, delete_id by assumption.
      destruct c. reflexivity.
  - intros e itemId nomeItem q Hinv Hz Hid Hnome Hq Hsoma.
    unfold Estoque.obterQuantidade in Hsoma. unfold seq at 1.
    destruct (Estoque.itens e !! itemId) as [item|] eqn:Hitem.
    + rewrite (estoque_adicionarItem_existente_estado e itemId item nomeItem q)
        by assumption.
      pose proof (Hinv _ _ Hitem) as (_ & _ & _ & Hpos). simpl in Hpos.
      pose proof (Hz _ _ Hitem) as Hnz. simpl in Hnz.
      erewrite estoque_removerItem_estado;
        [|simpl; apply lookup_insert_eq|simpl; lia].
      simpl. replace (Estoque.quantidade item + q - q) with
        (Estoque.quantidade item) by lia.
      rewrite (proj2 (Z.eqb_neq _ 0)) by lia.
      rewrite insert_insert_eq. destruct e as [m], item as [k s x].
      unfold Estoque.com_quantidade. simpl in *.
      rewrite insert_id by assumption. reflexivity.
    + rewrite (estoque_adicionarItem_novo_estado e itemId nomeItem q)
        by assumption.
      erewrite estoque_removerItem_estado;
        [|simpl; apply lookup_insert_eq|simpl; lia].
      simpl. rewrite Z.sub_diag. simpl.
      rewrite delete_insert_eq, delete_id by assumption.
      destruct e. reflexivity.
Qed.

Lemma guardar_e_retirar_witness :
  (Camarim.inserirItem 2 "Espelho" 3 ;;; Camarim.removerItem 2 3)
    camarim_exemplo = Retorna true camarim_exemplo
  /\ (Estoque.adicionarItem 1 "Toalha" 3 ;;; Estoque.removerItem 1 3)
       estoque_exemplo = Retorna true estoque_exemplo.
Proof.
  destruct guardar_e_retirar as [Hc He]. split.
  - apply (Hc camarim_exemplo 2 "Espelho" 3);
      [ apply map_Forall_singleton; simpl;
        repeat split; solve [lia | discriminate]
      | lia | discriminate | lia
      | vm_compute; split; discriminate ].
  - apply (He estoque_exemplo 1 "Toalha" 3);
      [ apply map_Forall_singleton; simpl;
        repeat split; solve [lia | discriminate]
      | apply map_Forall_singleton; simpl; lia
      | lia | discriminate | lia
      | vm_compute; split; discriminate ].
Defined.

End GuardarERetirar.

(** ** The managers: create, find by id, remove *)

Section PadraoGerenciador.
Context {G T : Type} (ops : gerenciador G T) (com_vetor : list T -> G -> G).

Hypothesis buscar_e_find : forall id g,
  g_buscarPorId ops id g =
  List.find (fun x => g_getId ops x =? id) (g_vetor ops g).

Hypothesis vetor_com_vetor : forall v g, g_vetor ops (com_vetor v g) = v.

Hypothesis proximoId_com_vetor : forall v g,
  g_proximoId ops (com_vetor v g) = g_proximoId ops g.

Hypothesis remover_e_filter : forall id g,
  g_remover ops id g =
  let mantidos :=
    List.filter (fun x => negb (g_getId ops x =? id)) (g_vetor ops g) in
  if (length mantidos <? length (g_vetor ops g))%nat
  then Retorna true (com_vetor mantidos g)
  else Retorna false g.

Hypothesis criou_acrescenta : forall g id x g',
  g_criou ops g id x g' ->
  id = g_proximoId ops g /\ g_getId ops x = id
  /\ g_vetor ops g' = g_vetor ops g ++ [x]
  /\ g_proximoId ops g' = id + 1.

Lemma padrao_remover_correto : remover_correto ops.
Proof.
  intros g id. rewrite remover_e_filter. simpl.
  rewrite filter_length_find, <- buscar_e_find. split.
  - intros ->. reflexivity.
  - intros [x Hx]. rewrite Hx. eexists. split; [reflexivity|].
    repeat split.
    + rewrite buscar_e_find, vetor_com_vetor. apply find_removidos.
    + intros outro Hne. rewrite !buscar_e_find, vetor_com_vetor.
      apply find_mantidos. intros y Hy. apply Z.eqb_eq in Hy.
      apply Z.eqb_neq. congruence.
    + apply proximoId_com_vetor.
    + rewrite proximoId_com_vetor. apply (proj1 H).
    + destruct H as [_ H]. rewrite vetor_com_vetor, proximoId_com_vetor.
      rewrite Forall_forall in *. intros y Hy. apply H.
      apply list_elem_of_In. apply list_elem_of_In in Hy.
      apply filter_In in Hy. tauto.
Qed.

Lemma padrao_criar_correto : criar_correto ops.
Proof.
  intros g id x g' [Hprox Hids] Hcriou.
  apply criou_acrescenta in Hcriou as (Hid & Hx & Hv & Hp).
  assert (List.find (fun y => g_getId ops y =? id) (g_vetor ops g) = None)
    as Hlivre.
  { apply find_None_Forall. eapply Forall_impl; [exact Hids|].
    intros y Hy. simpl in Hy. apply Z.eqb_neq. lia. }
  split; [exact Hid|]. split; [rewrite buscar_e_find; exact Hlivre|].
  split; [|split; [|split; [exact Hp|]]].
  - rewrite buscar_e_find, Hv, find_app_novo, Hlivre.
    rewrite (proj2 (Z.eqb_eq _ _) Hx). reflexivity.
  - intros outro Hne. rewrite !buscar_e_find, Hv, find_app_novo.
    destruct (List.find (fun y => g_getId ops y =? outro) (g_vetor ops g));
      [reflexivity|].
    rewrite (proj2 (Z.eqb_neq _ _)) by congruence. reflexivity.
  - unfold ids_validos. rewrite Hp, Hv. split; [lia|].
    apply Forall_app. split.
    + eapply Forall_impl; [exact Hids|]. intros y Hy. simpl in Hy. lia.
    + constructor; [lia | constructor].
Qed.

End PadraoGerenciador.

Section Gerenciadores.

Lemma camarim_buscar_find id l :
  Camarim.buscar id l = List.find (fun c => Camarim.getId c =? id) l.
Proof.
  induction l as [|x l IH]; simpl; [reflexivity|]. rewrite IH. reflexivity.
Qed.

Lemma artista_buscar_find id l :
  Artista.buscar id l = List.find (fun a => Artista.getId a =? id) l.
Proof.
  induction l as [|x l IH]; simpl; [reflexivity|]. rewrite IH. reflexivity.
Qed.

Lemma pedido_buscar_find id l :
  Pedido.buscar id l = List.find (fun p => Pedido.getId p =? id) l.
Proof.
  induction l as [|x l IH]; simpl; [reflexivity|]. rewrite IH. reflexivity.
Qed.

Lemma lista_buscar_find id l :
  ListaCompras.buscar id l =
  List.find (fun p => ListaCompras.getId p =? id) l.
Proof.
  induction l as [|x l IH]; simpl; [reflexivity|]. rewrite IH. reflexivity.
Qed.

Lemma item_buscar_id_find id l :
  Item.buscar_id id l = List.find (fun i => Item.getId i =? id) l.
Proof.
  induction l as [|x l IH]; simpl; [reflexivity|]. rewrite IH. reflexivity.
Qed.

Lemma item_buscar_nome_find nome l :
  Item.buscar_nome nome l =
  List.find (fun i => String.eqb (Item.getNome i) nome) l.
Proof.
  induction l as [|x l IH]; simpl; [reflexivity|]. rewrite IH. reflexivity.
Qed.

Ltac cabeca t :=
  lazymatch t with
  | ?f _ => cabeca f
  | _ => t
  end.

(** What a create operation that returned has done to the manager. *)
Ltac criou :=
  intros g id x g'; simpl;
  intros Hc;
  repeat match type of Hc with ex _ => destruct Hc as [? Hc] end;
  destruct Hc as [Hc ->]; revert Hc;
  match goal with
  | |- ?lhs = _ -> _ => let m := cabeca lhs in unfold m
  end; desdobra;
  repeat match goal with
    | |- context [if ?c then _ else _] => destruct c; simpl
    | |- context [match Item.buscarPorNome ?n ?g with _ => _ end] =>
        destruct (Item.buscarPorNome n g); simpl
    | |- context [CppInt.add ?a ?b] =>
        let H := fresh "Hsoma" in
        destruct (CppInt.add a b) eqn:H; simpl; [apply add_Some in H|]
    end;
  try (intro; discriminate);
  intros [= <- <-]; subst; simpl; repeat split.

Ltac removeu :=
  intros id g; simpl;
  match goal with
  | |- ?lhs = _ => let m := cabeca lhs in unfold m
  end; desdobra;
  match goal with |- context [if ?c then _ else _] => destruct c end;
  reflexivity.

(** [remover] behaves in the same way in the five managers: it answers
    false and changes nothing when [buscarPorId] finds no entity with the
    id; otherwise it answers true, [buscarPorId] no longer finds the id,
    finds every other id as before, and the counter [proximoId] is not
    touched (so the id is never handed out again). *)
Theorem gerenciadores_remover :
  remover_correto camarins_ops
  /\ remover_correto artistas_ops
  /\ remover_correto pedidos_ops
  /\ remover_correto listas_ops
  /\ remover_correto itens_ops.
Proof.
  split; [|split; [|split; [|split]]].
  - apply (padrao_remover_correto camarins_ops Camarim.com_camarins);
      [intros; apply camarim_buscar_find | reflexivity | reflexivity
      | removeu].
  - apply (padrao_remover_correto artistas_ops Artista.com_artistas);
      [intros; apply artista_buscar_find | reflexivity | reflexivity
      | removeu].
  - apply (padrao_remover_correto pedidos_ops Pedido.com_pedidos);
      [intros; apply pedido_buscar_find | reflexivity | reflexivity
      | removeu].
  - apply (padrao_remover_correto listas_ops
             (fun v g => ListaCompras.mkGerenciadorListaCompras v
                           (ListaCompras.proximoId g)));
      [intros; apply lista_buscar_find | reflexivity | reflexivity
      | removeu].
  - apply (padrao_remover_correto itens_ops Item.com_itens);
      [intros; apply item_buscar_id_find | reflexivity | reflexivity
      | removeu].
Qed.

Lemma gerenciadores_remover_witness :
  (exists g',
      Item.remover 1 catalogo_exemplo = Retorna true g'
      /\ Item.buscarPorId 1 g' = None
      /\ (forall outro, outro <> 1 ->
            Item.buscarPorId outro g' = Item.buscarPorId outro catalogo_exemplo)
      /\ Item.proximoId g' = Item.proximoId catalogo_exemplo
      /\ (ids_validos itens_ops catalogo_exemplo -> ids_validos itens_ops g'))
  /\ Item.remover 9 catalogo_exemplo = Retorna false catalogo_exemplo.
Proof.
  destruct gerenciadores_remover as (_ & _ & _ & _ & H).
  split.
  - apply (proj2 (H catalogo_exemplo 1)). eexists. reflexivity.
  - apply (proj1 (H catalogo_exemplo 9)). reflexivity.
Defined.

(** The create operations behave in the same way in the five managers. A
    new manager has only valid ids (none). In a manager whose ids were all
    handed out by its counter, a create operation that returns gives back
    the counter's value, which no entity had; afterwards [buscarPorId]
    finds the new entity under that id and every other id as before, the
    counter has moved one up, and the ids are still valid. *)
Theorem gerenciadores_criar :
  (ids_validos camarins_ops Camarim.gerenciador_novo
   /\ criar_correto camarins_ops)
  /\ (ids_validos artistas_ops Artista.gerenciador_novo
      /\ criar_correto artistas_ops)
  /\ (ids_validos pedidos_ops Pedido.gerenciador_novo
      /\ criar_correto pedidos_ops)
  /\ (ids_validos listas_ops ListaCompras.gerenciador_novo
      /\ criar_correto listas_ops)
  /\ (ids_validos itens_ops Item.gerenciador_novo
      /\ criar_correto itens_ops).
Proof.
  assert (forall G T (ops : gerenciador G T) g,
             g_proximoId ops g = 1 -> g_vetor ops g = [] ->
             ids_validos ops g) as Hnovo.
  { intros G T ops g Hp Hv. unfold ids_validos. rewrite Hp, Hv.
    split; [lia | constructor]. }
  split; [|split; [|split; [|split]]]; (split; [apply Hnovo; reflexivity|]).
  - apply (padrao_criar_correto camarins_ops);
      [intros; apply camarim_buscar_find | criou].
  - apply (padrao_criar_correto artistas_ops);
      [intros; apply artista_buscar_find | criou].
  - apply (padrao_criar_correto pedidos_ops);
      [intros; apply pedido_buscar_find | criou].
  - apply (padrao_criar_correto listas_ops);
      [intros; apply lista_buscar_find | criou].
  - apply (padrao_criar_correto itens_ops);
      [intros; apply item_buscar_id_find | criou].
Qed.

Lemma gerenciadores_criar_witness :
  let g' := Pedido.mkGerenciadorPedidos [Pedido.novo 1 2 "Ana"] 2 in
  1 = Pedido.proximoId Pedido.gerenciador_novo
  /\ Pedido.buscarPorId 1 Pedido.gerenciador_novo = None
  /\ Pedido.buscarPorId 1 g' = Some (Pedido.novo 1 2 "Ana")
  /\ (forall outro, outro <> 1 ->
        Pedido.buscarPorId outro g'
        = Pedido.buscarPorId outro Pedido.gerenciador_novo)
  /\ Pedido.proximoId g' = 1 + 1
  /\ ids_validos pedidos_ops g'.
Proof.
  destruct gerenciadores_criar as (_ & _ & [Hnovo H] & _).
  apply (H Pedido.gerenciador_novo 1 (Pedido.novo 1 2 "Ana")
           (Pedido.mkGerenciadorPedidos [Pedido.novo 1 2 "Ana"] 2) Hnovo).
  exists 2, "Ana". split; reflexivity.
Defined.

End Gerenciadores.

(** ** The managers: updating an entity through the pointer *)

Section Atualizar.

Lemma no_elemento_Retorna {G T A} (vetor : G -> list T) com_vetor i
    (m : metodo T A) g x a x' :
  vetor g !! i = Some x -> m x = Retorna a x' ->
  no_elemento vetor com_vetor i m g =
  Retorna a (com_vetor (<[i := x']> (vetor g)) g).
Proof. intros Hx Hm. unfold no_elemento. rewrite Hx, Hm. reflexivity. Qed.

Lemma no_elemento_Lanca {G T A} (vetor : G -> list T) com_vetor i
    (m : metodo T A) g x e x' :
  vetor g !! i = Some x -> m x = Lanca e x' ->
  no_elemento vetor com_vetor i m g =
  Lanca e (com_vetor (<[i := x']> (vetor g)) g).
Proof. intros Hx Hm. unfold no_elemento. rewrite Hx, Hm. reflexivity. Qed.

(** [GerenciadorCamarins::atualizar]. When no dressing room has the id it
    throws the dressing-room "not found" exception; when one has it and the
    new name is empty it throws a validation exception; in both cases the
    manager is left as it was. Otherwise it returns true: [buscarPorId]
    then finds the dressing room with the new name and the new [artistaId]
    (any value, negative ones included), with its id and its items as they
    were; every other id is found as before and the counter is not
    touched. *)
Theorem camarins_atualizar_efeito (g : Camarim.GerenciadorCamarins)
    (id : Z) (nome : string) (artistaId : Z) :
  (Camarim.buscarPorId id g = None ->
   Camarim.atualizar id nome artistaId g =
     Lanca (CamarimException
              ("Camarim com ID " +:+ to_string id +:+ " não encontrado")) g)
  /\ (is_Some (Camarim.buscarPorId id g) -> nome = "" ->
      Camarim.atualizar id nome artistaId g =
        Lanca (ValidacaoException "Nome do camarim não pode ser vazio") g)
  /\ (forall c,
        Camarim.buscarPorId id g = Some c -> nome <> "" ->
        exists g',
          Camarim.atualizar id nome artistaId g = Retorna true g'
          /\ Camarim.buscarPorId id g' =
               Some (Camarim.mkCamarim (Camarim.id c) nome artistaId
                       (Camarim.itens c))
          /\ (forall outro, outro <> id ->
                Camarim.buscarPorId outro g' = Camarim.buscarPorId outro g)
          /\ Camarim.proximoId g' = Camarim.proximoId g).
Proof.
  unfold Camarim.buscarPorId. rewrite camarim_buscar_find.
  unfold Camarim.atualizar.
  cbv beta iota delta [seq le_estado retorna throw].
  split; [|split].
  - intros H. apply posicao_None in H. rewrite H. reflexivity.
  - intros [c H] ->. apply find_Some_posicao in H as (i & Hi & Hc).
    rewrite Hi.
    rewrite (no_elemento_Lanca _ _ i _ g c
               (ValidacaoException "Nome do camarim não pode ser vazio") c Hc)
      by reflexivity.
    unfold Camarim.com_camarins. rewrite list_insert_id by assumption.
    destruct g; reflexivity.
  - intros c H Hnome. apply find_Some_posicao in H as (i & Hi & Hc).
    pose proof (posicao_Some _ _ _ Hi) as (c0 & Hc0 & Hid & _).
    rewrite Hc in Hc0. injection Hc0 as <-. apply Z.eqb_eq in Hid.
    rewrite Hi.
    rewrite (no_elemento_Retorna _ _ i _ g c tt
               (Camarim.mkCamarim (Camarim.id c) nome (Camarim.artistaId c)
                  (Camarim.itens c)) Hc)
      by (unfold Camarim.setNome; desdobra;
          rewrite (empty_false _ Hnome); reflexivity).
    erewrite no_elemento_Retorna;
      [|simpl; apply list_lookup_insert_eq; eapply lookup_lt_Some; eassumption
       |reflexivity].
    simpl. rewrite list_insert_insert_eq. eexists. split; [reflexivity|].
    simpl. rewrite !camarim_buscar_find. split; [|split; [|reflexivity]].
    + apply find_insert_posicao; [exact Hi|].
      apply Z.eqb_eq. exact Hid.
    + intros outro Hne. rewrite !camarim_buscar_find.
      apply (find_insert_outro _ _ i c); [exact Hc| |];
        apply Z.eqb_neq; unfold Camarim.getId in *; simpl; congruence.
Qed.

Lemma camarins_atualizar_efeito_witness :
  exists g',
    Camarim.atualizar 1 "Camarim B" (-4) camarins_exemplo = Retorna true g'
    /\ Camarim.buscarPorId 1 g' =
         Some (Camarim.mkCamarim 1 "Camarim B" (-4)
                 (Camarim.itens camarim_exemplo))
    /\ (forall outro, outro <> 1 ->
          Camarim.buscarPorId outro g'
          = Camarim.buscarPorId outro camarins_exemplo)
    /\ Camarim.proximoId g' = Camarim.proximoId camarins_exemplo.
Proof.
  apply (proj2 (proj2 (camarins_atualizar_efeito camarins_exemplo
                         1 "Camarim B" (-4))) camarim_exemplo).
  - reflexivity.
  - discriminate.
Defined.

(** [GerenciadorArtistas::atualizar]. When no performer has the id it
    throws the performer "not found" exception and changes nothing. When
    one has it, the new name is stored without any check (the empty string
    included, which [cadastrar] refuses); then, with a [camarimId] that is
    not negative, the call returns true and [buscarPorId] finds the
    performer with the new name and the new [camarimId]; with a negative
    [camarimId] the call throws a validation exception, but the performer
    already carries the new name (and its old [camarimId]). Every other id
    is found as before. *)
Theorem artistas_atualizar_efeito (g : Artista.GerenciadorArtistas)
    (id : Z) (nome : string) (camarimId : Z) :
  (Artista.buscarPorId id g = None ->
   Artista.atualizar id nome camarimId g =
     Lanca (ArtistaException
              ("Artista com ID " +:+ to_string id +:+ " não encontrado")) g)
  /\ (forall a,
        Artista.buscarPorId id g = Some a ->
        exists g',
          Artista.atualizar id nome camarimId g =
            (if camarimId <? 0
             then Lanca (ValidacaoException "ID de camarim inválido") g'
             else Retorna true g')
          /\ Artista.buscarPorId id g' =
               Some (Artista.mkArtista (Artista.id a) nome
                       (if camarimId <? 0 then Artista.camarimId a
                        else camarimId))
          /\ (forall outro, outro <> id ->
                Artista.buscarPorId outro g' = Artista.buscarPorId outro g)
          /\ Artista.proximoId g' = Artista.proximoId g).
Proof.
  unfold Artista.buscarPorId. rewrite artista_buscar_find.
  unfold Artista.atualizar.
  cbv beta iota delta [seq le_estado retorna throw].
  split.
  - intros H. apply posicao_None in H. rewrite H. reflexivity.
  - intros a H. apply find_Some_posicao in H as (i & Hi & Ha).
    pose proof (posicao_Some _ _ _ Hi) as (a0 & Ha0 & Hid & _).
    rewrite Ha in Ha0. injection Ha0 as <-. apply Z.eqb_eq in Hid.
    rewrite Hi.
    rewrite (no_elemento_Retorna _ _ i _ g a tt
               (Artista.mkArtista (Artista.id a) nome (Artista.camarimId a))
               Ha) by reflexivity.
    assert (forall x,
               Artista.getId x = id ->
               List.find (fun y => Artista.getId y =? id)
                 (<[i := x]> (Artista.artistas g)) = Some x
               /\ (forall outro, outro <> id ->
                     List.find (fun y => Artista.getId y =? outro)
                       (<[i := x]> (Artista.artistas g))
                     = List.find (fun y => Artista.getId y =? outro)
                         (Artista.artistas g))) as Hbusca.
    { intros x Hx. split.
      - apply find_insert_posicao; [exact Hi|]. apply Z.eqb_eq. exact Hx.
      - intros outro Hne.
        apply (find_insert_outro _ _ i a); [exact Ha| |];
          apply Z.eqb_neq; congruence. }
    destruct (camarimId <? 0) eqn:Hfk.
    + erewrite no_elemento_Lanca;
        [|simpl; apply list_lookup_insert_eq; eapply lookup_lt_Some;
          eassumption
         |unfold Artista.setCamarimId; desdobra; rewrite Hfk; reflexivity].
      simpl. rewrite list_insert_insert_eq. eexists. split; [reflexivity|].
      simpl. split; [|split; [|reflexivity]].
      * rewrite artista_buscar_find. apply Hbusca. exact Hid.
      * intros outro Hne. rewrite !artista_buscar_find.
        apply Hbusca; [exact Hid | exact Hne].
    + erewrite no_elemento_Retorna;
        [|simpl; apply list_lookup_insert_eq; eapply lookup_lt_Some;
          eassumption
         |unfold Artista.setCamarimId; desdobra; rewrite Hfk; reflexivity].
      simpl. rewrite list_insert_insert_eq. eexists. split; [reflexivity|].
      simpl. split; [|split; [|reflexivity]].
      * rewrite artista_buscar_find. apply Hbusca. exact Hid.
      * intros outro Hne. rewrite !artista_buscar_find.
        apply Hbusca; [exact Hid | exact Hne].
Qed.

Lemma artistas_atualizar_efeito_witness :
  exists g',
    Artista.atualizar 1 "" (-3) artistas_exemplo =
      Lanca (ValidacaoException "ID de camarim inválido") g'
    /\ Artista.buscarPorId 1 g' = Some (Artista.mkArtista 1 "" 1)
    /\ (forall outro, outro <> 1 ->
          Artista.buscarPorId outro g'
          = Artista.buscarPorId outro artistas_exemplo)
    /\ Artista.proximoId g' = Artista.proximoId artistas_exemplo.
Proof.
  apply (proj2 (artistas_atualizar_efeito artistas_exemplo 1 "" (-3))
           (Artista.mkArtista 1 "Ana" 1)).
  reflexivity.
Defined.

End Atualizar.

(** ** The catalog: updating an entry, and the uniqueness of names *)

Section CatalogoAtualizar.
Import Item.

Implicit Types (g : GerenciadorItens).

(** What [atualizar] does once entry [id] is found at position [i] and the
    name is free: an empty name is refused before anything is written; else
    the name is written, and then the price, unless it is below zero. *)
Lemma itens_atualizar_estado g id nome preco i it :
  posicao (fun x => getId x =? id) (itens g) = Some i ->
  itens g !! i = Some it ->
  nome_livre nome id g ->
  atualizar id nome preco g =
  if empty nome
  then Lanca (ValidacaoException "Nome do item não pode ser vazio") g
  else if CppInt.double_neg preco
  then Lanca (ValidacaoException "Preço do item não pode ser negativo")
         (com_itens
            (<[i := mkItem (Item.id it) nome (Item.preco it)]> (itens g)) g)
  else Retorna true
         (com_itens (<[i := mkItem (Item.id it) nome preco]> (itens g)) g).
Proof.
  intros Hi Hit Hlivre. unfold atualizar.
  cbv beta iota delta [seq le_estado retorna throw se]. rewrite Hi.
  unfold nome_livre in Hlivre.
  assert (match buscarPorNome nome g with
          | Some outro => negb (getId outro =? id)
          | None => false
          end = false) as ->.
  { destruct (buscarPorNome nome g) as [outro|]; [|reflexivity].
    rewrite (proj2 (Z.eqb_eq _ _) Hlivre). reflexivity. }
  cbv beta iota.
  assert (i < length (itens g))%nat as Hlt
      by (eapply lookup_lt_Some; eassumption).
  destruct (empty nome) eqn:Hnome.
  - erewrite no_elemento_Lanca;
      [|exact Hit|unfold setNome; desdobra; rewrite Hnome; reflexivity].
    unfold com_itens. rewrite list_insert_id by assumption.
    destruct g; reflexivity.
  - erewrite no_elemento_Retorna;
      [|exact Hit|unfold setNome; desdobra; rewrite Hnome; reflexivity].
    destruct (CppInt.double_neg preco) eqn:Hpreco.
    + erewrite no_elemento_Lanca;
        [|simpl; apply list_lookup_insert_eq; exact Hlt
         |unfold setPreco; desdobra; rewrite Hpreco; reflexivity].
      simpl. rewrite list_insert_insert_eq. reflexivity.
    + erewrite no_elemento_Retorna;
        [|simpl; apply list_lookup_insert_eq; exact Hlt
         |unfold setPreco; desdobra; rewrite Hpreco; reflexivity].
      simpl. rewrite list_insert_insert_eq. reflexivity.
Qed.

(** [GerenciadorItens::atualizar] refuses, and leaves the catalog as it
    was, when no entry has the id (item "not found" exception, also when the
    name or the price is invalid), and when the entry exists but the first
    entry with the new name has another id (item "duplicate name"
    exception). *)
Theorem itens_atualizar_recusa g id nome preco :
  (buscarPorId id g = None ->
   atualizar id nome preco g =
     Lanca (ItemException
              ("Item com ID " +:+ to_string id +:+ " não encontrado")) g)
  /\ (forall outro,
        is_Some (buscarPorId id g) ->
        buscarPorNome nome g = Some outro -> getId outro <> id ->
        atualizar id nome preco g =
          Lanca (ItemException
                   ("Já existe outro item com este nome: " +:+ nome)) g).
Proof.
  unfold buscarPorId. rewrite item_buscar_id_find. unfold atualizar.
  cbv beta iota delta [seq le_estado retorna throw se]. split.
  - intros H. apply posicao_None in H. rewrite H. reflexivity.
  - intros outro [it H] Houtro Hne.
    apply find_Some_posicao in H as (i & Hi & _).
    rewrite Hi, Houtro. rewrite (proj2 (Z.eqb_neq _ _) Hne). reflexivity.
Qed.

Lemma itens_atualizar_recusa_witness :
  atualizar 9 "" 1 catalogo_exemplo =
    Lanca (ItemException "Item com ID 9 não encontrado") catalogo_exemplo
  /\ atualizar 2 "Toalha" 1 catalogo_exemplo =
       Lanca (ItemException "Já existe outro item com este nome: Toalha")
         catalogo_exemplo.
Proof.
  split.
  - apply (proj1 (itens_atualizar_recusa catalogo_exemplo 9 "" 1)).
    reflexivity.
  - apply (proj2 (itens_atualizar_recusa catalogo_exemplo 2 "Toalha" 1)
             (mkItem 1 "Toalha" 12.5)).
    + eexists. reflexivity.
    + reflexivity.
    + discriminate.
Defined.

(** [GerenciadorItens::atualizar] on an entry that exists, with a new name
    that is not empty and is free. With a price that is not below zero it
    returns true and [buscarPorId] finds the entry with the new name and the
    new price. With a price below zero it throws a validation exception, but
    the entry already carries the new name (with its old price): the update
    is not undone. In both cases the id is kept, every other id is found as
    before and the counter is not touched. *)
Theorem itens_atualizar_efeito g id nome preco it :
  buscarPorId id g = Some it ->
  nome_livre nome id g -> nome <> "" ->
  exists g',
    atualizar id nome preco g =
      (if CppInt.double_neg preco
       then Lanca (ValidacaoException "Preço do item não pode ser negativo") g'
       else Retorna true g')
    /\ buscarPorId id g' =
         Some (mkItem (Item.id it) nome
                 (if CppInt.double_neg preco then Item.preco it else preco))
    /\ (forall outro, outro <> id -> buscarPorId outro g' = buscarPorId outro g)
    /\ proximoId g' = proximoId g.
Proof.
  unfold buscarPorId. rewrite item_buscar_id_find.
  intros H Hlivre Hnome. apply find_Some_posicao in H as (i & Hi & Hit).
  pose proof (posicao_Some _ _ _ Hi) as (it0 & Hit0 & Hid & _).
  rewrite Hit in Hit0. injection Hit0 as <-. apply Z.eqb_eq in Hid.
  rewrite (itens_atualizar_estado g id nome preco i it Hi Hit Hlivre).
  rewrite (empty_false _ Hnome).
  assert (forall x,
             getId x = id ->
             List.find (fun y => getId y =? id) (<[i := x]> (itens g))
             = Some x
             /\ (forall outro, outro <> id ->
                   List.find (fun y => getId y =? outro)
                     (<[i := x]> (itens g))
                   = List.find (fun y => getId y =? outro) (itens g)))
    as Hbusca.
  { intros x Hx. split.
    - apply find_insert_posicao; [exact Hi|]. apply Z.eqb_eq. exact Hx.
    - intros outro Hne.
      apply (find_insert_outro _ _ i it); [exact Hit| |];
        apply Z.eqb_neq; congruence. }
  destruct (CppInt.double_neg preco); eexists;
    (split; [reflexivity|]); simpl;
    (split; [|split; [|reflexivity]]).
  - rewrite item_buscar_id_find. apply Hbusca. exact Hid.
  - intros outro Hne. rewrite !item_buscar_id_find.
    apply Hbusca; [exact Hid | exact Hne].
  - rewrite item_buscar_id_find. apply Hbusca. exact Hid.
  - intros outro Hne. rewrite !item_buscar_id_find.
    apply Hbusca; [exact Hid | exact Hne].
Qed.

Lemma itens_atualizar_efeito_witness :
  exists g',
    atualizar 2 "Sabão" (-1) catalogo_exemplo =
      Lanca (ValidacaoException "Preço do item não pode ser negativo") g'
    /\ buscarPorId 2 g' = Some (mkItem 2 "Sabão" 2)
    /\ (forall outro, outro <> 2 ->
          buscarPorId outro g' = buscarPorId outro catalogo_exemplo)
    /\ proximoId g' = proximoId catalogo_exemplo.
Proof.
  apply (itens_atualizar_efeito catalogo_exemplo 2 "Sabão" (-1)
           (mkItem 2 "Sabonete" 2)).
  - reflexivity.
  - exact I.
  - discriminate.
Defined.

End CatalogoAtualizar.

Section CatalogoNomesUnicos.
Import Item.

Implicit Types (g : GerenciadorItens).

Lemma NoDup_fmap_filter {A B} (f : A -> B) (p : A -> bool) (l : list A) :
  NoDup (f <$> l) -> NoDup (f <$> List.filter p l).
Proof.
  induction l as [|x l IH]; simpl; [trivial|].
  intros H. apply NoDup_cons in H as [Hx Hl].
  destruct (p x); simpl; [|apply IH; exact Hl].
  apply NoDup_cons. split; [|apply IH; exact Hl].
  intros Hin. apply Hx. apply list_elem_of_fmap in Hin as (y & -> & Hy).
  apply list_elem_of_fmap. exists y. split; [reflexivity|].
  apply list_elem_of_In. apply list_elem_of_In in Hy.
  apply filter_In in Hy. tauto.
Qed.

Lemma Forall_List_filter {A} (P : A -> Prop) (p : A -> bool) (l : list A) :
  Forall P l -> Forall P (List.filter p l).
Proof.
  induction 1 as [|x l Hx _ IH]; simpl; [constructor|].
  destruct (p x); [constructor; assumption | assumption].
Qed.

(** Overwriting position [i] with a value that occurs nowhere else keeps
    the list free of duplicates. *)
Lemma NoDup_insert_unico {A} (l : list A) (i : nat) (y : A) :
  NoDup l -> (forall j, l !! j = Some y -> j = i) -> NoDup (<[i := y]> l).
Proof.
  intros Hl Hy. apply NoDup_alt. intros a b x Ha Hb.
  apply list_lookup_insert_Some in Ha, Hb.
  destruct Ha as [(-> & -> & Ha)|[Hai Ha]],
           Hb as [(Hbi & Hbx & Hb)|[Hbi Hb]]; subst.
  - reflexivity.
  - exfalso. apply Hbi. symmetry. apply Hy. exact Hb.
  - exfalso. apply Hai. symmetry. apply Hy. exact Ha.
  - exact (NoDup_lookup l a b x Hl Ha Hb).
Qed.

Lemma buscar_nome_None nome (l : list Item.Item) :
  buscar_nome nome l = None <-> nome ∉ getNome <$> l.
Proof.
  rewrite item_buscar_nome_find, find_None_Forall, Forall_forall,
    list_elem_of_fmap.
  split.
  - intros H (y & -> & Hy).
    specialize (H y Hy). rewrite String.eqb_refl in H. discriminate.
  - intros H y Hy. apply String.eqb_neq. intros Heq. apply H.
    exists y. split; [congruence|]. exact Hy.
Qed.

(** When the name is free for entry [id], found at position [i], no other
    position of a well-formed catalog carries the name. *)
Lemma nome_livre_unico g id nome i :
  catalogo_bem_formado g ->
  posicao (fun x => getId x =? id) (itens g) = Some i ->
  nome_livre nome id g ->
  forall j, (getNome <$> itens g) !! j = Some nome -> j = i.
Proof.
  intros (Hnomes & Hids & _ & _) Hi Hlivre j Hj.
  apply posicao_Some in Hi as (it & Hit & Hid & _). apply Z.eqb_eq in Hid.
  unfold nome_livre, buscarPorNome in Hlivre.
  destruct (buscar_nome nome (itens g)) as [o|] eqn:Ho.
  - rewrite item_buscar_nome_find in Ho.
    apply find_Some_posicao in Ho as (k & Hk & Hok).
    apply posicao_Some in Hk as (o' & Hok' & Hnome & _).
    rewrite Hok in Hok'. injection Hok' as <-.
    apply String.eqb_eq in Hnome.
    assert (k = i) as ->.
    { apply (NoDup_lookup (getId <$> itens g) k i id Hids);
        rewrite list_lookup_fmap; [rewrite Hok | rewrite Hit]; simpl;
        congruence. }
    apply (NoDup_lookup (getNome <$> itens g) j i nome Hnomes Hj).
    rewrite list_lookup_fmap, Hok. simpl. congruence.
  - exfalso. apply buscar_nome_None in Ho. apply Ho.
    apply list_elem_of_lookup. eauto.
Qed.

Lemma catalogo_bem_formado_preservado g :
  catalogo_bem_formado g ->
  (forall nome preco, apos catalogo_bem_formado (cadastrar nome preco g))
  /\ (forall id, apos catalogo_bem_formado (remover id g))
  /\ (forall id nome preco,
        apos catalogo_bem_formado (atualizar id nome preco g)).
Proof.
  intros Hinv. pose proof Hinv as (Hnomes & Hids & [Hprox Hval] & Hcampos).
  simpl in Hprox, Hval. split; [|split].
  - intros nome preco. unfold cadastrar. desdobra.
    destruct (empty nome) eqn:Hnome; simpl; [exact Hinv|].
    destruct (CppInt.double_neg preco) eqn:Hpreco; simpl; [exact Hinv|].
    destruct (buscarPorNome nome g) eqn:Hlivre; simpl; [exact Hinv|].
    destruct (CppInt.add (proximoId g) 1) as [seguinte|] eqn:Hsoma; simpl;
      [|exact I].
    apply add_Some in Hsoma. subst seguinte.
    apply buscar_nome_None in Hlivre.
    unfold catalogo_bem_formado, ids_validos. simpl.
    rewrite !fmap_app. simpl. repeat split.
    + apply NoDup_app. split; [exact Hnomes|]. split; [|apply NoDup_singleton].
      intros x Hx Hin. apply list_elem_of_singleton in Hin. congruence.
    + apply NoDup_app. split; [exact Hids|]. split; [|apply NoDup_singleton].
      intros x Hx Hin. apply list_elem_of_singleton in Hin. subst x.
      apply list_elem_of_fmap in Hx as (y & Hy & Hin).
      rewrite Forall_forall in Hval.
      specialize (Hval y Hin). simpl in Hval. lia.
    + lia.
    + apply Forall_app. split.
      * eapply Forall_impl; [exact Hval|]. intros y Hy. simpl in *. lia.
      * constructor; [simpl; lia | constructor].
    + apply Forall_app. split; [exact Hcampos|].
      constructor; [|constructor]. simpl. split; [|exact Hpreco].
      intros ->. discriminate.
  - intros id. unfold remover. desdobra.
    destruct (_ <? _)%nat; simpl; [|exact Hinv].
    unfold catalogo_bem_formado, ids_validos. simpl. repeat split.
    + apply NoDup_fmap_filter. exact Hnomes.
    + apply NoDup_fmap_filter. exact Hids.
    + exact Hprox.
    + apply Forall_List_filter. exact Hval.
    + apply Forall_List_filter. exact Hcampos.
  - intros id nome preco.
    destruct (posicao (fun x => getId x =? id) (itens g)) as [i|] eqn:Hi.
    + pose proof (posicao_Some _ _ _ Hi) as (it & Hit & Hid & _).
      apply Z.eqb_eq in Hid.
      destruct (buscarPorNome nome g) as [o|] eqn:Ho.
      * destruct (getId o =? id) eqn:Hoid.
        -- apply Z.eqb_eq in Hoid.
           assert (nome_livre nome id g) as Hlivre
               by (unfold nome_livre; rewrite Ho; exact Hoid).
           rewrite (itens_atualizar_estado g id nome preco i it Hi Hit Hlivre).
           destruct (empty nome) eqn:Hnome; simpl; [exact Hinv|].
           assert (forall p,
                      CppInt.double_neg p = false ->
                      catalogo_bem_formado
                        (com_itens (<[i := mkItem (Item.id it) nome p]>
                                      (itens g)) g)) as Hnovo.
           { intros p Hp. unfold catalogo_bem_formado, ids_validos. simpl.
             rewrite !list_fmap_insert. simpl. repeat split.
             - apply NoDup_insert_unico; [exact Hnomes|].
               apply (nome_livre_unico g id nome i Hinv Hi Hlivre).
             - rewrite list_insert_id; [exact Hids|].
               rewrite list_lookup_fmap, Hit. reflexivity.
             - exact Hprox.
             - apply Forall_insert; [exact Hval|].
               rewrite Forall_forall in Hval. simpl.
               apply (Hval it). apply list_elem_of_lookup. eauto.
             - apply Forall_insert; [exact Hcampos|]. simpl.
               split; [|exact Hp]. intros ->. discriminate. }
           assert (CppInt.double_neg (Item.preco it) = false) as Hvelho.
           { rewrite Forall_forall in Hcampos.
             apply (Hcampos it). apply list_elem_of_lookup. eauto. }
           destruct (CppInt.double_neg preco) eqn:Hpreco; simpl;
             apply Hnovo; assumption.
        -- unfold atualizar.
           cbv beta iota delta [seq le_estado retorna throw se].
           rewrite Hi, Ho, Hoid. simpl. exact Hinv.
      * assert (nome_livre nome id g) as Hlivre
            by (unfold nome_livre; rewrite Ho; exact I).
        rewrite (itens_atualizar_estado g id nome preco i it Hi Hit Hlivre).
        destruct (empty nome) eqn:Hnome; simpl; [exact Hinv|].
        assert (forall p,
                   CppInt.double_neg p = false ->
                   catalogo_bem_formado
                     (com_itens (<[i := mkItem (Item.id it) nome p]>
                                   (itens g)) g)) as Hnovo.
        { intros p Hp. unfold catalogo_bem_formado, ids_validos. simpl.
          rewrite !list_fmap_insert. simpl. repeat split.
          - apply NoDup_insert_unico; [exact Hnomes|].
            apply (nome_livre_unico g id nome i Hinv Hi Hlivre).
          - rewrite list_insert_id; [exact Hids|].
            rewrite list_lookup_fmap, Hit. reflexivity.
          - exact Hprox.
          - apply Forall_insert; [exact Hval|].
            rewrite Forall_forall in Hval. simpl.
            apply (Hval it). apply list_elem_of_lookup. eauto.
          - apply Forall_insert; [exact Hcampos|]. simpl.
            split; [|exact Hp]. intros ->. discriminate. }
        assert (CppInt.double_neg (Item.preco it) = false) as Hvelho.
        { rewrite Forall_forall in Hcampos.
          apply (Hcampos it). apply list_elem_of_lookup. eauto. }
        destruct (CppInt.double_neg preco) eqn:Hpreco; simpl;
          apply Hnovo; assumption.
    + unfold atualizar.
      cbv beta iota delta [seq le_estado retorna throw se].
      rewrite Hi. simpl. exact Hinv.
Qed.

(** In every catalog a program can build through the manager, no two
    entries share a name and no two share an id; every id is at least 1 and
    below the counter; no entry has an empty name or a price below zero.
    This holds also after an [atualizar] that threw half-way. *)
Theorem catalogo_alcancavel_bem_formado g :
  catalogo_alcancavel g -> catalogo_bem_formado g.
Proof.
  induction 1 as [|g nome preco g' _ IH H|g id g' _ IH H
                   |g id nome preco g' _ IH H].
  - unfold catalogo_bem_formado, ids_validos. simpl.
    repeat split; try constructor; lia.
  - destruct (catalogo_bem_formado_preservado g IH) as (Hc & _ & _).
    exact (apos_estado_depois _ _ _ (Hc nome preco) H).
  - destruct (catalogo_bem_formado_preservado g IH) as (_ & Hr & _).
    exact (apos_estado_depois _ _ _ (Hr id) H).
  - destruct (catalogo_bem_formado_preservado g IH) as (_ & _ & Hu).
    exact (apos_estado_depois _ _ _ (Hu id nome preco) H).
Qed.

Lemma catalogo_exemplo_alcancavel : catalogo_alcancavel catalogo_exemplo.
Proof.
  apply (cat_cadastrar
           (mkGerenciadorItens [mkItem 1 "Toalha" 12.5] 2) "Sabonete" 2);
    [|reflexivity].
  apply (cat_cadastrar gerenciador_novo "Toalha" 12.5); [|reflexivity].
  apply cat_novo.
Defined.

Lemma catalogo_alcancavel_bem_formado_witness :
  catalogo_bem_formado catalogo_exemplo.
Proof.
  apply (catalogo_alcancavel_bem_formado catalogo_exemplo).
  exact catalogo_exemplo_alcancavel.
Defined.

End CatalogoNomesUnicos.

(** ** Orders: the lines a program can build; adding and removing a line *)

Section PedidoLinhas.
Import Pedido.

Implicit Types (this : Pedido) (item : ItemPedido).

Lemma pedido_bem_formado_preservado this :
  pedido_bem_formado this ->
  (forall itemId nomeItem q,
      apos pedido_bem_formado (adicionarItem itemId nomeItem q this))
  /\ (forall itemId, apos pedido_bem_formado (removerItem itemId this)).
Proof.
  unfold pedido_bem_formado. intros Hinv. split.
  - intros itemId nomeItem q. unfold adicionarItem. desdobra.
    destruct (atendido this); simpl; [assumption|].
    destruct (itemId <? 0) eqn:Hid; simpl; [assumption|].
    destruct (empty nomeItem) eqn:Hnome; simpl; [assumption|].
    destruct (q <=? 0) eqn:Hq; simpl; [assumption|].
    assert (nomeItem <> "") as Hn by (intros ->; discriminate).
    reflete.
    destruct (itens this !! itemId) as [item|] eqn:Hitem; simpl.
    + destruct (CppInt.add (quantidade item) q) as [soma|] eqn:Hsoma;
        simpl; [|exact I].
      apply add_Some in Hsoma. apply map_Forall_insert_2; [|assumption].
      apply Hinv in Hitem. simpl in *. intuition lia.
    + apply map_Forall_insert_2; [|assumption]. simpl. intuition lia.
  - intros itemId. unfold removerItem. desdobra.
    destruct (atendido this); simpl; [assumption|].
    destruct (itens this !! itemId) as [item|] eqn:Hitem; simpl;
      [|assumption].
    apply map_Forall_delete. assumption.
Qed.

(** In every order a program can build, each line is stored under its own
    [itemId], that id is not negative, the name is not empty and the
    quantity is positive: an order never holds a line with quantity 0. *)
Theorem pedido_alcancavel_bem_formado this :
  pedido_alcancavel this -> pedido_bem_formado this.
Proof.
  induction 1 as [id camarimId nomeArtista|p id p' _ IH H
                   |p camarimId p' _ IH H|p nomeArtista p' _ IH H
                   |p a p' _ IH H|p itemId nomeItem q p' _ IH H
                   |p itemId p' _ IH H|p p' _ IH H].
  - apply map_Forall_empty.
  - revert H. unfold setId. desdobra.
    destruct (id <? 0); simpl; intros [= <-]; exact IH.
  - revert H. unfold setCamarimId. desdobra.
    destruct (camarimId <? 0); simpl; intros [= <-]; exact IH.
  - revert H. unfold setNomeArtista. desdobra.
    destruct (empty nomeArtista); simpl; intros [= <-]; exact IH.
  - revert H. unfold setAtendido. desdobra. intros [= <-]; exact IH.
  - destruct (pedido_bem_formado_preservado p IH) as (Ha & _).
    exact (apos_estado_depois _ _ _ (Ha itemId nomeItem q) H).
  - destruct (pedido_bem_formado_preservado p IH) as (_ & Hr).
    exact (apos_estado_depois _ _ _ (Hr itemId) H).
  - revert H. unfold marcarAtendido. desdobra. intros [= <-]; exact IH.
Qed.

Lemma pedido_exemplo_alcancavel : pedido_alcancavel pedido_exemplo.
Proof.
  apply (pa_adicionarItem (novo 1 1 "Ana") 1 "Toalha" 2); [apply pa_novo|].
  reflexivity.
Defined.

Lemma pedido_alcancavel_bem_formado_witness :
  pedido_bem_formado pedido_exemplo.
Proof.
  apply (pedido_alcancavel_bem_formado pedido_exemplo).
  exact pedido_exemplo_alcancavel.
Defined.

(** On a pending order, [removerItem] of an item that has no line answers
    false, throws nothing and changes nothing; and a valid [adicionarItem]
    followed by [removerItem] of the same item answers true and leaves the
    order without any line for the item: the whole line goes, also the
    quantity it held before the addition. (The sum must fit an [int].) *)
Theorem pedido_adicionar_remover this itemId :
  atendido this = false ->
  (itens this !! itemId = None -> removerItem itemId this = Retorna false this)
  /\ (forall nomeItem q,
        0 <= itemId -> nomeItem <> "" -> 0 < q ->
        (forall item,
            itens this !! itemId = Some item ->
            CppInt.INT_MIN <= quantidade item + q <= CppInt.INT_MAX) ->
        (adicionarItem itemId nomeItem q ;;; removerItem itemId) this =
        Retorna true (com_itens (delete itemId (itens this)) this)).
Proof.
  intros Hpend. split.
  - intros Hitem. unfold removerItem. desdobra. rewrite Hpend, Hitem.
    reflexivity.
  - intros nomeItem q Hid Hnome Hq Hsoma.
    unfold adicionarItem, removerItem. desdobra. rewrite Hpend. guarda.
    rewrite (empty_false _ Hnome). simpl.
    destruct (itens this !! itemId) as [item|] eqn:Hitem; simpl.
    + rewrite (add_representavel _ _ (Hsoma item eq_refl)). simpl.
      rewrite Hpend. simpl. rewrite lookup_insert_eq. simpl.
      unfold com_itens. simpl. rewrite delete_insert_eq. reflexivity.
    + rewrite Hpend. simpl. rewrite lookup_insert_eq. simpl.
      unfold com_itens. simpl. rewrite delete_insert_eq. reflexivity.
Qed.

Lemma pedido_adicionar_remover_witness :
  (adicionarItem 1 "Toalha" 3 ;;; removerItem 1) pedido_exemplo =
  Retorna true (com_itens (delete 1 (itens pedido_exemplo)) pedido_exemplo).
Proof.
  apply (proj2 (pedido_adicionar_remover pedido_exemplo 1 eq_refl)
           "Toalha" 3);
    [lia | discriminate | lia |].
  intros item [= <-]. vm_compute. split; discriminate.
Defined.

End PedidoLinhas.

(** ** Shopping list: the lines a program can build; replacing a quantity *)

Section ListaLinhas.
Import ListaCompras.

Implicit Types (this : ListaCompras) (item : ItemCompra).

Lemma lista_bem_formada_preservada this :
  lista_bem_formada this ->
  (forall itemId nomeItem q preco,
      apos lista_bem_formada (adicionarItem itemId nomeItem q preco this))
  /\ (forall itemId, apos lista_bem_formada (removerItem itemId this))
  /\ (forall itemId q,
        apos lista_bem_formada (atualizarQuantidade itemId q this))
  /\ apos lista_bem_formada (limpar this).
Proof.
  unfold lista_bem_formada. intros Hinv. split; [|split; [|split]].
  - intros itemId nomeItem q preco. unfold adicionarItem. desdobra.
    destruct (itemId <? 0) eqn:Hid; simpl; [assumption|].
    destruct (empty nomeItem) eqn:Hnome; simpl; [assumption|].
    destruct (q <=? 0) eqn:Hq; simpl; [assumption|].
    destruct (CppInt.double_neg preco) eqn:Hpreco; simpl; [assumption|].
    assert (nomeItem <> "") as Hn by (intros ->; discriminate).
    reflete.
    destruct (itens this !! itemId) as [item|] eqn:Hitem; simpl.
    + destruct (CppInt.add (quantidade item) q) as [soma|] eqn:Hsoma;
        simpl; [|exact I].
      apply add_Some in Hsoma. unfold elemento.
      rewrite lookup_insert_eq. simpl. rewrite insert_insert_eq.
      apply map_Forall_insert_2; [|assumption].
      apply Hinv in Hitem. simpl in *. intuition lia.
    + apply map_Forall_insert_2; [|assumption]. simpl. intuition lia.
  - intros itemId. unfold removerItem. desdobra.
    destruct (itens this !! itemId) as [item|] eqn:Hitem; simpl;
      [|assumption].
    apply map_Forall_delete. assumption.
  - intros itemId q. unfold atualizarQuantidade. desdobra.
    destruct (itens this !! itemId) as [item|] eqn:Hitem; simpl;
      [|assumption].
    destruct (q <=? 0) eqn:Hq; simpl; [assumption|]. reflete.
    unfold elemento. rewrite lookup_insert_eq. simpl.
    rewrite insert_insert_eq. apply map_Forall_insert_2; [|assumption].
    apply Hinv in Hitem. simpl in *. intuition lia.
  - simpl. apply map_Forall_empty.
Qed.

(** In every shopping list a program can build, each line is stored under
    its own [itemId], that id is not negative, the name is not empty, the
    quantity is positive, the unit price is not below zero, and the
    subtotal is exactly the quantity times the unit price. *)
Theorem lista_alcancavel_bem_formada this :
  lista_alcancavel this -> lista_bem_formada this.
Proof.
  induction 1 as [id descricao|l id l' _ IH H|l descricao l' _ IH H
                   |l itemId nomeItem q preco l' _ IH H|l itemId l' _ IH H
                   |l itemId q l' _ IH H|l l' _ IH H].
  - apply map_Forall_empty.
  - revert H. unfold setId. desdobra.
    destruct (id <? 0); simpl; intros [= <-]; exact IH.
  - revert H. unfold setDescricao. desdobra.
    destruct (empty descricao); simpl; intros [= <-]; exact IH.
  - destruct (lista_bem_formada_preservada l IH) as (Ha & _ & _ & _).
    exact (apos_estado_depois _ _ _ (Ha itemId nomeItem q preco) H).
  - destruct (lista_bem_formada_preservada l IH) as (_ & Hr & _ & _).
    exact (apos_estado_depois _ _ _ (Hr itemId) H).
  - destruct (lista_bem_formada_preservada l IH) as (_ & _ & Hu & _).
    exact (apos_estado_depois _ _ _ (Hu itemId q) H).
  - destruct (lista_bem_formada_preservada l IH) as (_ & _ & _ & Hl).
    exact (apos_estado_depois _ _ _ Hl H).
Qed.

Lemma lista_exemplo_alcancavel : lista_alcancavel lista_exemplo.
Proof.
  apply (la_adicionarItem (nova 1 "Semanal") 1 "Sabonete" 3 2);
    [apply la_nova|].
  reflexivity.
Defined.

Lemma lista_alcancavel_bem_formada_witness : lista_bem_formada lista_exemplo.
Proof.
  apply (lista_alcancavel_bem_formada lista_exemplo).
  exact lista_exemplo_alcancavel.
Defined.

(** [ListaCompras::atualizarQuantidade]. For an item without a line it
    throws the shopping-list "not found" exception whatever the quantity;
    for an item with a line and a quantity that is zero or negative it
    throws a validation exception; in both cases the list is left as it
    was. Otherwise it returns: the line holds the new quantity (it replaces
    the old one) and a subtotal of the new quantity times the stored unit
    price, and keeps its name and unit price. *)
Theorem lista_atualizarQuantidade_efeito this itemId q :
  (itens this !! itemId = None ->
   atualizarQuantidade itemId q this =
     Lanca (ListaComprasException "Item não encontrado na lista") this)
  /\ (is_Some (itens this !! itemId) -> q <= 0 ->
      atualizarQuantidade itemId q this =
        Lanca (ValidacaoException "Quantidade deve ser maior que zero") this)
  /\ (forall item,
        itens this !! itemId = Some item -> 0 < q ->
        atualizarQuantidade itemId q this =
          Retorna tt
            (com_itens
               (<[itemId :=
                    mkItemCompra (ListaCompras.itemId item) (nomeItem item) q
                      (preco item) (CppInt.mul_double q (preco item))]>
                  (itens this)) this)).
Proof.
  unfold atualizarQuantidade. desdobra. split; [|split].
  - intros ->. reflexivity.
  - intros [item ->] Hq. guarda. reflexivity.
  - intros item -> Hq. guarda. unfold elemento.
    rewrite lookup_insert_eq. simpl. rewrite insert_insert_eq. reflexivity.
Qed.

Lemma lista_atualizarQuantidade_efeito_witness :
  atualizarQuantidade 1 7 lista_exemplo =
    Retorna tt
      (mkListaCompras 1 "Semanal"
         {[ 1 := mkItemCompra 1 "Sabonete" 7 2 14 ]})
  /\ atualizarQuantidade 1 0 lista_exemplo =
       Lanca (ValidacaoException "Quantidade deve ser maior que zero")
         lista_exemplo
  /\ atualizarQuantidade 5 (-2) lista_exemplo =
       Lanca (ListaComprasException "Item não encontrado na lista")
         lista_exemplo.
Proof.
  split; [|split].
  - etransitivity.
    + apply (proj2 (proj2 (lista_atualizarQuantidade_efeito lista_exemplo 1 7))
               (novoItemCompra 1 "Sabonete" 3 2)); [reflexivity | lia].
    + vm_compute. reflexivity.
  - apply (proj1 (proj2 (lista_atualizarQuantidade_efeito lista_exemplo 1 0)));
      [eexists; reflexivity | lia].
  - apply (proj1 (lista_atualizarQuantidade_efeito lista_exemplo 5 (-2))).
    reflexivity.
Defined.

End ListaLinhas.

(** ** Exceptions leave a ledger untouched and never leave the menu *)

Section ExcecoesAtomicas.

(** Closes a goal [m s = Lanca e s' -> s' = s] by cases on the guards of
    [m]. *)
Ltac atomica :=
  desdobra;
  repeat match goal with
    | |- context [if ?c then _ else _] => destruct c; simpl
    | |- context [match ?m !! ?k with _ => _ end] =>
        destruct (m !! k); simpl
    | |- context [CppInt.add ?a ?b] => destruct (CppInt.add a b); simpl
    end;
  congruence.

(** Whenever one of the operations on the lines of a ledger throws (the
    stock's [adicionarItem], [removerItem] and [atualizarQuantidade], the
    dressing room's [inserirItem] and [removerItem], the order's
    [adicionarItem] and [removerItem], the shopping list's [adicionarItem]
    and [atualizarQuantidade]), the object is exactly as it was before the
    call. *)
Theorem ledgers_excecao_atomica :
  (forall (s : Estoque.Estoque) e s',
      (forall i n q, Estoque.adicionarItem i n q s = Lanca e s' -> s' = s)
      /\ (forall i q, Estoque.removerItem i q s = Lanca e s' -> s' = s)
      /\ (forall i q, Estoque.atualizarQuantidade i q s = Lanca e s' ->
                      s' = s))
  /\ (forall (s : Camarim.Camarim) e s',
      (forall i n q, Camarim.inserirItem i n q s = Lanca e s' -> s' = s)
      /\ (forall i q, Camarim.removerItem i q s = Lanca e s' -> s' = s))
  /\ (forall (s : Pedido.Pedido) e s',
      (forall i n q, Pedido.adicionarItem i n q s = Lanca e s' -> s' = s)
      /\ (forall i, Pedido.removerItem i s = Lanca e s' -> s' = s))
  /\ (forall (s : ListaCompras.ListaCompras) e s',
      (forall i n q p,
          ListaCompras.adicionarItem i n q p s = Lanca e s' -> s' = s)
      /\ (forall i q,
          ListaCompras.atualizarQuantidade i q s = Lanca e s' -> s' = s)).
Proof.
  split; [|split; [|split]].
  - intros s e s'. destruct (estoque_excecao_atomica s) as (Ha & Hr & Hu).
    repeat split; intros; eauto.
  - intros s e s'. split.
    + intros i n q. unfold Camarim.inserirItem. atomica.
    + intros i q. unfold Camarim.removerItem. atomica.
  - intros s e s'. split.
    + intros i n q. unfold Pedido.adicionarItem. atomica.
    + intros i. unfold Pedido.removerItem. atomica.
  - intros s e s'. split.
    + intros i n q p. unfold ListaCompras.adicionarItem. atomica.
    + intros i q. unfold ListaCompras.atualizarQuantidade. atomica.
Qed.

Lemma ledgers_excecao_atomica_witness :
  Camarim.removerItem 1 6 camarim_exemplo =
    Lanca (CamarimException "Quantidade insuficiente no camarim")
      camarim_exemplo
  /\ camarim_exemplo = camarim_exemplo.
Proof.
  split; [reflexivity|].
  destruct ledgers_excecao_atomica as (_ & Hc & _).
  apply (proj2 (Hc camarim_exemplo
                  (CamarimException "Quantidade insuficiente no camarim")
                  camarim_exemplo) 1 6).
  reflexivity.
Defined.

(** Every handler of the menu catches [ExcecaoBase], the root of all the
    exception classes of the system: whatever a call wrapped in such a
    handler throws is reported (the exception, with the object as the call
    left it), and nothing is propagated further. *)
Theorem menu_captura_tudo {S A} (m : metodo S A) (s : S) :
  (forall c, capturada_por c_Base c = true)
  /\ (forall e s', m s = Lanca e s' -> Menu.captura m s = Retorna (Some e) s')
  /\ (forall a s', m s = Retorna a s' -> Menu.captura m s = Retorna None s')
  /\ (forall e s', Menu.captura m s <> Lanca e s').
Proof.
  assert (forall c, capturada_por c_Base c = true) as Hbase
      by (intros []; reflexivity).
  split; [exact Hbase|]. unfold Menu.captura.
  split; [|split].
  - intros e s' ->. rewrite Hbase. reflexivity.
  - intros a s' ->. reflexivity.
  - intros e s'. destruct (m s) as [a s0|e0 s0|]; try discriminate.
    rewrite Hbase. discriminate.
Qed.

Lemma menu_captura_tudo_witness :
  Menu.captura (Estoque.removerItem 1 11) estoque_exemplo =
  Retorna
    (Some (EstoqueInsuficienteException
             "Quantidade insuficiente. Disponível: 10, Solicitado: 11"))
    estoque_exemplo.
Proof.
  apply (proj1 (proj2 (menu_captura_tudo (Estoque.removerItem 1 11)
                         estoque_exemplo))).
  reflexivity.
Defined.

End ExcecoesAtomicas.

(** ** More worked scenarios *)

Section MaisCenarios.

(** The total of the list of [cenario_lista_compras]. *)
Example cenario_total :
  ListaCompras.calcularTotal
    (ListaCompras.mkListaCompras 1 "Semanal"
       {[ 1 := ListaCompras.mkItemCompra 1 "Sabonete" 5 2 10;
          4 := ListaCompras.mkItemCompra 4 "Toalha" 2 12.5 25 ]})
  = 35%float.
Proof. vm_compute. reflexivity. Qed.

(** Updating a dressing room that does not exist. *)
Example cenario_camarim_inexistente :
  Camarim.atualizar 999 "X" 1 Camarim.gerenciador_novo =
  Lanca (CamarimException "Camarim com ID 999 não encontrado")
    Camarim.gerenciador_novo.
Proof. vm_compute. reflexivity. Qed.

End MaisCenarios.
